(** * dirutility: directory walking, filtering and tree building

    A shallow embedding of [dirutility/walk/walk.py], [dirutility/walk/crawler.py]
    and the older single-module [dirutility/walk.py], with the properties the
    specification states about them.

    Python strings are [string]; a list is a [list]; a dict is an
    insertion-ordered association list; an exception is the [Raise] case of
    [result].  The file system is a finite tree of directories, and [os.walk]
    is the list of the triples it yields. *)

From Stdlib Require Import List String Ascii Bool Arith ZArith Lia Permutation.
Import ListNotations.

Set Implicit Arguments.
Set Warnings "-register-all".

Open Scope string_scope.
Open Scope list_scope.

(** ** Exceptions *)

(** The exceptions of Python that the code raises, and [RootNotFound], the
    failure the specification names for a root that is no directory; only
    the parallel traverser of the specification reports it. *)
Inductive pyerr : Type :=
| AttributeError
| TypeError
| IndexError
| KeyError
| RootNotFound.

Inductive result (A : Type) : Type :=
| Ok (a : A)
| Raise (e : pyerr).

Arguments Ok {A} a.
Arguments Raise {A} e.

Definition bind {A B : Type} (r : result A) (k : A -> result B) : result B :=
  match r with
  | Ok a => k a
  | Raise e => Raise e
  end.

Notation "x <- r ;; k" := (bind r (fun x => k))
  (at level 61, r at next level, right associativity).

(** A [for] loop whose body may raise: the first exception leaves the loop. *)
Fixpoint for_each {A S : Type} (body : S -> A -> result S) (l : list A) (s : S)
  : result S :=
  match l with
  | [] => Ok s
  | a :: l' => s' <- body s a ;; for_each body l' s'
  end.

(** ** Python strings and [posixpath] *)

Module Py.

Definition sep : ascii := "/"%char.

Definition is_sep (c : ascii) : bool := Ascii.eqb c sep.

(** [s[n:]] *)
Fixpoint slice_from (n : nat) (s : string) : string :=
  match n, s with
  | O, _ => s
  | S _, EmptyString => EmptyString
  | S n', String _ s' => slice_from n' s'
  end.

(** [s.startswith(p)] *)
Definition startswith (p s : string) : bool := String.prefix p s.

(** [t in s] on strings: [t] occurs in [s] as a substring. *)
Fixpoint contains (t s : string) : bool :=
  String.prefix t s ||
  match s with
  | EmptyString => false
  | String _ s' => contains t s'
  end.

(** [s.endswith('/')] *)
Fixpoint endswith_sep (s : string) : bool :=
  match s with
  | EmptyString => false
  | String c EmptyString => is_sep c
  | String _ s' => endswith_sep s'
  end.

(** [s.rfind('/')]: [None] stands for Python's [-1]. *)
Fixpoint rfind_sep (s : string) : option nat :=
  match s with
  | EmptyString => None
  | String c s' =>
      match rfind_sep s' with
      | Some i => Some (S i)
      | None => if is_sep c then Some O else None
      end
  end.

(** [s.rfind('/') + 1] *)
Definition rfind_sep_plus1 (s : string) : nat :=
  match rfind_sep s with
  | Some i => S i
  | None => O
  end.

(** [s.split('/')]: never empty, [''.split('/') == ['']]. *)
Fixpoint split_sep (s : string) : list string :=
  match s with
  | EmptyString => [EmptyString]
  | String c s' =>
      if is_sep c then EmptyString :: split_sep s'
      else match split_sep s' with
           | [] => [String c EmptyString]
           | h :: t => String c h :: t
           end
  end.

(** [posixpath.join(a, p)] for two arguments. *)
Definition join (a p : string) : string :=
  if startswith "/" p then p
  else if (String.length a =? 0)%nat || endswith_sep a then a ++ p
  else a ++ "/" ++ p.

(** [posixpath.basename(p)]: [p[p.rfind('/') + 1:]] *)
Definition basename (p : string) : string :=
  slice_from (rfind_sep_plus1 p) p.

(** No separator occurs in [s]. *)
Fixpoint no_sep (s : string) : bool :=
  match s with
  | EmptyString => true
  | String c s' => negb (is_sep c) && no_sep s'
  end.

(** *** [pathlib.PurePosixPath] *)

(** The anchor of a path: ["//"] for exactly two leading slashes, ["/"] for
    one or for three and more, nothing otherwise. *)
Definition Path_root (s : string) : string :=
  if startswith "//" s && negb (startswith "///" s) then "//"
  else if startswith "/" s then "/"
  else "".

(** The parts after the anchor: empty segments and ["."] are dropped. *)
Definition Path_parts (s : string) : list string :=
  filter (fun x => negb (String.eqb x "") && negb (String.eqb x "."))
         (split_sep s).

(** [str(Path(s))] *)
Definition Path_str (s : string) : string :=
  match Path_root s, Path_parts s with
  | EmptyString, [] => "."
  | r, ps => r ++ String.concat "/" ps
  end.

(** [Path.is_absolute()] on a path whose string is [s]. *)
Definition is_absolute (s : string) : bool := startswith "/" s.

(** [str(Path(s).absolute())] with the working directory [cwd]: the path
    itself when it is absolute, [Path(cwd, s)] otherwise. *)
Definition Path_absolute (cwd s : string) : string :=
  let p := Path_str s in
  if is_absolute p then p else Path_str (join cwd p).

End Py.

(** ** The file system and [os.walk] *)

(** A directory holds its sub-directories and the names of its files, both in
    the order [os.scandir] lists them.  Symbolic links to directories, which
    [os.walk] lists and does not follow, are left out. *)
Inductive dir : Type :=
| Dir (subdirs : list (string * dir)) (files : list string).

Definition subdirs (d : dir) : list (string * dir) :=
  match d with Dir ds _ => ds end.

Definition files (d : dir) : list string :=
  match d with Dir _ fs => fs end.

(** What lies at a path: [None] when the path does not exist or is not a
    directory. *)
Definition filesystem : Type := string -> option dir.

(** One triple [(dirpath, dirnames, filenames)] yielded by [os.walk]. *)
Record walk_entry : Type := WalkEntry {
  dirpath : string;
  dirnames : list string;
  filenames : list string
}.

(** [os.walk] below an existing directory [d] whose path is [path]. *)
Fixpoint walk_dir (topdown : bool) (path : string) (d : dir) : list walk_entry :=
  match d with
  | Dir ds fs =>
      let here := WalkEntry path (map fst ds) fs in
      let below :=
        (fix walk_children (l : list (string * dir)) : list walk_entry :=
           match l with
           | [] => []
           | (n, c) :: l' => walk_dir topdown (Py.join path n) c ++ walk_children l'
           end) ds in
      if topdown then here :: below else below ++ [here]
  end.

(** [os.walk(top, topdown)]: with the default [onerror=None] the error of
    listing a missing [top] is swallowed and nothing is yielded. *)
Definition os_walk (fs : filesystem) (top : string) (topdown : bool)
  : list walk_entry :=
  match fs top with
  | Some d => walk_dir topdown top d
  | None => []
  end.

(** ** [dirutility/walk/crawler.py]: the sequential traverser *)

(** A level bound: an [int], or [math.inf]. *)
Inductive level : Type :=
| Fin (n : Z)
| Inf.

(** [n == m] between the [int] that [get_level] returns and a bound. *)
Definition level_is (n : Z) (m : level) : bool :=
  match m with
  | Fin k => Z.eqb n k
  | Inf => false
  end.

(** What [Crawler] uses of a [PathFilters] object: two methods and two
    attributes.  The class itself lives in [dirutility/walk/filter.py], which
    is not among the sources; the specification gives both methods as pure
    functions that raise nothing, and so they are here.  The object is true
    when tested by [if self.filters]. *)
Record PathFilters : Type := {
  validate : string -> bool;
  get_level : string -> Z;
  max_level : level;
  non_empty_folders : bool
}.

(** [self.filters] is a [PathFilters] object, or [False] ([None] here), which
    has no attributes. *)
Definition filters_non_empty_folders (f : option PathFilters) : result bool :=
  match f with
  | Some pf => Ok (non_empty_folders pf)
  | None => Raise AttributeError
  end.

Module Crawler.

Record t : Type := {
  directory : list string;
  filters : option PathFilters;
  full_paths : bool;
  topdown : bool
}.

Section Methods.

Variable fs : filesystem.
Variable self : t.

Definition _add_filepath_relative (filepaths : list string)
           (directory fullname : string) : list string :=
  filepaths ++ [fullname].

Definition _add_filepath_absolute (filepaths : list string)
           (directory fullname : string) : list string :=
  filepaths ++ [Py.join directory fullname].

(** [self.add_path], chosen in [__init__] from [full_paths]. *)
Definition add_path : list string -> string -> string -> list string :=
  if full_paths self then _add_filepath_absolute else _add_filepath_relative.

(** [root = root[len(str(directory)) + 1:]] *)
Definition relative (dir root : string) : string :=
  Py.slice_from (String.length dir + 1) root.

(** The inner [for filename in files] loop of [encompass]. *)
Definition add_files (dir root : string) (names : list string)
           (filepaths : list string) : list string :=
  fold_left (fun acc filename => add_path acc dir (Py.join root filename))
            names filepaths.

(** The body of the [os.walk] loop of [encompass]. *)
Definition encompass_entry (dir : string) (filepaths : list string)
           (e : walk_entry) : result (list string) :=
  let root := relative dir (dirpath e) in
  nef <- filters_non_empty_folders (filters self) ;;
  if nef then Ok (add_path filepaths dir root)
  else Ok (add_files dir root (filenames e) filepaths).

Definition encompass (filepaths : list string) : result (list string) :=
  for_each
    (fun acc dir =>
       for_each (encompass_entry dir) (os_walk fs dir (topdown self)) acc)
    (directory self) filepaths.

(** The inner [for filename in files] loop of [filter]. *)
Definition add_valid_files (pf : PathFilters) (dir root : string)
           (names : list string) (filepaths : list string) : list string :=
  fold_left
    (fun acc filename =>
       let fullname := Py.join root filename in
       if validate pf fullname then add_path acc dir fullname else acc)
    names filepaths.

(** The body of the [os.walk] loop of [filter]. *)
Definition filter_entry (pf : PathFilters) (dir : string)
           (filepaths : list string) (e : walk_entry) : list string :=
  let root := relative dir (dirpath e) in
  if validate pf root then
    if non_empty_folders pf && level_is (get_level pf root) (max_level pf)
    then add_path filepaths dir root
    else add_valid_files pf dir root (filenames e) filepaths
  else filepaths.

Definition filter (pf : PathFilters) (filepaths : list string)
  : list string :=
  fold_left
    (fun acc dir =>
       fold_left (filter_entry pf dir) (os_walk fs dir (topdown self)) acc)
    (directory self) filepaths.

(** [__init__]: the walk runs in the constructor and fills
    [self.filepaths]. *)
Definition init : result (list string) :=
  match filters self with
  | Some pf => Ok (filter pf [])
  | None => encompass []
  end.

End Methods.

End Crawler.

(** ** [dirutility/walk/walk.py]: [DirPaths] *)

(** Truth value of an optional list argument: [None] and [[]] are false. *)
Definition truthy {A : Type} (o : option (list A)) : bool :=
  match o with
  | Some (_ :: _) => true
  | _ => false
  end.

Definition level_eqb (a b : level) : bool :=
  match a, b with
  | Fin x, Fin y => Z.eqb x y
  | Inf, Inf => true
  | _, _ => false
  end.

Module DirPaths.

(** The [directory] argument: one path, or a list of paths. *)
Inductive directory_arg : Type :=
| OnePath (s : string)
| PathList (l : list string).

Definition squote : ascii := "039"%char.
Definition dquote : ascii := "034"%char.

(** [repr] of a string: between single quotes, unless it holds a single
    quote and no double quote; the quote, the backslash, the newline, the
    carriage return and the tab are escaped, every other character is taken
    to be printable. *)
Definition repr_quote (s : string) : ascii :=
  if Py.contains (String squote EmptyString) s
     && negb (Py.contains (String dquote EmptyString) s)
  then dquote else squote.

Fixpoint repr_chars (q : ascii) (s : string) : string :=
  match s with
  | EmptyString => EmptyString
  | String c s' =>
      let rest := repr_chars q s' in
      if Ascii.eqb c "\"%char then "\\" ++ rest
      else if Ascii.eqb c q then String "\"%char (String c rest)
      else if Ascii.eqb c "010"%char then "\n" ++ rest
      else if Ascii.eqb c "013"%char then "\r" ++ rest
      else if Ascii.eqb c "009"%char then "\t" ++ rest
      else String c rest
  end.

Definition repr_str (s : string) : string :=
  let q := repr_quote s in
  String q (repr_chars q s ++ String q EmptyString).

(** [str] of a list: the [repr] of its items between brackets. *)
Definition str_list (l : list string) : string :=
  "[" ++ String.concat ", " (map repr_str l) ++ "]".

(** [str(directory)]: defined for every object, a list included. *)
Definition py_str (d : directory_arg) : string :=
  match d with
  | OnePath s => s
  | PathList l => str_list l
  end.

(** [str(directory)] inside [try]: the [TypeError] the [except] clause
    waits for is never raised by [str]. *)
Definition try_str (d : directory_arg) : result string := Ok (py_str d).

Section Class.

(** The [filters] argument is handed to [PathFilters] unread; only its
    truth value is used here. *)
Variable filters_arg : Type.

(** The constructor of [PathFilters] ([dirutility/walk/filter.py]). *)
Variable new_PathFilters :
  option (list string) -> option (list string) -> level -> level ->
  option (list filters_arg) -> bool -> PathFilters.

(** [Sprinter(...).sprinter()] ([dirutility/walk/multiprocess.py]). *)
Variable Sprinter_sprinter :
  filesystem -> list string -> option PathFilters -> bool -> nat ->
  result (list string).

Record args : Type := {
  directory : directory_arg;
  full_paths : bool;
  topdown : bool;
  to_include : option (list string);
  to_exclude : option (list string);
  min_level : level;
  max_level : level;
  filters : option (list filters_arg);
  non_empty_folders : bool;
  parallelize : bool;
  pool_size : nat
}.

(** The options that make [__init__] build a [PathFilters] object are
    all left at their defaults. *)
Definition no_filter_options (a : args) : bool :=
  negb (truthy (to_include a))
  && negb (truthy (to_exclude a))
  && negb (truthy (filters a))
  && level_eqb (min_level a) (Fin 0)
  && level_eqb (max_level a) Inf.

Record t : Type := {
  self_full_paths : bool;
  self_topdown : bool;
  self_filters : option PathFilters;
  self_parallelize : bool;
  self_pool_size : nat;
  self_directory : list string
}.

Definition init (a : args) : t :=
  {| self_full_paths := full_paths a;
     self_topdown := topdown a;
     self_filters :=
       if truthy (to_include a) || truthy (to_exclude a)
          || truthy (filters a)
          || negb (level_eqb (min_level a) (Fin 0))
          || negb (level_eqb (max_level a) Inf)
       then Some (new_PathFilters (to_include a) (to_exclude a)
                    (min_level a) (max_level a) (filters a)
                    (non_empty_folders a))
       else None;
     self_parallelize := parallelize a;
     self_pool_size := pool_size a;
     self_directory :=
       match try_str (directory a) with
       | Ok s => [s]
       | Raise _ =>
           match directory a with
           | OnePath s =>
               map (fun c => String c EmptyString) (list_ascii_of_string s)
           | PathList l => l
           end
       end |}.

(** Modelled from the spec: [Crawler.crawler], which [DirPaths.walk] calls
    and [crawler.py] does not define, hands back the collection of matched
    paths the traverser accumulated. *)
Definition Crawler_crawler (fs : filesystem) (c : Crawler.t)
  : result (list string) :=
  Crawler.init fs c.

(** [_get_filepaths] prints the number of paths, with the [end] of the
    [looptools] timer class, and returns [self.filepaths]. *)
Definition _get_filepaths (filepaths : list string) : list string :=
  filepaths.

Definition walk (fs : filesystem) (self : t) : result (list string) :=
  filepaths <-
    (if self_parallelize self then
       Sprinter_sprinter fs (self_directory self) (self_filters self)
         (self_full_paths self) (self_pool_size self)
     else
       Crawler_crawler fs
         {| Crawler.directory := self_directory self;
            Crawler.filters := self_filters self;
            Crawler.full_paths := self_full_paths self;
            Crawler.topdown := self_topdown self |}) ;;
  Ok (_get_filepaths filepaths).

End Class.

End DirPaths.

(** ** [dirutility/walk.py]: the single-module [DirPaths] *)

Module Walk.

(** An item of [self.filepaths]: a [str], or a [Path] object (given by its
    string).  The two are never equal to each other. *)
Inductive item : Type :=
| Str (s : string)
| PathObj (s : string).

Definition item_eq_dec (a b : item) : {a = b} + {a <> b}.
Proof. decide equality; apply string_dec. Defined.

(** [str(Path(x))] *)
Definition Path_of (x : item) : string :=
  match x with
  | Str s => Py.Path_str s
  | PathObj s => s
  end.

(** [os.path.basename(Path(x))] *)
Definition basename_Path (x : item) : string := Py.basename (Path_of x).

(** [x in l] *)
Definition mem (x : item) (l : list item) : bool :=
  if in_dec item_eq_dec x l then true else false.

(** [list(set(a).difference(set(b)))]; the order of the outcome is a choice
    of the interpreter, here that of the first occurrences in [a]. *)
Definition set_difference (a b : list item) : list item :=
  nodup item_eq_dec (List.filter (fun x => negb (mem x b)) a).

Record DirPaths : Type := {
  directory : string;
  full_paths : bool;
  topdown : bool;
  to_include : option (list string);
  to_exclude : option (list string)
}.

Section Methods.

Variable fs : filesystem.
(** The working directory, as [Path.absolute] reads it. *)
Variable cwd : string.
Variable self : DirPaths.

(** [[path for path in filepaths for term in terms
      if term in os.path.basename(Path(path))]] *)
Definition matching (terms : list string) (filepaths : list item)
  : list item :=
  flat_map
    (fun path =>
       flat_map
         (fun term =>
            if Py.contains term (basename_Path path) then [path] else [])
         terms)
    filepaths.

Definition _get_filepaths (filepaths : list item) : list item :=
  let filepaths :=
    if truthy (to_include self)
    then matching (match to_include self with Some l => l | None => [] end)
                  filepaths
    else filepaths in
  let filepaths :=
    if truthy (to_exclude self)
    then
      let excludes :=
        matching (match to_exclude self with Some l => l | None => [] end)
                 filepaths in
      set_difference filepaths excludes
    else filepaths in
  if full_paths self
  then map (fun x => PathObj (Py.Path_absolute cwd (Path_of x))) filepaths
  else filepaths.

(** The inner loop of [walk]: the files of one directory. *)
Definition walk_entry_files (filepaths : list item) (e : walk_entry)
  : list item :=
  fold_left
    (fun acc filename =>
       if negb (Py.startswith "." filename)
       then acc ++ [Str (Py.join (dirpath e) filename)]
       else acc)
    (filenames e) filepaths.

(** [walk], entered with [self.filepaths = filepaths]. *)
Definition walk_from (filepaths : list item) : list item :=
  _get_filepaths
    (fold_left walk_entry_files
               (os_walk fs (directory self) (topdown self)) filepaths).

(** [walk] on a freshly constructed object. *)
Definition walk : list item := walk_from [].

End Methods.

End Walk.

(** ** [dirutility/walk/walk.py]: [DirTree] *)

(** A value stored in a dict of the tree: [None], or a reference to a dict. *)
Inductive pyval : Type :=
| PNone
| PRef (a : nat).

(** A dict keeps its keys in insertion order. *)
Definition pydict : Type := list (string * pyval).

(** The dict objects allocated so far; a reference is an index. *)
Definition heap : Type := list pydict.

Module Dict.

(** [d.get(k)] on the items of a dict: [None] for a missing key. *)
Fixpoint lookup (k : string) (d : pydict) : pyval :=
  match d with
  | [] => PNone
  | (k', v) :: d' => if String.eqb k k' then v else lookup k d'
  end.

(** [d[k] = v]: an existing key keeps its place, a new one goes last. *)
Fixpoint store (k : string) (v : pyval) (d : pydict) : pydict :=
  match d with
  | [] => [(k, v)]
  | (k', v') :: d' =>
      if String.eqb k k' then (k', v) :: d' else (k', v') :: store k v d'
  end.

(** The items of [dict.fromkeys(keys)]. *)
Definition fromkeys (keys : list string) : pydict :=
  fold_left (fun d k => store k PNone d) keys [].

(** [dict.get(d, k)]: a [TypeError] unless [d] is a dict. *)
Definition get (h : heap) (d : pyval) (k : string) : result pyval :=
  match d with
  | PNone => Raise TypeError
  | PRef a =>
      match nth_error h a with
      | Some items => Ok (lookup k items)
      | None => Raise TypeError
      end
  end.

(** Replace the object at address [a]. *)
Fixpoint write (a : nat) (items : pydict) (h : heap) : heap :=
  match a, h with
  | _, [] => []
  | O, _ :: h' => items :: h'
  | S a', o :: h' => o :: write a' items h'
  end.

(** [d[k] = v] through a reference: [None] does not support item
    assignment. *)
Definition setitem (h : heap) (d : pyval) (k : string) (v : pyval)
  : result heap :=
  match d with
  | PNone => Raise TypeError
  | PRef a =>
      match nth_error h a with
      | Some items => Ok (write a (store k v items) h)
      | None => Raise TypeError
      end
  end.

End Dict.

Module DirTree.

(** The value under ['folders'] or ['files'] of a branch: [None] or a dict
    from ['include'] and ['exclude'] to lists of names. *)
Definition rule : Type := option (list (string * list string)).

(** One level of [branches]: a dict from ['folders'] and ['files'] to
    rules. *)
Definition branch : Type := list (string * rule).

(** What [exclude] and [include] are bound to in [_filter]. *)
Inductive operand : Type :=
| BoundMethod_get (d : list (string * list string))
| Names (l : list string).

(** Truth value of a rule: [None] and the empty dict are false. *)
Definition rule_truthy (r : rule) : bool :=
  match r with
  | Some (_ :: _) => true
  | _ => false
  end.

(** Truth value of an operand: a bound method is true. *)
Definition operand_truthy (o : operand) : bool :=
  match o with
  | BoundMethod_get _ => true
  | Names l => match l with [] => false | _ => true end
  end.

(** [x in o]: a bound method is not iterable. *)
Definition py_in (x : string) (o : operand) : result bool :=
  match o with
  | BoundMethod_get _ => Raise TypeError
  | Names l => Ok (if in_dec string_dec x l then true else false)
  end.

(** [l[i]] *)
Definition list_getitem {A : Type} (l : list A) (i : nat) : result A :=
  match nth_error l i with
  | Some x => Ok x
  | None => Raise IndexError
  end.

(** [d[k]] *)
Fixpoint dict_getitem {A : Type} (d : list (string * A)) (k : string)
  : result A :=
  match d with
  | [] => Raise KeyError
  | (k', v) :: d' => if String.eqb k k' then Ok v else dict_getitem d' k
  end.

Record t : Type := {
  tree_dict : pyval;
  directory : string;
  start : nat;
  branches : option (list branch)
}.

(** Truth value of [self.branches]. *)
Definition branches_truthy (b : option (list branch)) : bool := truthy b.

(** [self.branches[index]] *)
Definition branches_getitem (b : option (list branch)) (i : nat)
  : result branch :=
  match b with
  | Some l => list_getitem l i
  | None => Raise TypeError
  end.

Section Methods.

Variable fs : filesystem.

(** One turn of the loop of [_filter]: [Ok (Some b)] is [return b],
    [Ok None] goes on to the next index. *)
Definition _filter_at (self : t) (folders : list string)
           (folder_or_file : string) (index : nat)
  : result (option bool) :=
  b <- branches_getitem (branches self) index ;;
  filters <- dict_getitem b folder_or_file ;;
  if rule_truthy filters then
    let d := match filters with Some d => d | None => [] end in
    let exclude := BoundMethod_get d in
    let include := BoundMethod_get d in
    name <- list_getitem folders index ;;
    excluded <-
      (if operand_truthy exclude then py_in name exclude else Ok false) ;;
    if excluded then Ok (Some false)
    else
      included <-
        (if operand_truthy include then py_in name include else Ok true) ;;
      if negb included then Ok (Some false) else Ok None
  else Ok None.

Fixpoint _filter_loop (self : t) (folders : list string)
         (folder_or_file : string) (indices : list nat) : result bool :=
  match indices with
  | [] => Ok true
  | index :: rest =>
      r <- _filter_at self folders folder_or_file index ;;
      match r with
      | Some b => Ok b
      | None => _filter_loop self folders folder_or_file rest
      end
  end.

Definition _filter (self : t) (folders : list string)
           (folder_or_file : string) : result bool :=
  _filter_loop self folders folder_or_file (seq 0 (List.length folders)).

(** [reduce(dict.get, keys, init)] *)
Definition reduce_get (h : heap) (keys : list string) (init : pyval)
  : result pyval :=
  for_each (Dict.get h) keys init.

(** The three lines that put a visited directory into the tree. *)
Definition insert (self : t) (h : heap) (folders : list string)
           (names : list string) : result heap :=
  let files := PRef (List.length h) in
  let h := h ++ [Dict.fromkeys names] in
  parent <- reduce_get h (removelast folders) (tree_dict self) ;;
  Dict.setitem h parent (last folders "") files.

(** The body of the loop of [get]. *)
Definition get_entry (self : t) (h : heap) (e : walk_entry) : result heap :=
  let folders := Py.split_sep (Py.slice_from (start self) (dirpath e)) in
  if branches_truthy (branches self) then
    ok <- _filter self folders "folders" ;;
    if ok then insert self h folders (filenames e) else Ok h
  else insert self h folders (filenames e).

Definition get (self : t) (h : heap) : result heap :=
  for_each (get_entry self) (os_walk fs (directory self) true) h.

(** [__init__]: [tree_dict] is the first object of a fresh heap; the walk
    runs in the constructor.  The outcome is the object and the heap its
    [tree_dict] points into. *)
Definition init (root : string) (b : option (list branch))
  : result (t * heap) :=
  let directory := Py.Path_str root in
  let self := {| tree_dict := PRef 0;
                 directory := directory;
                 start := Py.rfind_sep_plus1 directory;
                 branches := b |} in
  h <- get self [[]] ;;
  Ok (self, h).

End Methods.

(** *** Reading the result *)

(** The nested mapping a reference stands for. *)
Inductive tree : Type :=
| Leaf
| Node (items : list (string * tree)).

(** Follow references, at most [fuel] levels deep. *)
Fixpoint read (fuel : nat) (h : heap) (v : pyval) : option tree :=
  match v with
  | PNone => Some Leaf
  | PRef a =>
      match fuel with
      | O => None
      | S fuel' =>
          match nth_error h a with
          | None => None
          | Some items =>
              option_map Node
                ((fix read_items (l : pydict) : option (list (string * tree)) :=
                    match l with
                    | [] => Some []
                    | (k, v') :: l' =>
                        match read fuel' h v', read_items l' with
                        | Some t', Some r => Some ((k, t') :: r)
                        | _, _ => None
                        end
                    end) items)
          end
      end
  end.

(** The mapping of the contents of a directory: its files, each with a
    null, then its sub-directories, each with the mapping of its own
    contents. *)
Fixpoint tree_of (d : dir) : tree :=
  match d with
  | Dir ds fs =>
      Node (map (fun f => (f, Leaf)) fs ++
            (fix children (l : list (string * dir)) : list (string * tree) :=
               match l with
               | [] => []
               | (n, c) :: l' => (n, tree_of c) :: children l'
               end) ds)
  end.

End DirTree.

(** ** The filter set of the specification *)

Module FilterSet.

Record t : Type := {
  includeTerms : list string;
  excludeTerms : list string;
  minLevel : Z;
  maxLevel : level;
  nonEmptyFoldersOnly : bool
}.

(** Modelled from the spec: [PathFilters.get_level]
    ([dirutility/walk/filter.py] is not among the sources).  The level of a
    relative path is the count of its separator-delimited segments; the
    empty path, the root itself, has level 0. *)
Definition getLevel (path : string) : Z :=
  if String.eqb path "" then 0%Z
  else Z.of_nat (List.length (Py.split_sep path)).

(** [n > m] for an [int] and a bound. *)
Definition above (n : Z) (m : level) : bool :=
  match m with
  | Fin k => Z.ltb k n
  | Inf => false
  end.

Definition any_in (terms : list string) (component : string) : bool :=
  existsb (fun term => Py.contains term component) terms.

(** Modelled from the spec: [PathFilters.validate]
    ([dirutility/walk/filter.py] is not among the sources).  The five steps
    of the contract: the level bounds, then the exclude terms and the
    include terms against the final component of the path. *)
Definition validate (f : t) (relativePath : string) : bool :=
  let level := getLevel relativePath in
  if Z.ltb level (minLevel f) || above level (maxLevel f) then false
  else if negb (List.length (excludeTerms f) =? 0)%nat
          && any_in (excludeTerms f) (Py.basename relativePath) then false
  else if negb (List.length (includeTerms f) =? 0)%nat
          && negb (any_in (includeTerms f) (Py.basename relativePath))
       then false
  else true.

(** The object [Crawler] receives. *)
Definition as_PathFilters (f : t) : PathFilters :=
  Build_PathFilters (validate f) getLevel (maxLevel f)
                    (nonEmptyFoldersOnly f).

End FilterSet.

(** ** The parallel traverser of the specification *)

(** Modelled from the spec: [Sprinter], the class behind
    [DirPaths.walk] with [parallelize=True]; its module
    [dirutility/walk/multiprocess.py] is not among the sources.  Every
    definition of this module follows section 4.3 of the specification, and
    sections 4.2 and 7 where 4.3 refers to them; none is taken from
    [crawler.py]. *)
Module Sprinter.

(** Modelled from the spec: a unit of work.  With several roots each root
    is one unit.  With one root the units are its immediate child
    sub-directories, each an independent scan rooted at the parent. *)
Inductive work : Type :=
| WholeRoot (root : string)
| ChildTree (root : string) (name : string) (d : dir).

(** The root a unit computes relative paths against. *)
Definition root_of (w : work) : string :=
  match w with
  | WholeRoot r => r
  | ChildTree r _ _ => r
  end.

(** Modelled from the spec: a hidden entry is one whose name begins with
    the hidden-file marker, the dot. *)
Definition hidden (name : string) : bool := Py.startswith "." name.

(** Modelled from the spec: a directory contains at least one descendant
    file. *)
Fixpoint has_file (d : dir) : bool :=
  match d with
  | Dir ds names =>
      match names with
      | [] =>
          (fix any_child (l : list (string * dir)) : bool :=
             match l with
             | [] => false
             | (_, c) :: l' => has_file c || any_child l'
             end) ds
      | _ :: _ => true
      end
  end.

(** Modelled from the spec: the full walk of a sub-tree.  It visits every
    directory: each is given by the names that lead to it from the root, so
    that its relative path is these names joined by the separator, together
    with its own sub-tree. *)
Fixpoint scan (segs : list string) (d : dir) : list (list string * dir) :=
  match d with
  | Dir ds names =>
      (segs, d)
      :: (fix children (l : list (string * dir))
            : list (list string * dir) :=
            match l with
            | [] => []
            | (n, c) :: l' => scan (segs ++ [n]) c ++ children l'
            end) ds
  end.

Section Run.

Variable fs : filesystem.
Variable directory : list string.
Variable filters : option PathFilters.
Variable full_paths : bool.
Variable pool_size : nat.

(** Modelled from the spec: the units of work.  The list of roots is
    partitioned into units; a single root is partitioned instead by its
    immediate child sub-directories. *)
Definition units : list work :=
  match directory with
  | [root] =>
      match fs root with
      | Some d => map (fun nd => ChildTree root (fst nd) (snd nd)) (subdirs d)
      | None => []
      end
  | roots => map WholeRoot roots
  end.

(** Modelled from the spec: the directories a unit visits.  A root that
    does not exist or is not a directory is a failure, [RootNotFound]. *)
Definition entries (w : work) : result (list (list string * dir)) :=
  match w with
  | WholeRoot r =>
      match fs r with
      | Some d => Ok (scan [] d)
      | None => Raise RootNotFound
      end
  | ChildTree _ n d => Ok (scan [n] d)
  end.

(** Modelled from the spec: path emission honours [fullPaths]; when it is
    set the originating root is joined to the relative path. *)
Definition emit (root p : string) : string :=
  if full_paths then Py.join root p else p.

(** Modelled from the spec: the per-entry algorithm of section 4.2, for
    the directory reached by the names [fst sd] and holding [snd sd].
    Hidden entries are always skipped: nothing is emitted below a hidden
    directory, and no hidden file is emitted.  Without a filter set every
    file path found is emitted.  With one, the relative path of the
    directory is validated; in non-empty-folders mode a directory at the
    maximum level is emitted itself, if it contains a descendant file,
    instead of its files; otherwise each file whose relative path is
    validated is emitted. *)
Definition per_entry (root : string) (sd : list string * dir)
  : list string :=
  let rel := String.concat "/" (fst sd) in
  let visible := List.filter (fun f => negb (hidden f)) (files (snd sd)) in
  if existsb hidden (fst sd) then []
  else
    match filters with
    | None => map (fun f => emit root (Py.join rel f)) visible
    | Some pf =>
        if validate pf rel then
          if non_empty_folders pf
             && level_is (get_level pf rel) (max_level pf)
          then if has_file (snd sd) then [emit root rel] else []
          else map (emit root)
                   (List.filter (validate pf) (map (Py.join rel) visible))
        else []
    end.

(** Modelled from the spec: the scan of one unit, by the per-entry
    algorithm over every directory the unit visits. *)
Definition unit_paths (w : work) : result (list string) :=
  es <- entries w ;;
  Ok (flat_map (per_entry (root_of w)) es).

(** Modelled from the spec: the number of workers is the worker count,
    bounded by the units available. *)
Definition workers : nat := Nat.min pool_size (List.length units).

(** Modelled from the spec: static partitioning up front; unit [i] goes
    to worker [i mod workers]. *)
Fixpoint assigned_from (i : nat) (k : nat) (l : list work) : list work :=
  match l with
  | [] => []
  | w :: l' =>
      if (i mod workers =? k)%nat then w :: assigned_from (S i) k l'
      else assigned_from (S i) k l'
  end.

Definition assigned (k : nat) : list work := assigned_from 0 k units.

(** Modelled from the spec: a worker scans its units in isolation into a
    collection of its own.  The failure of a unit is captured with its root
    and its cause, and the worker goes on with its remaining units. *)
Fixpoint scan_units (l : list work)
  : list string * list (string * pyerr) :=
  match l with
  | [] => ([], [])
  | w :: l' =>
      let (ps, es) := scan_units l' in
      match unit_paths w with
      | Ok p => (p ++ ps, es)
      | Raise e => (ps, (root_of w, e) :: es)
      end
  end.

Definition worker (k : nat) : list string * list (string * pyerr) :=
  scan_units (assigned k).

(** Modelled from the spec: the coordinator waits for every worker and
    aggregates the outcomes, in the order [finished] in which the workers
    completed. *)
Fixpoint collect (finished : list nat)
  : list string * list (string * pyerr) :=
  match finished with
  | [] => ([], [])
  | k :: rest =>
      let (ps, es) := collect rest in
      let (p, e) := worker k in
      (p ++ ps, e ++ es)
  end.

(** What the coordinator hands back: the merged paths, the failed roots
    with their causes, and whether the failure is one of the whole
    request. *)
Record report : Type := {
  paths : list string;
  failures : list (string * pyerr);
  request_failed : bool
}.

(** Modelled from the spec: a single root that does not exist cannot be
    partitioned. *)
Definition missing_root : list (string * pyerr) :=
  match directory with
  | [root] =>
      match fs root with
      | Some _ => []
      | None => [(root, RootNotFound)]
      end
  | _ => []
  end.

(** Modelled from the spec: whether a single root was supplied. *)
Definition single_root : bool :=
  match directory with
  | [_] => true
  | _ => false
  end.

(** Modelled from the spec: the partial results are merged into a
    duplicate-free collection.  A failure over a single root is a failure of
    the request and nothing is returned; over several roots the results of
    the roots that were scanned are returned beside the failure report. *)
Definition sprinter (finished : list nat) : report :=
  let (ps, es) := collect finished in
  match missing_root ++ es with
  | [] => {| paths := nodup string_dec ps;
             failures := [];
             request_failed := false |}
  | f :: fl =>
      if single_root
      then {| paths := []; failures := f :: fl; request_failed := true |}
      else {| paths := nodup string_dec ps;
              failures := f :: fl;
              request_failed := false |}
  end.

(** Modelled from the spec: towards the caller a failure of the request
    propagates and nothing is returned; otherwise the paths are returned,
    the failure report staying beside them. *)
Definition as_result (r : report) : result (list string) :=
  if request_failed r then
    match failures r with
    | (_, e) :: _ => Raise e
    | [] => Ok (paths r)
    end
  else Ok (paths r).

End Run.

End Sprinter.


(** ** Sample requests *)

Module Sample.

(** No [filters] object is ever passed in the samples. *)
Definition no_filters_arg : Type := Empty_set.

(** [DirPaths(directory)]: every option at its default, sequential. *)
Definition defaults (d : DirPaths.directory_arg)
  : DirPaths.args no_filters_arg :=
  {| DirPaths.directory := d;
     DirPaths.full_paths := false;
     DirPaths.topdown := true;
     DirPaths.to_include := None;
     DirPaths.to_exclude := None;
     DirPaths.min_level := Fin 0;
     DirPaths.max_level := Inf;
     DirPaths.filters := None;
     DirPaths.non_empty_folders := false;
     DirPaths.parallelize := false;
     DirPaths.pool_size := 4 |}.

(** [DirPaths(directory, max_level=3)]: a [PathFilters] object is built. *)
Definition bounded (d : DirPaths.directory_arg)
  : DirPaths.args no_filters_arg :=
  {| DirPaths.directory := d;
     DirPaths.full_paths := false;
     DirPaths.topdown := true;
     DirPaths.to_include := None;
     DirPaths.to_exclude := None;
     DirPaths.min_level := Fin 0;
     DirPaths.max_level := Fin 3;
     DirPaths.filters := None;
     DirPaths.non_empty_folders := false;
     DirPaths.parallelize := false;
     DirPaths.pool_size := 4 |}.

(** [PathFilters] built as the specification describes the filter set. *)
Definition new_PathFilters (to_include to_exclude : option (list string))
           (min_level max_level : level)
           (filters : option (list no_filters_arg))
           (non_empty_folders : bool) : PathFilters :=
  FilterSet.as_PathFilters
    {| FilterSet.includeTerms :=
         match to_include with Some l => l | None => [] end;
       FilterSet.excludeTerms :=
         match to_exclude with Some l => l | None => [] end;
       FilterSet.minLevel :=
         match min_level with Fin n => n | Inf => 0%Z end;
       FilterSet.maxLevel := max_level;
       FilterSet.nonEmptyFoldersOnly := non_empty_folders |}.

(** The parallel traverser when the workers complete in the order of their
    numbers. *)
Definition Sprinter_in_order (fs : filesystem) (directory : list string)
           (filters : option PathFilters) (full_paths : bool)
           (pool_size : nat) : result (list string) :=
  Sprinter.as_result
    (Sprinter.sprinter fs directory filters full_paths pool_size
       (seq 0 (Sprinter.workers fs directory pool_size))).

(** A root [r] holding [app.log], [tmp.log] and [notes.txt]. *)
Definition logs : dir := Dir [] ["app.log"; "tmp.log"; "notes.txt"].

Definition fs_logs : filesystem :=
  fun p => if String.eqb p "r" then Some logs else None.

(** The older [DirPaths('r', to_include=['.log'], to_exclude=['tmp'])]. *)
Definition log_request : Walk.DirPaths :=
  {| Walk.directory := "r";
     Walk.full_paths := false;
     Walk.topdown := true;
     Walk.to_include := Some [".log"];
     Walk.to_exclude := Some ["tmp"] |}.

(** A root [r] holding [.env], [main.py] and [.git/config]. *)
Definition with_hidden : dir :=
  Dir [(".git", Dir [] ["config"])] [".env"; "main.py"].

Definition fs_hidden : filesystem :=
  fun p => if String.eqb p "r" then Some with_hidden else None.

(** The older [DirPaths('r')]. *)
Definition plain_request : Walk.DirPaths :=
  {| Walk.directory := "r";
     Walk.full_paths := false;
     Walk.topdown := true;
     Walk.to_include := None;
     Walk.to_exclude := None |}.

(** The older [DirPaths('r', to_include=['.log', 'app'])]. *)
Definition two_terms_request : Walk.DirPaths :=
  {| Walk.directory := "r";
     Walk.full_paths := false;
     Walk.topdown := true;
     Walk.to_include := Some [".log"; "app"];
     Walk.to_exclude := None |}.

(** Two roots [a] and [b], one file each. *)
Definition fs_two_roots : filesystem :=
  fun p =>
    if String.eqb p "a" then Some (Dir [] ["f.txt"])
    else if String.eqb p "b" then Some (Dir [] ["g.txt"])
    else None.

(** A root [r] holding [a/b/file.txt] and an empty [a/c]. *)
Definition nested : dir :=
  Dir [("a", Dir [("b", Dir [] ["file.txt"]); ("c", Dir [] [])] [])] [].

Definition fs_nested : filesystem :=
  fun p => if String.eqb p "r" then Some nested else None.

(** The filter set [max_level=2, non_empty_folders=True]. *)
Definition level_two_folders : FilterSet.t :=
  {| FilterSet.includeTerms := [];
     FilterSet.excludeTerms := [];
     FilterSet.minLevel := 0;
     FilterSet.maxLevel := Fin 2;
     FilterSet.nonEmptyFoldersOnly := true |}.

(** The sequential traverser on the root [r] with that filter set. *)
Definition folders_request : Crawler.t :=
  {| Crawler.directory := ["r"];
     Crawler.filters := Some (FilterSet.as_PathFilters level_two_folders);
     Crawler.full_paths := false;
     Crawler.topdown := true |}.

(** A directory [x] holding [y.txt] and [z/w.txt]. *)
Definition x_tree : dir := Dir [("z", Dir [] ["w.txt"])] ["y.txt"].

Definition fs_x : filesystem :=
  fun p => if String.eqb p "/home/u/x" then Some x_tree else None.

(** A root [r] holding [a/f.txt], and its sub-directory [r/a] as a root of
    its own. *)
Definition fs_overlap : filesystem :=
  fun p =>
    if String.eqb p "r" then Some (Dir [("a", Dir [] ["f.txt"])] [])
    else if String.eqb p "r/a" then Some (Dir [] ["f.txt"])
    else None.

(** The sequential traverser on both roots, with full paths and
    [max_level=3]. *)
Definition overlap_request : Crawler.t :=
  {| Crawler.directory := ["r"; "r/a"];
     Crawler.filters :=
       Some (FilterSet.as_PathFilters
               {| FilterSet.includeTerms := [];
                  FilterSet.excludeTerms := [];
                  FilterSet.minLevel := 0;
                  FilterSet.maxLevel := Fin 3;
                  FilterSet.nonEmptyFoldersOnly := false |});
     Crawler.full_paths := true;
     Crawler.topdown := true |}.

(** The root of the file system, holding [g.txt] and [a/f.txt]. *)
Definition slash_tree : dir := Dir [("a", Dir [] ["f.txt"])] ["g.txt"].

Definition fs_slash : filesystem :=
  fun p => if String.eqb p "/" then Some slash_tree else None.

End Sample.

(** ** Branches and their rules *)

Module Branches.

(** One level whose folders must be called [x]. *)
Definition only_x : list DirTree.branch :=
  [[("folders", Some [("include", ["x"])]); ("files", None)]].

(** The rule under [kind] at level [j] is present and false ([None] or the
    empty dict). *)
Definition no_rule_at (b : option (list DirTree.branch)) (kind : string)
           (j : nat) : Prop :=
  exists (level : DirTree.branch) (r : DirTree.rule),
    DirTree.branches_getitem b j = Ok level
    /\ DirTree.dict_getitem level kind = Ok r
    /\ DirTree.rule_truthy r = false.

(** The rule under [kind] at level [i] is a non-empty dict. *)
Definition rule_at (b : option (list DirTree.branch)) (kind : string)
           (i : nat) : Prop :=
  exists (level : DirTree.branch) (r : DirTree.rule),
    DirTree.branches_getitem b i = Ok level
    /\ DirTree.dict_getitem level kind = Ok r
    /\ DirTree.rule_truthy r = true.

End Branches.

(** ** Well-formed directories *)

(** A name [os.scandir] can list: not empty, no separator in it. *)
Definition valid_name (n : string) : bool :=
  negb (String.eqb n "") && Py.no_sep n.

(** No string occurs twice. *)
Fixpoint distinct (l : list string) : bool :=
  match l with
  | [] => true
  | x :: l' => negb (existsb (String.eqb x) l') && distinct l'
  end.

(** Every directory of the tree lists valid names, each once among its
    files and sub-directories. *)
Fixpoint wf_dir (d : dir) : bool :=
  match d with
  | Dir ds fs =>
      forallb valid_name fs
      && forallb valid_name (map fst ds)
      && distinct (fs ++ map fst ds)
      && (fix wf_children (l : list (string * dir)) : bool :=
            match l with
            | [] => true
            | (_, c) :: l' => wf_dir c && wf_children l'
            end) ds
  end.

(** ** The filter decision of the specification *)

(** The decision as the specification words it, on the final component of a
    path: reject on a matching exclude term, reject when include terms are
    given and none matches, accept otherwise. *)
Definition spec_accepts (includeTerms excludeTerms : list string)
           (component : string) : bool :=
  if negb (List.length excludeTerms =? 0)%nat
     && FilterSet.any_in excludeTerms component then false
  else if negb (List.length includeTerms =? 0)%nat
          && negb (FilterSet.any_in includeTerms component) then false
  else true.

(** The terms of an optional argument. *)
Definition terms_of (o : option (list string)) : list string :=
  match o with
  | Some l => l
  | None => []
  end.

(** [z] is empty or ends with the separator: what may stand before the last
    component of a path. *)
Definition before_name (z : string) : Prop :=
  z = ""%string \/ Py.endswith_sep z = true.

(** A name that is kept as a part by [Path]. *)
Definition path_part (f : string) : bool :=
  valid_name f && negb (String.eqb f ".").


(** ** What the sequential traverser appends *)

(** The path [add_path] appends for the relative path [p] found under the
    root [dir]. *)
Definition emitted_path (c : Crawler.t) (dir p : string) : string :=
  if Crawler.full_paths c then Py.join dir p else p.

(** The paths a directory adds to [filepaths] in [Crawler.filter], from its
    relative path [root] and its file names: the directory itself at the
    maximum level in non-empty-folders mode, its validated files otherwise,
    nothing when the directory is not validated. *)
Definition root_output (c : Crawler.t) (pf : PathFilters) (dir : string)
           (root : string) (names : list string) : list string :=
  if validate pf root then
    if non_empty_folders pf && level_is (get_level pf root) (max_level pf)
    then [emitted_path c dir root]
    else map (emitted_path c dir)
             (List.filter (validate pf) (map (Py.join root) names))
  else [].

(** The paths one directory entry adds to [filepaths] in
    [Crawler.filter]. *)
Definition entry_output (c : Crawler.t) (pf : PathFilters) (dir : string)
           (e : walk_entry) : list string :=
  root_output c pf dir (Crawler.relative dir (dirpath e)) (filenames e).

(** The paths of a whole run of [Crawler.filter]. *)
Definition filter_output (fs : filesystem) (c : Crawler.t) (pf : PathFilters)
  : list string :=
  flat_map
    (fun dir =>
       flat_map (entry_output c pf dir)
                (os_walk fs dir (Crawler.topdown c)))
    (Crawler.directory c).

(** ** Reading a heap as a tree *)

(** The value [v] stands in the heap [h] for the tree [t], through dict
    objects whose addresses all lie between [lo] and [hi]. *)
Fixpoint represents (h : heap) (lo hi : nat) (v : pyval) (t : DirTree.tree)
  : Prop :=
  match t with
  | DirTree.Leaf => v = PNone
  | DirTree.Node l =>
      exists (a : nat) (items : pydict),
        v = PRef a
        /\ lo <= a < hi
        /\ nth_error h a = Some items
        /\ (fix represents_items (items : pydict)
                (l : list (string * DirTree.tree)) {struct l} : Prop :=
              match items, l with
              | [], [] => True
              | (k, v') :: items', (k', t') :: l' =>
                  k = k' /\ represents h lo hi v' t'
                  /\ represents_items items' l'
              | _, _ => False
              end) items l
  end.

(** The same, item by item, for the items of a dict. *)
Fixpoint represents_items (h : heap) (lo hi : nat) (items : pydict)
         (l : list (string * DirTree.tree)) {struct l} : Prop :=
  match items, l with
  | [], [] => True
  | (k, v) :: items', (k', t) :: l' =>
      k = k' /\ represents h lo hi v t /\ represents_items h lo hi items' l'
  | _, _ => False
  end.

(** The levels of dicts in a tree. *)
Fixpoint height (t : DirTree.tree) : nat :=
  match t with
  | DirTree.Leaf => 0
  | DirTree.Node l =>
      S ((fix heights (l : list (string * DirTree.tree)) : nat :=
            match l with
            | [] => 0
            | (_, t') :: l' => Nat.max (height t') (heights l')
            end) l)
  end.

(** The items of the mapping of a directory that come from its
    sub-directories. *)
Fixpoint tree_children (l : list (string * dir))
  : list (string * DirTree.tree) :=
  match l with
  | [] => []
  | (n, c) :: l' => (n, DirTree.tree_of c) :: tree_children l'
  end.

(** Every dict of [h] is still there in [h'], with its items and maybe more
    items after them. *)
Definition extends (h h' : heap) : Prop :=
  forall (a : nat) (items : pydict),
    nth_error h a = Some items ->
    exists more, nth_error h' a = Some (items ++ more).

(** The path [p] of a walked directory is cut by [get] into [folders]. *)
Definition cut_into (start : nat) (p : string) (folders : list string)
  : Prop :=
  start <= String.length p
  /\ p <> ""%string
  /\ Py.endswith_sep p = false
  /\ Py.split_sep (Py.slice_from start p) = folders.

(** The heap [h'] is [h] after a directory named [n] was put under the dict
    at [pa]: the dict at [pa] has one more item, the new dict stands for
    [t], and the other dicts of [h] are as they were. *)
Definition grown (h h' : heap) (pa : nat) (items : pydict) (n : string)
           (t : DirTree.tree) : Prop :=
  List.length h < List.length h'
  /\ nth_error h' pa = Some (items ++ [(n, PRef (List.length h))])
  /\ (forall a, a < List.length h -> a <> pa ->
                nth_error h' a = nth_error h a)
  /\ represents h' (List.length h) (List.length h') (PRef (List.length h)) t.

(** What the walk of one directory does to the heap: the loop of [get] over
    its entries succeeds and puts its mapping under the dict of its
    parent. *)
Definition puts_subtree (self : DirTree.t) (d : dir) : Prop :=
  forall (p : string) (fp : list string) (n : string) (h : heap) (pa : nat)
         (items : pydict),
    wf_dir d = true ->
    cut_into (DirTree.start self) p (fp ++ [n]) ->
    DirTree.reduce_get h fp (PRef 0) = Ok (PRef pa) ->
    nth_error h pa = Some items ->
    ~ In n (map fst items) ->
    exists h',
      for_each (DirTree.get_entry self) (walk_dir true p d) h = Ok h'
      /\ grown h h' pa items n (DirTree.tree_of d).

(** What [tree_dict] holds once the directory [d] at the path [top] has been
    walked without branches: one key, the final component of [top], with the
    mapping of [d]; or, when [top] has no final component (the root of the
    file system), the empty key with the files of [d], and beside it one key
    for each sub-directory of [d]. *)
Definition expected_tree (top : string) (d : dir) : DirTree.tree :=
  if String.eqb (Py.basename top) ""
  then DirTree.Node
         (("", DirTree.Node (map (fun f => (f, DirTree.Leaf)) (files d)))
          :: tree_children (subdirs d))
  else DirTree.Node [(Py.basename top, DirTree.tree_of d)].

(** ** The entries of a tree by their names *)

(** The directories of a tree in top-down walk order, each given by the
    names that lead to it from the root, with its file names. *)
Fixpoint seg_walk (segs : list string) (d : dir)
  : list (list string * list string) :=
  match d with
  | Dir ds fs =>
      (segs, fs)
      :: (fix children (l : list (string * dir))
            : list (list string * list string) :=
            match l with
            | [] => []
            | (n, c) :: l' => seg_walk (segs ++ [n]) c ++ children l'
            end) ds
  end.

(** A directory and its files, by their names from the root. *)
Definition entry_paths (sf : list string * list string)
  : list (list string) :=
  fst sf :: map (fun f => fst sf ++ [f]) (snd sf).

(** Every directory and file of a tree, by its names from the root. *)
Definition all_paths (segs : list string) (d : dir) : list (list string) :=
  flat_map entry_paths (seg_walk segs d).

(** What [Crawler.filter] emits for one directory, by names. *)
Definition output_segs (pf : PathFilters) (sf : list string * list string)
  : list (list string) :=
  let root := String.concat "/" (fst sf) in
  if validate pf root then
    if non_empty_folders pf && level_is (get_level pf root) (max_level pf)
    then [fst sf]
    else map (fun f => fst sf ++ [f])
             (List.filter (fun f => validate pf (Py.join root f)) (snd sf))
  else [].

(** The path of the directory reached from the root [r] by the names
    [segs]. *)
Definition path_at (r : string) (segs : list string) : string :=
  match segs with
  | [] => r
  | _ :: _ => r ++ "/" ++ String.concat "/" segs
  end.

(** [l1] is [l2] with some items left out. *)
Inductive subseq {A : Type} : list A -> list A -> Prop :=
| subseq_nil : subseq [] []
| subseq_skip (x : A) (l1 l2 : list A) : subseq l1 l2 -> subseq l1 (x :: l2)
| subseq_take (x : A) (l1 l2 : list A) :
    subseq l1 l2 -> subseq (x :: l1) (x :: l2).

(** ** Comparing the two traversers *)

(** [l] is empty. *)
Definition is_empty {A : Type} (l : list A) : bool :=
  match l with
  | [] => true
  | _ :: _ => false
  end.

(** [Sprinter(...).sprinter()] as [DirPaths.walk] calls it, when the workers
    complete in the order [finished]. *)
Definition Sprinter_sprinter (finished : list nat) (fs : filesystem)
           (directory : list string) (filters : option PathFilters)
           (full_paths : bool) (pool_size : nat) : result (list string) :=
  Sprinter.as_result
    (Sprinter.sprinter fs directory filters full_paths pool_size finished).

(** The same arguments with [parallelize] set to [b]. *)
Definition set_parallelize {F : Type} (a : DirPaths.args F) (b : bool)
  : DirPaths.args F :=
  {| DirPaths.directory := DirPaths.directory a;
     DirPaths.full_paths := DirPaths.full_paths a;
     DirPaths.topdown := DirPaths.topdown a;
     DirPaths.to_include := DirPaths.to_include a;
     DirPaths.to_exclude := DirPaths.to_exclude a;
     DirPaths.min_level := DirPaths.min_level a;
     DirPaths.max_level := DirPaths.max_level a;
     DirPaths.filters := DirPaths.filters a;
     DirPaths.non_empty_folders := DirPaths.non_empty_folders a;
     DirPaths.parallelize := b;
     DirPaths.pool_size := DirPaths.pool_size a |}.

(** ** [os.listdir] and the listings of the top level *)

(** The outcome of a call that may raise [OSError]. *)
Inductive os_result (A : Type) : Type :=
| Returns (a : A)
| RaiseOSError.

Arguments Returns {A} a.
Arguments RaiseOSError {A}.

(** [os.listdir(path)]: the names of the entries of a directory; a
    [FileNotFoundError] or a [NotADirectoryError], both [OSError], when
    [path] is no directory.  The sub-directories are listed before the
    files: [files] and [folders] keep the names of one kind only, so the
    place of one kind among the other does not show in what they return. *)
Definition os_listdir (fs : filesystem) (path : string)
  : os_result (list string) :=
  match fs path with
  | Some d => Returns (map fst (subdirs d) ++ files d)
  | None => RaiseOSError
  end.

(** [os.path.isfile(os.path.join(directory, path))] for a name [path]:
    false when nothing is there. *)
Definition isfile_in (fs : filesystem) (directory path : string) : bool :=
  match fs directory with
  | Some d => existsb (String.eqb path) (files d)
  | None => false
  end.

(** [os.path.isdir(os.path.join(directory, path))] for a name [path]. *)
Definition isdir_in (fs : filesystem) (directory path : string) : bool :=
  match fs directory with
  | Some d => existsb (String.eqb path) (map fst (subdirs d))
  | None => false
  end.

(** A [for] loop whose body may raise [OSError]. *)
Fixpoint os_for_each {A S : Type} (body : S -> A -> os_result S)
         (l : list A) (s : S) : os_result S :=
  match l with
  | [] => Returns s
  | a :: l' =>
      match body s a with
      | Returns s' => os_for_each body l' s'
      | RaiseOSError => RaiseOSError
      end
  end.

(** *** [dirutility/walk/walk.py]: [DirPaths.files] and [DirPaths.folders] *)

Module Listing.

(** An item of [self.filepaths]: a path that [walk] put there, or a pair
    [(directory, path)] appended by [files] or [folders]. *)
Inductive item : Type :=
| Walked (s : string)
| Pair (directory path : string).

Section Methods.

Variable fs : filesystem.
Variable self : DirPaths.t.

(** The inner loop of [folders] over the names of one directory. *)
Definition folders_in (filepaths : list item) (directory : string)
  : os_result (list item) :=
  match os_listdir fs directory with
  | Returns names =>
      Returns
        (fold_left
           (fun acc path =>
              if isdir_in fs directory path then
                if negb (Py.startswith "." path)
                then acc ++ [Pair directory path]
                else acc
              else acc)
           names filepaths)
  | RaiseOSError => RaiseOSError
  end.

(** [folders], entered with [self.filepaths = filepaths]; it returns
    [self.filepaths] through [_get_filepaths]. *)
Definition folders (filepaths : list item) : os_result (list item) :=
  os_for_each folders_in (DirPaths.self_directory self) filepaths.

(** The inner loop of [files] over the names of one directory. *)
Definition files_in (filepaths : list item) (directory : string)
  : os_result (list item) :=
  match os_listdir fs directory with
  | Returns names =>
      Returns
        (fold_left
           (fun acc path =>
              if isfile_in fs directory path then
                if negb (Py.startswith "." path)
                then acc ++ [Pair directory path]
                else acc
              else acc)
           names filepaths)
  | RaiseOSError => RaiseOSError
  end.

(** [files], entered with [self.filepaths = filepaths]; what it prints
    first is left out. *)
Definition files (filepaths : list item) : os_result (list item) :=
  os_for_each files_in (DirPaths.self_directory self) filepaths.

End Methods.

End Listing.

(** *** [dirutility/walk.py]: the properties [files] and [folders] *)

Module WalkListing.

Section Methods.

Variable fs : filesystem.
Variable cwd : string.
Variable self : Walk.DirPaths.

(** [folders], entered with [self.filepaths = filepaths]. *)
Definition folders (filepaths : list Walk.item)
  : os_result (list Walk.item) :=
  match os_listdir fs (Walk.directory self) with
  | Returns names =>
      Returns
        (Walk._get_filepaths cwd self
           (fold_left
              (fun acc path =>
                 if isdir_in fs (Walk.directory self) path then
                   if negb (Py.startswith "." path)
                   then acc ++ [Walk.Str path]
                   else acc
                 else acc)
              names filepaths))
  | RaiseOSError => RaiseOSError
  end.

(** [files], entered with [self.filepaths = filepaths]. *)
Definition files (filepaths : list Walk.item)
  : os_result (list Walk.item) :=
  match os_listdir fs (Walk.directory self) with
  | Returns names =>
      Returns
        (Walk._get_filepaths cwd self
           (fold_left
              (fun acc path =>
                 if isfile_in fs (Walk.directory self) path then
                   if negb (Py.startswith "." path)
                   then acc ++ [Walk.Str path]
                   else acc
                 else acc)
              names filepaths))
  | RaiseOSError => RaiseOSError
  end.

End Methods.

End WalkListing.

(** ** [dirutility/walk.py]: the single-module [DirTree] *)

(** [s.rstrip('/')] *)
Fixpoint rstrip_sep (s : string) : string :=
  match s with
  | EmptyString => EmptyString
  | String c s' =>
      match rstrip_sep s' with
      | EmptyString =>
          if Py.is_sep c then EmptyString else String c EmptyString
      | String c' r => String c (String c' r)
      end
  end.

Module WalkDirTree.

(** [__init__]: [self.dir] is the first object of a fresh heap; nothing is
    walked yet.  The attributes are those of [DirTree.t], with [self.dir]
    for [tree_dict]. *)
Definition init (directory : string) (b : option (list DirTree.branch))
  : DirTree.t * heap :=
  let directory := rstrip_sep directory in
  ({| DirTree.tree_dict := PRef 0;
      DirTree.directory := directory;
      DirTree.start := Py.rfind_sep_plus1 directory;
      DirTree.branches := b |},
   [[]]).

(** The property [get]: the loop of [DirTree.get], whose body and whose
    [_filter] are the same lines in both modules; it returns [self.dir]. *)
Definition get (fs : filesystem) (self : DirTree.t) (h : heap)
  : result heap :=
  for_each (DirTree.get_entry self) (os_walk fs (DirTree.directory self) true)
           h.

End WalkDirTree.

(** ** Branches without rules *)

(** The depth of a tree of directories: the longest chain of
    sub-directories below its root. *)
Fixpoint depth (d : dir) : nat :=
  match d with
  | Dir ds _ =>
      (fix depths (l : list (string * dir)) : nat :=
         match l with
         | [] => 0
         | (_, c) :: l' => Nat.max (S (depth c)) (depths l')
         end) ds
  end.

(** The same object with other [branches]. *)
Definition with_branches (self : DirTree.t) (b : option (list DirTree.branch))
  : DirTree.t :=
  {| DirTree.tree_dict := DirTree.tree_dict self;
     DirTree.directory := DirTree.directory self;
     DirTree.start := DirTree.start self;
     DirTree.branches := b |}.

(** The heap a constructor of [DirTree] leaves, or its exception. *)
Definition heap_of (r : result (DirTree.t * heap)) : result heap :=
  match r with
  | Ok (_, h) => Ok h
  | Raise e => Raise e
  end.

(** A level of [branches] whose rule under [kind] is there and false
    ([None] or the empty dict). *)
Definition without_rule (kind : string) (level : DirTree.branch) : Prop :=
  exists r,
    DirTree.dict_getitem level kind = Ok r /\ DirTree.rule_truthy r = false.

(** The number of separators in a string. *)
Fixpoint count_sep (s : string) : nat :=
  match s with
  | EmptyString => 0
  | String c s' => (if Py.is_sep c then 1 else 0) + count_sep s'
  end.

(** ** The paths of the files of a tree *)

(** The paths [os.path.join(root, filename)] that the walk of the
    single-module [DirPaths] forms below an entry, hidden names left out. *)
Definition entry_files (e : walk_entry) : list Walk.item :=
  map (fun f => Walk.Str (Py.join (dirpath e) f))
      (List.filter (fun f => negb (Py.startswith "." f)) (filenames e)).

(** The non-hidden names of a listing that [keep] holds for. *)
Definition kept_names (keep : string -> bool) (names : list string)
  : list string :=
  List.filter (fun n => keep n && negb (Py.startswith "." n)) names.

(** ** Comparing two runs of the sequential traverser *)

(** The outcome [b] is the outcome [a] in another order: the same paths,
    each as many times, or the same exception. *)
Definition reordered (a b : result (list string)) : Prop :=
  match a, b with
  | Ok l, Ok l' => Permutation l l'
  | Raise e, Raise e' => e = e'
  | _, _ => False
  end.

(** The traverser [c] over the one root [dir], with relative paths. *)
Definition relative_from (c : Crawler.t) (dir : string) : Crawler.t :=
  {| Crawler.directory := [dir];
     Crawler.filters := Crawler.filters c;
     Crawler.full_paths := false;
     Crawler.topdown := Crawler.topdown c |}.

(** ** The output of the sequential traverser by names *)

(** What [Crawler.filter] is to return for one directory of the tree, given
    by the names [fst sf] that lead to it from the root and by its file
    names [snd sf]; a relative path is its names joined by the separator. *)
Definition chain_output (pf : PathFilters) (sf : list string * list string)
  : list (list string) :=
  let root := String.concat "/" (fst sf) in
  if validate pf root then
    if non_empty_folders pf && level_is (get_level pf root) (max_level pf)
    then [fst sf]
    else List.filter (fun s => validate pf (String.concat "/" s))
                     (map (fun f => fst sf ++ [f]) (snd sf))
  else [].

(** ** More sample requests *)

Module Cases.

(** A [PathFilters] object that validates every path, with no bound on
    the level. *)
Definition lets_all_through : PathFilters :=
  {| validate := fun _ => true;
     get_level := fun _ => 0%Z;
     max_level := Inf;
     non_empty_folders := false |}.

(** The root [r/], written with a trailing separator, holding
    [ab/f.txt]. *)
Definition fs_trailing : filesystem :=
  fun p =>
    if String.eqb p "r/" then Some (Dir [("ab", Dir [] ["f.txt"])] [])
    else None.

(** The sequential traverser on [r/], with relative paths. *)
Definition trailing_request : Crawler.t :=
  {| Crawler.directory := ["r/"];
     Crawler.filters := Some lets_all_through;
     Crawler.full_paths := false;
     Crawler.topdown := true |}.

(** The sequential traverser on the root [r] of [Sample.fs_nested], with
    full paths. *)
Definition nested_full_request : Crawler.t :=
  {| Crawler.directory := ["r"];
     Crawler.filters := Some lets_all_through;
     Crawler.full_paths := true;
     Crawler.topdown := true |}.

(** The sequential traverser on the roots [r] and [r/a] of
    [Sample.fs_overlap], with full paths. *)
Definition overlap_full_request : Crawler.t :=
  {| Crawler.directory := ["r"; "r/a"];
     Crawler.filters := Some lets_all_through;
     Crawler.full_paths := true;
     Crawler.topdown := true |}.

End Cases.

(** ** The top level of a root *)

(** The names of the files right under the root [r] that do not begin with
    a dot; none when [r] is no directory. *)
Definition top_files (fs : filesystem) (r : string) : list string :=
  match fs r with
  | Some d => List.filter (fun n => negb (Py.startswith "." n)) (files d)
  | None => []
  end.

(** The names of the sub-directories right under the root [r] that do not
    begin with a dot. *)
Definition top_folders (fs : filesystem) (r : string) : list string :=
  match fs r with
  | Some d =>
      List.filter (fun n => negb (Py.startswith "." n)) (map fst (subdirs d))
  | None => []
  end.

(** The names of the files and sub-directories of the root [r] are
    distinct. *)
Definition distinct_names (fs : filesystem) (r : string) : Prop :=
  exists d, fs r = Some d /\ distinct (files d ++ map fst (subdirs d)) = true.

(** The outcome [r] with [l] before what it returns. *)
Definition after {A : Type} (l : list A) (r : os_result (list A))
  : os_result (list A) :=
  match r with
  | Returns n => Returns (l ++ n)
  | RaiseOSError => RaiseOSError
  end.

Module Tops.

(** A root [r] holding the files [.env] and [main.py] and the
    sub-directories [.git] and [src]. *)
Definition fs_top : filesystem :=
  fun p =>
    if String.eqb p "r"
    then Some (Dir [(".git", Dir [] ["config"]); ("src", Dir [] ["a.py"])]
                   [".env"; "main.py"])
    else None.

(** [DirPaths('r')] once constructed. *)
Definition on_r : DirPaths.t :=
  {| DirPaths.self_full_paths := false;
     DirPaths.self_topdown := true;
     DirPaths.self_filters := None;
     DirPaths.self_parallelize := false;
     DirPaths.self_pool_size := 4;
     DirPaths.self_directory := ["r"] |}.

(** [DirPaths('gone')] once constructed. *)
Definition on_gone : DirPaths.t :=
  {| DirPaths.self_full_paths := false;
     DirPaths.self_topdown := true;
     DirPaths.self_filters := None;
     DirPaths.self_parallelize := false;
     DirPaths.self_pool_size := 4;
     DirPaths.self_directory := ["gone"] |}.

(** The older [DirPaths('r', to_exclude=['main'])]. *)
Definition no_main : Walk.DirPaths :=
  {| Walk.directory := "r";
     Walk.full_paths := false;
     Walk.topdown := true;
     Walk.to_include := None;
     Walk.to_exclude := Some ["main"] |}.

End Tops.

(** ** Branches for the samples *)

Module Levels.

(** A level with no rule for folders and none for files. *)
Definition no_rules : DirTree.branch := [("folders", None); ("files", None)].

(** A level with no rule for folders and a rule for files. *)
Definition files_rule : DirTree.branch :=
  [("folders", None); ("files", Some [("include", ["y.txt"])])].

(** A [DirTree] object whose branches are one level without rules. *)
Definition one_level : DirTree.t :=
  {| DirTree.tree_dict := PRef 0;
     DirTree.directory := "/home/u/x";
     DirTree.start := 8;
     DirTree.branches := Some [no_rules] |}.

End Levels.

(** The walked directory [e] lies deeper than [levels] has levels: its path
    is cut into more folders. *)
Definition too_deep (start : nat) (levels : list DirTree.branch)
           (e : walk_entry) : bool :=
  (List.length levels
   <? List.length (Py.split_sep (Py.slice_from start (dirpath e))))%nat.

(** Two levels of [branches] with the same rule for folders. *)
Definition same_folders_rule (x y : DirTree.branch) : Prop :=
  DirTree.dict_getitem x "folders" = DirTree.dict_getitem y "folders".

(** The number of the terms that occur in [name]. *)
Definition occurrences (terms : list string) (name : string) : nat :=
  List.length (List.filter (fun term => Py.contains term name) terms).

(** ** What the partition leaves to the workers *)

(** No name in the tree begins with a dot. *)
Fixpoint no_hidden (d : dir) : bool :=
  match d with
  | Dir ds names =>
      forallb (fun n => negb (Sprinter.hidden n)) names
      && forallb (fun n => negb (Sprinter.hidden n)) (map fst ds)
      && (fix all_children (l : list (string * dir)) : bool :=
            match l with
            | [] => true
            | (_, c) :: l' => no_hidden c && all_children l'
            end) ds
  end.

(** The root [r] is given by a path that is not empty and does not end with
    the separator, and is a directory with a well-formed tree that holds no
    hidden name. *)
Definition plain_root (fs : filesystem) (r : string) : Prop :=
  r <> ""%string
  /\ Py.endswith_sep r = false
  /\ exists d, fs r = Some d /\ wf_dir d = true /\ no_hidden d = true.

(** What the directory entry of the root [r] itself adds to the result of
    [Crawler.filter]: its own files, or its own path. *)
Definition own_entry_output (fs : filesystem) (c : Crawler.t)
           (pf : PathFilters) (r : string) : list string :=
  match fs r with
  | Some d =>
      entry_output c pf r (WalkEntry r (map fst (subdirs d)) (files d))
  | None => []
  end.

(** The path [x] is one of the result of [Crawler.filter] that the
    partition of the specification leaves to a worker: any of them over
    several roots; over a single root one that does not come from the
    directory entry of the root itself. *)
Definition left_to_workers (fs : filesystem) (c : Crawler.t)
           (pf : PathFilters) (x : string) : Prop :=
  In x (Crawler.filter fs c pf [])
  /\ match Crawler.directory c with
     | [r] => ~ In x (own_entry_output fs c pf r)
     | _ => True
     end.

(** The entries of [os.walk] that a unit of work stands for. *)
Definition unit_entries (fs : filesystem) (w : Sprinter.work)
  : list walk_entry :=
  match w with
  | Sprinter.WholeRoot r => os_walk fs r true
  | Sprinter.ChildTree r n d => walk_dir true (Py.join r n) d
  end.

(** What [Crawler.filter] emits for the entries of a unit of work. *)
Definition unit_output (fs : filesystem) (c : Crawler.t) (pf : PathFilters)
           (w : Sprinter.work) : list string :=
  flat_map (entry_output c pf (Sprinter.root_of w)) (unit_entries fs w).

(** ** Sample traversals with a filter set *)

Module Filtered.

(** The object [PathFilters(None, None, 0, 3, None, False)] that
    [DirPaths(directory, max_level=3)] builds. *)
Definition up_to_three : PathFilters :=
  Sample.new_PathFilters None None (Fin 0) (Fin 3) None false.

(** The sequential traverser on the root [r], with relative paths and
    [max_level=3]. *)
Definition three_levels_request : Crawler.t :=
  {| Crawler.directory := ["r"];
     Crawler.filters := Some up_to_three;
     Crawler.full_paths := false;
     Crawler.topdown := true |}.

(** The object [PathFilters(['.log'], ['tmp'], 0, inf, None, False)] that
    [DirPaths(directory, to_include=['.log'], to_exclude=['tmp'])]
    builds. *)
Definition log_terms : PathFilters :=
  Sample.new_PathFilters (Some [".log"]) (Some ["tmp"]) (Fin 0) Inf None
                         false.

(** The sequential traverser on the root [r], with relative paths and
    these terms. *)
Definition log_request : Crawler.t :=
  {| Crawler.directory := ["r"];
     Crawler.filters := Some log_terms;
     Crawler.full_paths := false;
     Crawler.topdown := true |}.

(** Two roots [a] and [b]: [a] holds [f.txt] and [s/g.txt], [b] holds
    [h.txt]. *)
Definition fs_pair : filesystem :=
  fun p =>
    if String.eqb p "a"
    then Some (Dir [("s", Dir [] ["g.txt"])] ["f.txt"])
    else if String.eqb p "b" then Some (Dir [] ["h.txt"])
    else None.

End Filtered.
(** * Properties *)

Unset Implicit Arguments.

(** ** The Python primitives on sample values *)

Example join_samples :
  Py.join "r" "a" = "r/a"
  /\ Py.join "r/" "a" = "r/a"
  /\ Py.join "" "a" = "a"
  /\ Py.join "r" "" = "r/"
  /\ Py.join "r" "/a" = "/a".
Proof. repeat split. Qed.

Example split_samples :
  Py.split_sep "" = [""]
  /\ Py.split_sep "x" = ["x"]
  /\ Py.split_sep "x/z" = ["x"; "z"]
  /\ Py.split_sep "x/" = ["x"; ""]
  /\ Py.split_sep "/x" = [""; "x"].
Proof. repeat split. Qed.

Example basename_samples :
  Py.basename "r/app.log" = "app.log"
  /\ Py.basename "app.log" = "app.log"
  /\ Py.basename "r/" = ""
  /\ Py.rfind_sep_plus1 "/home/u/x" = 8
  /\ Py.rfind_sep_plus1 "x" = 0.
Proof. repeat split. Qed.

Example Path_samples :
  Py.Path_str "/home/u/x/" = "/home/u/x"
  /\ Py.Path_str "a//b/./c" = "a/b/c"
  /\ Py.Path_str "" = "."
  /\ Py.Path_str "//a" = "//a"
  /\ Py.Path_str "///a" = "/a"
  /\ Py.Path_absolute "/home/u" "r/app.log" = "/home/u/r/app.log"
  /\ Py.Path_absolute "/home/u" "/r" = "/r".
Proof. repeat split. Qed.

Example contains_samples :
  Py.contains ".log" "app.log" = true
  /\ Py.contains "tmp" "app.log" = false
  /\ Py.contains "" "app.log" = true.
Proof. repeat split. Qed.

Example str_list_samples :
  DirPaths.str_list ["a"; "b"] = "['a', 'b']"
  /\ DirPaths.str_list [] = "[]".
Proof. repeat split. Qed.

Example os_walk_samples :
  map dirpath (os_walk Sample.fs_nested "r" true)
  = ["r"; "r/a"; "r/a/b"; "r/a/c"]
  /\ map dirpath (os_walk Sample.fs_nested "r" false)
     = ["r/a/b"; "r/a/c"; "r/a"; "r"]
  /\ os_walk Sample.fs_nested "missing" true = [].
Proof. repeat split. Qed.

(** ** Loops *)

Lemma for_each_app {A S : Type} (body : S -> A -> result S) (l1 l2 : list A)
      (s : S) :
  for_each body (l1 ++ l2) s = (s' <- for_each body l1 s ;; for_each body l2 s').
Proof.
  revert s; induction l1 as [|a l1 IH]; intros s; simpl; [reflexivity|].
  destruct (body s a); simpl; auto.
Qed.

(** A loop whose body raises at every turn raises as soon as there is a turn
    to make. *)
Lemma for_each_raises {A S : Type} (body : S -> A -> result S) (e : pyerr)
      (l : list A) (s : S) :
  (forall s' a, body s' a = Raise e) ->
  l <> [] ->
  for_each body l s = Raise e.
Proof.
  intros Hbody Hl. destruct l as [|a l]; [congruence|].
  simpl. rewrite Hbody. reflexivity.
Qed.

(** [walk] hands back what the traverser it dispatches to has returned. *)
Lemma walk_dispatch
      (spr : filesystem -> list string -> option PathFilters -> bool ->
             nat -> result (list string))
      (fs : filesystem) (self : DirPaths.t) :
  DirPaths.walk spr fs self
  = if DirPaths.self_parallelize self then
      spr fs (DirPaths.self_directory self) (DirPaths.self_filters self)
          (DirPaths.self_full_paths self) (DirPaths.self_pool_size self)
    else
      Crawler.init fs
        {| Crawler.directory := DirPaths.self_directory self;
           Crawler.filters := DirPaths.self_filters self;
           Crawler.full_paths := DirPaths.self_full_paths self;
           Crawler.topdown := DirPaths.self_topdown self |}.
Proof.
  unfold DirPaths.walk, DirPaths.Crawler_crawler, DirPaths._get_filepaths.
  destruct (DirPaths.self_parallelize self);
    match goal with |- bind ?r _ = _ => destruct r; reflexivity end.
Qed.

(** ** [os.walk] *)

Lemma walk_dir_not_nil (topdown : bool) (path : string) (d : dir) :
  walk_dir topdown path d <> [].
Proof.
  destruct d as [ds fs]; simpl.
  destruct topdown; [discriminate|].
  intros H. apply app_eq_nil in H. destruct H as [_ H]. discriminate.
Qed.

Lemma os_walk_missing (fs : filesystem) (top : string) (topdown : bool) :
  fs top = None -> os_walk fs top topdown = [].
Proof. intros H. unfold os_walk. rewrite H. reflexivity. Qed.

Lemma os_walk_existing (fs : filesystem) (top : string) (topdown : bool) (d : dir) :
  fs top = Some d -> os_walk fs top topdown <> [].
Proof. intros H. unfold os_walk. rewrite H. apply walk_dir_not_nil. Qed.

(** ** [DirPaths.__init__] *)

Section DirPathsInit.

Variable filters_arg : Type.
Variable new_PathFilters :
  option (list string) -> option (list string) -> level -> level ->
  option (list filters_arg) -> bool -> PathFilters.

Lemma init_without_filters (a : DirPaths.args filters_arg) :
  DirPaths.no_filter_options a = true ->
  DirPaths.self_filters (DirPaths.init new_PathFilters a) = None.
Proof.
  unfold DirPaths.no_filter_options. intros H.
  repeat (apply andb_prop in H; destruct H as [H ?]).
  apply negb_true_iff in H.
  repeat match goal with
         | H : negb _ = true |- _ => apply negb_true_iff in H
         end.
  simpl.
  repeat match goal with H : _ = _ |- _ => rewrite H end.
  reflexivity.
Qed.

(** Whatever is passed as [directory], a list included, [self.directory]
    is the one-element list of its [str]. *)
Lemma init_directory (a : DirPaths.args filters_arg) :
  DirPaths.self_directory (DirPaths.init new_PathFilters a)
  = [DirPaths.py_str (DirPaths.directory a)].
Proof. reflexivity. Qed.

End DirPathsInit.

(** ** [Crawler] on roots that yield nothing *)

Lemma Crawler_init_nothing_walked (fs : filesystem) (c : Crawler.t) :
  (forall r, In r (Crawler.directory c) ->
             os_walk fs r (Crawler.topdown c) = []) ->
  Crawler.init fs c = Ok [].
Proof.
  intros Hall. unfold Crawler.init.
  destruct (Crawler.filters c) as [pf|].
  - f_equal. unfold Crawler.filter.
    induction (Crawler.directory c) as [|r rs IH]; simpl; [reflexivity|].
    rewrite (Hall r) by (left; reflexivity). simpl.
    apply IH. intros r' Hr'. apply Hall. right; assumption.
  - unfold Crawler.encompass.
    induction (Crawler.directory c) as [|r rs IH]; simpl; [reflexivity|].
    rewrite (Hall r) by (left; reflexivity). simpl.
    apply IH. intros r' Hr'. apply Hall. right; assumption.
Qed.

(** Without a [PathFilters] object the first directory entry visited makes
    [encompass] read an attribute of [False]. *)
Lemma Crawler_init_unfiltered_raises (fs : filesystem) (c : Crawler.t)
      (r : string) (rs : list string) (d : dir) :
  Crawler.filters c = None ->
  Crawler.directory c = r :: rs ->
  fs r = Some d ->
  Crawler.init fs c = Raise AttributeError.
Proof.
  intros Hf Hd Hr. unfold Crawler.init, Crawler.encompass.
  rewrite Hf, Hd. simpl.
  rewrite for_each_raises with (e := AttributeError); [reflexivity| |].
  - intros acc e. unfold Crawler.encompass_entry. rewrite Hf. reflexivity.
  - eapply os_walk_existing; eassumption.
Qed.

(** ** Claims about [DirPaths.walk] *)

(** C2 (the code departs from the claim).  The claim: with no filter option
    set, a sequential [walk()] over an existing root completes and returns the
    files of the tree.  The code: [__init__] sets [self.filters = False], and
    [Crawler.encompass] reads [self.filters.non_empty_folders] at the first
    directory visited, so the walk of every existing root raises
    [AttributeError]. *)
Theorem walk_without_filters_raises :
  forall (F : Type) new_PathFilters Sprinter_sprinter (fs : filesystem)
         (a : DirPaths.args F) (d : dir),
    DirPaths.no_filter_options a = true ->
    DirPaths.parallelize a = false ->
    fs (DirPaths.py_str (DirPaths.directory a)) = Some d ->
    DirPaths.walk Sprinter_sprinter fs (DirPaths.init new_PathFilters a)
    = Raise AttributeError.
Proof.
  intros F npf spr fs a d Hno Hpar Hfs.
  rewrite walk_dispatch.
  replace (DirPaths.self_parallelize (DirPaths.init npf a))
    with (DirPaths.parallelize a) by reflexivity.
  rewrite Hpar.
  eapply Crawler_init_unfiltered_raises; simpl.
  - change (DirPaths.self_filters (DirPaths.init npf a) = None).
    apply init_without_filters; assumption.
  - reflexivity.
  - eassumption.
Qed.

Lemma walk_without_filters_raises_witness :
  DirPaths.walk Sample.Sprinter_in_order Sample.fs_logs
    (DirPaths.init Sample.new_PathFilters
       (Sample.defaults (DirPaths.OnePath "r")))
  = Raise AttributeError.
Proof.
  apply (@walk_without_filters_raises _ Sample.new_PathFilters
           Sample.Sprinter_in_order Sample.fs_logs
           (Sample.defaults (DirPaths.OnePath "r")) Sample.logs);
    reflexivity.
Defined.

(** A sequential walk whose one root yields nothing returns the empty
    list. *)
Lemma walk_nothing_walked :
  forall (F : Type) new_PathFilters Sprinter_sprinter (fs : filesystem)
         (a : DirPaths.args F),
    DirPaths.parallelize a = false ->
    fs (DirPaths.py_str (DirPaths.directory a)) = None ->
    DirPaths.walk Sprinter_sprinter fs (DirPaths.init new_PathFilters a)
    = Ok [].
Proof.
  intros F npf spr fs a Hpar Hfs.
  rewrite walk_dispatch.
  replace (DirPaths.self_parallelize (DirPaths.init npf a))
    with (DirPaths.parallelize a) by reflexivity.
  rewrite Hpar.
  apply Crawler_init_nothing_walked. simpl.
  intros r [<-|[]]. apply os_walk_missing. assumption.
Qed.

(** C3 (the code departs from the claim).  The claim: a list of roots is
    walked root by root.  The code: [str(directory)] never raises the
    [TypeError] that would select the list branch, so the list becomes the
    single root named by its own [repr]; when no directory bears that name
    the walk visits nothing and returns the empty list, whatever the listed
    roots hold. *)
Theorem walk_of_root_list_visits_nothing :
  forall (F : Type) new_PathFilters Sprinter_sprinter (fs : filesystem)
         (a : DirPaths.args F) (roots : list string),
    DirPaths.directory a = DirPaths.PathList roots ->
    DirPaths.parallelize a = false ->
    fs (DirPaths.str_list roots) = None ->
    DirPaths.self_directory (DirPaths.init new_PathFilters a)
    = [DirPaths.str_list roots]
    /\ DirPaths.walk Sprinter_sprinter fs (DirPaths.init new_PathFilters a)
       = Ok [].
Proof.
  intros F npf spr fs a roots Hdir Hpar Hfs. split.
  - rewrite init_directory, Hdir. reflexivity.
  - apply walk_nothing_walked; [assumption|].
    rewrite Hdir. assumption.
Qed.

Lemma walk_of_root_list_visits_nothing_witness :
  Crawler.init Sample.fs_two_roots
    {| Crawler.directory := ["a"; "b"];
       Crawler.filters :=
         DirPaths.self_filters
           (DirPaths.init Sample.new_PathFilters
              (Sample.bounded (DirPaths.PathList ["a"; "b"])));
       Crawler.full_paths := false;
       Crawler.topdown := true |}
  = Ok ["f.txt"; "g.txt"]
  /\ DirPaths.self_directory
       (DirPaths.init Sample.new_PathFilters
          (Sample.bounded (DirPaths.PathList ["a"; "b"])))
     = ["['a', 'b']"]
  /\ DirPaths.walk Sample.Sprinter_in_order Sample.fs_two_roots
       (DirPaths.init Sample.new_PathFilters
          (Sample.bounded (DirPaths.PathList ["a"; "b"])))
     = Ok [].
Proof.
  split; [reflexivity|].
  apply (@walk_of_root_list_visits_nothing _ Sample.new_PathFilters
           Sample.Sprinter_in_order Sample.fs_two_roots
           (Sample.bounded (DirPaths.PathList ["a"; "b"])) ["a"; "b"]);
    reflexivity.
Defined.

(** ** A root that does not exist *)

Lemma Walk_walk_missing_root (fs : filesystem) (cwd : string)
      (w : Walk.DirPaths) :
  fs (Walk.directory w) = None ->
  Walk.walk fs cwd w = [].
Proof.
  intros Hfs. unfold Walk.walk, Walk.walk_from.
  rewrite os_walk_missing by assumption. simpl.
  unfold Walk._get_filepaths.
  destruct (truthy (Walk.to_include w)); simpl;
    destruct (truthy (Walk.to_exclude w)); simpl;
    destruct (Walk.full_paths w); reflexivity.
Qed.

(** C9 (as amended).  When the one root supplied does not exist, or is not a
    directory, [os.walk] swallows the error of listing it and yields nothing:
    [Crawler], the sequential [DirPaths.walk], with or without filters, and
    the walk of the older [dirutility/walk.py] all complete with the empty
    list; no error is raised. *)
Theorem walk_of_missing_root_is_empty :
  forall (F : Type) new_PathFilters Sprinter_sprinter (fs : filesystem)
         (a : DirPaths.args F) (cwd : string) (w : Walk.DirPaths)
         (c : Crawler.t) (r : string),
    Crawler.directory c = [r] ->
    fs r = None ->
    DirPaths.parallelize a = false ->
    fs (DirPaths.py_str (DirPaths.directory a)) = None ->
    fs (Walk.directory w) = None ->
    Crawler.init fs c = Ok []
    /\ DirPaths.walk Sprinter_sprinter fs (DirPaths.init new_PathFilters a)
       = Ok []
    /\ Walk.walk fs cwd w = [].
Proof.
  intros F npf spr fs a cwd w c r Hc Hr Hpar Ha Hw. split; [|split].
  - apply Crawler_init_nothing_walked. rewrite Hc.
    intros r' [<-|[]]. apply os_walk_missing. assumption.
  - apply walk_nothing_walked; assumption.
  - apply Walk_walk_missing_root; assumption.
Qed.

Lemma walk_of_missing_root_is_empty_witness :
  Crawler.init Sample.fs_nested
    {| Crawler.directory := ["missing"];
       Crawler.filters := Crawler.filters Sample.folders_request;
       Crawler.full_paths := false;
       Crawler.topdown := true |}
  = Ok []
  /\ DirPaths.walk Sample.Sprinter_in_order Sample.fs_nested
       (DirPaths.init Sample.new_PathFilters
          (Sample.defaults (DirPaths.OnePath "missing")))
     = Ok []
  /\ Walk.walk Sample.fs_nested "/home/u"
       {| Walk.directory := "missing";
          Walk.full_paths := false;
          Walk.topdown := true;
          Walk.to_include := None;
          Walk.to_exclude := None |}
     = [].
Proof.
  apply (walk_of_missing_root_is_empty
           Sample.no_filters_arg Sample.new_PathFilters
           Sample.Sprinter_in_order Sample.fs_nested
           (Sample.defaults (DirPaths.OnePath "missing")) "/home/u"
           {| Walk.directory := "missing";
              Walk.full_paths := false;
              Walk.topdown := true;
              Walk.to_include := None;
              Walk.to_exclude := None |}
           {| Crawler.directory := ["missing"];
              Crawler.filters := Crawler.filters Sample.folders_request;
              Crawler.full_paths := false;
              Crawler.topdown := true |}
           "missing");
    reflexivity.
Defined.

(** C9 as stated fails: the traversal of a root that does not exist raises
    nothing and returns the empty list. *)
Lemma missing_root_raises_nothing :
  (~ exists e : pyerr,
       DirPaths.walk Sample.Sprinter_in_order Sample.fs_logs
         (DirPaths.init Sample.new_PathFilters
            (Sample.bounded (DirPaths.OnePath "missing")))
       = Raise e)
  /\ DirPaths.walk Sample.Sprinter_in_order Sample.fs_logs
       (DirPaths.init Sample.new_PathFilters
          (Sample.bounded (DirPaths.OnePath "missing")))
     = Ok [].
Proof.
  split; [|reflexivity].
  intros [e He]. vm_compute in He. discriminate He.
Qed.

(** ** [DirTree._filter] *)

Lemma split_sep_not_nil (s : string) : Py.split_sep s <> [].
Proof.
  induction s as [|c s IH]; simpl; [discriminate|].
  destruct (Py.is_sep c); [discriminate|].
  destruct (Py.split_sep s); discriminate.
Qed.

Lemma _filter_at_no_rule (self : DirTree.t) (folders : list string)
      (kind : string) (j : nat) :
  Branches.no_rule_at (DirTree.branches self) kind j ->
  DirTree._filter_at self folders kind j = Ok None.
Proof.
  intros (level & r & Hb & Hr & Hfalse).
  unfold DirTree._filter_at. rewrite Hb. simpl. rewrite Hr. simpl.
  rewrite Hfalse. reflexivity.
Qed.

Lemma _filter_at_rule (self : DirTree.t) (folders : list string)
      (kind : string) (i : nat) :
  Branches.rule_at (DirTree.branches self) kind i ->
  i < List.length folders ->
  DirTree._filter_at self folders kind i = Raise TypeError.
Proof.
  intros (level & r & Hb & Hr & Htrue) Hi.
  unfold DirTree._filter_at. rewrite Hb. simpl. rewrite Hr. simpl.
  rewrite Htrue. unfold DirTree.list_getitem.
  destruct (nth_error folders i) as [name|] eqn:Hn.
  - reflexivity.
  - apply nth_error_None in Hn. lia.
Qed.

(** The loop of [_filter] raises at the first level that has a rule. *)
Lemma _filter_loop_raises (self : DirTree.t) (folders : list string)
      (kind : string) (i : nat) :
  forall (n s : nat),
    s <= i < s + n ->
    i < List.length folders ->
    (forall j, s <= j < i ->
               Branches.no_rule_at (DirTree.branches self) kind j) ->
    Branches.rule_at (DirTree.branches self) kind i ->
    DirTree._filter_loop self folders kind (seq s n) = Raise TypeError.
Proof.
  induction n as [|n IH]; intros s Hs Hi Hbefore Hrule; [lia|].
  simpl. destruct (Nat.eq_dec s i) as [->|Hne].
  - rewrite _filter_at_rule by assumption. reflexivity.
  - rewrite _filter_at_no_rule by (apply Hbefore; lia). simpl.
    apply IH; try assumption; [lia|].
    intros j Hj. apply Hbefore. lia.
Qed.

Lemma DirTree_get_first_entry (fs : filesystem) (self : DirTree.t) (d : dir)
      (h : heap) :
  fs (DirTree.directory self) = Some d ->
  exists rest,
    DirTree.get fs self h
    = (h' <- DirTree.get_entry self h
               (WalkEntry (DirTree.directory self) (map fst (subdirs d))
                          (files d)) ;;
       for_each (DirTree.get_entry self) rest h').
Proof.
  intros Hfs. unfold DirTree.get, os_walk. rewrite Hfs.
  destruct d as [ds names]. simpl. eexists. reflexivity.
Qed.

(** [_filter] raises at the first level that has a rule, for folders and
    for files alike. *)
Lemma _filter_raises (self : DirTree.t) (folders : list string)
      (kind : string) (i : nat) :
  i < List.length folders ->
  (forall j, j < i -> Branches.no_rule_at (DirTree.branches self) kind j) ->
  Branches.rule_at (DirTree.branches self) kind i ->
  DirTree._filter self folders kind = Raise TypeError.
Proof.
  intros Hi Hbefore Hrule. unfold DirTree._filter.
  apply _filter_loop_raises with (i := i); try assumption; [lia|].
  intros j Hj. apply Hbefore. lia.
Qed.

(** C8 (the code departs from the claim).  The claim: with branches, a
    directory is kept or rejected by the folders rule of each of its levels.
    The code: [_filter] binds [exclude] and [include] to the bound method
    [filters.get] and then tests [folders[index] in exclude], which raises
    [TypeError]; building the tree of an existing root whose own level has a
    folders rule raises at the root, and nothing is kept or rejected. *)
Theorem tree_with_folder_rule_raises :
  forall (fs : filesystem) (root : string) (d : dir)
         (b : option (list DirTree.branch)),
    fs (Py.Path_str root) = Some d ->
    Branches.rule_at b "folders" 0 ->
    DirTree.init fs root b = Raise TypeError.
Proof.
  intros fs root d b Hfs Hrule. unfold DirTree.init.
  match goal with
  | |- context [DirTree.get fs ?s ?h] =>
      destruct (@DirTree_get_first_entry fs s d h Hfs) as [rest ->]
  end.
  unfold DirTree.get_entry at 1.
  cbn [DirTree.branches DirTree.start DirTree.directory dirpath].
  assert (Htruthy : DirTree.branches_truthy b = true).
  { destruct Hrule as (level & r & Hb & _).
    destruct b as [[|x l]|]; simpl in *; try discriminate; reflexivity. }
  rewrite Htruthy.
  rewrite _filter_raises with (i := 0); [reflexivity| | |exact Hrule].
  - pose proof (@split_sep_not_nil
                  (Py.slice_from (Py.rfind_sep_plus1 (Py.Path_str root))
                                 (Py.Path_str root))) as Hne.
    destruct (Py.split_sep _); [congruence|simpl; lia].
  - intros j Hj. lia.
Qed.

Lemma tree_with_folder_rule_raises_witness :
  DirTree.init Sample.fs_x "/home/u/x" (Some Branches.only_x)
  = Raise TypeError.
Proof.
  apply (@tree_with_folder_rule_raises Sample.fs_x "/home/u/x" Sample.x_tree
           (Some Branches.only_x)).
  - reflexivity.
  - exists [("folders", Some [("include", ["x"])]); ("files", None)].
    exists (Some [("include", ["x"])]).
    repeat split; reflexivity.
Defined.

(** ** Strings and paths *)

Lemma dir_induction (P : dir -> Prop) :
  (forall ds fs, Forall (fun nd => P (snd nd)) ds -> P (Dir ds fs)) ->
  forall d, P d.
Proof.
  intros H. fix IH 1. intros [ds fs]. apply H.
  induction ds as [|[n c] ds IHds]; constructor; [apply IH|exact IHds].
Qed.

Lemma str_app_assoc (a b c : string) :
  ((a ++ b) ++ c = a ++ (b ++ c))%string.
Proof. induction a as [|x a IH]; simpl; [reflexivity|rewrite IH; reflexivity]. Qed.

Lemma str_app_nil_r (a : string) : (a ++ "")%string = a.
Proof. induction a as [|x a IH]; simpl; [reflexivity|rewrite IH; reflexivity]. Qed.

Lemma str_length_app (a b : string) :
  String.length (a ++ b) = String.length a + String.length b.
Proof. induction a as [|x a IH]; simpl; [reflexivity|rewrite IH; reflexivity]. Qed.

Lemma split_sep_app_sep (a b : string) :
  Py.split_sep (a ++ String Py.sep b) = Py.split_sep a ++ Py.split_sep b.
Proof.
  induction a as [|c a IH]; simpl.
  - reflexivity.
  - destruct (Py.is_sep c); [rewrite IH; reflexivity|].
    rewrite IH. pose proof (split_sep_not_nil a) as Hne.
    destruct (Py.split_sep a); [congruence|reflexivity].
Qed.

Lemma split_sep_no_sep (f : string) :
  Py.no_sep f = true -> Py.split_sep f = [f].
Proof.
  induction f as [|c f IH]; simpl; [reflexivity|].
  intros H. apply andb_prop in H. destruct H as [Hc Hf].
  apply negb_true_iff in Hc. rewrite Hc, (IH Hf). reflexivity.
Qed.

Lemma endswith_sep_inv (z : string) :
  Py.endswith_sep z = true -> exists z0, z = (z0 ++ String Py.sep "")%string.
Proof.
  induction z as [|c z IH]; simpl; [discriminate|].
  destruct z as [|c' z'].
  - intros H. apply Ascii.eqb_eq in H. subst c. exists "". reflexivity.
  - intros H. destruct (IH H) as [z0 Hz0]. exists (String c z0).
    simpl. rewrite <- Hz0. reflexivity.
Qed.

Lemma endswith_sep_app_sep (z : string) :
  Py.endswith_sep (z ++ String Py.sep "") = true.
Proof.
  induction z as [|c z IH]; simpl.
  - reflexivity.
  - destruct (z ++ String Py.sep "")%string eqn:E; [|exact IH].
    destruct z; discriminate.
Qed.

Lemma rfind_sep_no_sep (f : string) :
  Py.no_sep f = true -> Py.rfind_sep f = None.
Proof.
  induction f as [|c f IH]; simpl; [reflexivity|].
  intros H. apply andb_prop in H. destruct H as [Hc Hf].
  apply negb_true_iff in Hc. rewrite (IH Hf), Hc. reflexivity.
Qed.

Lemma rfind_sep_app_sep (a f : string) :
  Py.no_sep f = true ->
  Py.rfind_sep (a ++ String Py.sep f) = Some (String.length a).
Proof.
  intros Hf. induction a as [|c a IH]; simpl.
  - rewrite rfind_sep_no_sep by assumption. reflexivity.
  - rewrite IH. reflexivity.
Qed.

Lemma slice_from_app (a b : string) :
  Py.slice_from (String.length a) (a ++ b) = b.
Proof. induction a as [|c a IH]; simpl; [destruct b; reflexivity|exact IH]. Qed.

(** The final component of a path that ends in a name is that name. *)
Lemma basename_app_name (z f : string) :
  z = ""%string \/ Py.endswith_sep z = true ->
  Py.no_sep f = true ->
  Py.basename (z ++ f) = f.
Proof.
  intros [->|Hz] Hf; unfold Py.basename, Py.rfind_sep_plus1.
  - simpl. rewrite rfind_sep_no_sep by assumption. destruct f; reflexivity.
  - destruct (endswith_sep_inv _ Hz) as [z0 ->].
    rewrite str_app_assoc. simpl.
    rewrite rfind_sep_app_sep by assumption.
    replace (S (String.length z0))
      with (String.length (z0 ++ String Py.sep "")%string)
      by (rewrite str_length_app; simpl; lia).
    replace (z0 ++ String Py.sep f)%string
      with ((z0 ++ String Py.sep "") ++ f)%string
      by (rewrite str_app_assoc; reflexivity).
    apply slice_from_app.
Qed.

(** ** The filter of [dirutility/walk.py] *)

Lemma truthy_terms (o : option (list string)) :
  truthy o = negb (List.length (terms_of o) =? 0)%nat.
Proof. destruct o as [[|x l]|]; reflexivity. Qed.

Lemma in_matching (terms : list string) (filepaths : list Walk.item)
      (x : Walk.item) :
  In x (Walk.matching terms filepaths)
  <-> In x filepaths
      /\ FilterSet.any_in terms (Walk.basename_Path x) = true.
Proof.
  unfold Walk.matching, FilterSet.any_in. rewrite in_flat_map. split.
  - intros (path & Hpath & Hin). apply in_flat_map in Hin.
    destruct Hin as (term & Hterm & Hx).
    destruct (Py.contains term (Walk.basename_Path path)) eqn:Hc;
      [|contradiction].
    destruct Hx as [<-|[]]. split; [assumption|].
    apply existsb_exists. exists term. auto.
  - intros [Hin Hany]. apply existsb_exists in Hany.
    destruct Hany as (term & Hterm & Hc).
    exists x. split; [assumption|]. apply in_flat_map.
    exists term. split; [assumption|]. rewrite Hc. left; reflexivity.
Qed.

Lemma in_set_difference (a b : list Walk.item) (x : Walk.item) :
  In x (Walk.set_difference a b) <-> In x a /\ ~ In x b.
Proof.
  unfold Walk.set_difference, Walk.mem.
  rewrite nodup_In, filter_In.
  destruct (in_dec Walk.item_eq_dec x b); simpl; intuition congruence.
Qed.

(** What is left of [filepaths] once the include and exclude steps of
    [_get_filepaths] are done. *)
Lemma in_filtered (self : Walk.DirPaths) (filepaths : list Walk.item)
      (x : Walk.item) :
  let included :=
    if truthy (Walk.to_include self)
    then Walk.matching (terms_of (Walk.to_include self)) filepaths
    else filepaths in
  let kept :=
    if truthy (Walk.to_exclude self)
    then Walk.set_difference included
           (Walk.matching (terms_of (Walk.to_exclude self)) included)
    else included in
  In x kept
  <-> In x filepaths
      /\ spec_accepts (terms_of (Walk.to_include self))
                      (terms_of (Walk.to_exclude self))
                      (Walk.basename_Path x) = true.
Proof.
  intros included kept. subst included kept.
  unfold spec_accepts. rewrite <- !truthy_terms.
  destruct (truthy (Walk.to_exclude self)) eqn:Hex;
    destruct (truthy (Walk.to_include self)) eqn:Hinc; simpl;
    rewrite ?in_set_difference, ?in_matching;
    destruct (FilterSet.any_in (terms_of (Walk.to_exclude self))
                               (Walk.basename_Path x));
    destruct (FilterSet.any_in (terms_of (Walk.to_include self))
                               (Walk.basename_Path x));
    simpl; intuition congruence.
Qed.

Lemma in_get_filepaths (cwd : string) (self : Walk.DirPaths)
      (filepaths : list Walk.item) (y : Walk.item) :
  In y (Walk._get_filepaths cwd self filepaths)
  <-> exists x,
      In x filepaths
      /\ spec_accepts (terms_of (Walk.to_include self))
                      (terms_of (Walk.to_exclude self))
                      (Walk.basename_Path x) = true
      /\ y = if Walk.full_paths self
             then Walk.PathObj (Py.Path_absolute cwd (Walk.Path_of x))
             else x.
Proof.
  unfold Walk._get_filepaths.
  fold (terms_of (Walk.to_include self)).
  fold (terms_of (Walk.to_exclude self)).
  destruct (Walk.full_paths self).
  - rewrite in_map_iff. split.
    + intros (x & <- & Hx). apply in_filtered in Hx.
      exists x. tauto.
    + intros (x & Hin & Hacc & ->). exists x. split; [reflexivity|].
      apply in_filtered. tauto.
  - split.
    + intros Hy. apply in_filtered in Hy. exists y. tauto.
    + intros (x & Hin & Hacc & ->). apply in_filtered. tauto.
Qed.

(** ** Paths that end in a file name *)

Lemma endswith_sep_app (a b : string) :
  Py.endswith_sep b = true -> Py.endswith_sep (a ++ b) = true.
Proof.
  intros Hb. destruct (endswith_sep_inv _ Hb) as [b0 ->].
  rewrite <- str_app_assoc. apply endswith_sep_app_sep.
Qed.

Lemma before_name_app_sep (a z : string) :
  before_name z -> before_name (a ++ String Py.sep z).
Proof.
  intros [->|Hz]; right.
  - apply endswith_sep_app_sep.
  - apply endswith_sep_app.
    change (String Py.sep z) with (String Py.sep "" ++ z)%string.
    apply endswith_sep_app. assumption.
Qed.

Lemma valid_name_no_sep (f : string) :
  valid_name f = true -> Py.no_sep f = true.
Proof. unfold valid_name. intros H. apply andb_prop in H. tauto. Qed.

Lemma valid_name_not_absolute (f : string) :
  valid_name f = true -> Py.startswith "/" f = false.
Proof.
  unfold valid_name, Py.startswith. destruct f as [|c f]; [discriminate|].
  intros H. apply andb_prop in H. destruct H as [_ H].
  change (Py.no_sep (String c f))
    with (negb (Py.is_sep c) && Py.no_sep f) in H.
  apply andb_prop in H. destruct H as [Hc _].
  apply negb_true_iff in Hc. unfold Py.is_sep, Py.sep in Hc.
  change (String.prefix "/" (String c f))
    with (if ascii_dec "/" c then String.prefix "" f else false).
  destruct (ascii_dec "/" c) as [Heq|Hne]; [|reflexivity].
  exfalso. rewrite <- Heq in Hc. discriminate Hc.
Qed.

(** [os.path.join] of a directory path and a name puts the name last. *)
Lemma join_name (dp f : string) :
  valid_name f = true ->
  exists z, before_name z /\ Py.join dp f = (z ++ f)%string.
Proof.
  intros Hf. unfold Py.join. rewrite (valid_name_not_absolute _ Hf).
  destruct (String.length dp =? 0)%nat eqn:Hlen.
  - apply Nat.eqb_eq in Hlen. destruct dp; [|discriminate].
    exists ""%string. split; [left; reflexivity|reflexivity].
  - simpl. destruct (Py.endswith_sep dp) eqn:Hend.
    + exists dp. split; [right; assumption|reflexivity].
    + exists (dp ++ "/")%string. split.
      * right. apply endswith_sep_app_sep.
      * rewrite str_app_assoc. reflexivity.
Qed.

Lemma concat_sep_snoc (ps : list string) (f : string) :
  exists z, before_name z
            /\ String.concat "/" (ps ++ [f]) = (z ++ f)%string.
Proof.
  induction ps as [|x ps IH]; simpl.
  - exists ""%string. split; [left; reflexivity|reflexivity].
  - destruct IH as (z & Hz & Heq).
    destruct (ps ++ [f]) as [|y l] eqn:E.
    + destruct ps; discriminate.
    + rewrite Heq. exists (x ++ String Py.sep z)%string. split.
      * apply before_name_app_sep. assumption.
      * rewrite str_app_assoc. reflexivity.
Qed.

Lemma Path_parts_name (z f : string) :
  before_name z -> path_part f = true ->
  exists ps, Py.Path_parts (z ++ f) = ps ++ [f].
Proof.
  intros Hz Hf. unfold path_part in Hf. apply andb_prop in Hf.
  destruct Hf as [Hvalid Hdot].
  assert (Hkeep : negb (String.eqb f "") && negb (String.eqb f ".") = true).
  { unfold valid_name in Hvalid. apply andb_prop in Hvalid.
    destruct Hvalid as [Hne _]. rewrite Hne, Hdot. reflexivity. }
  unfold Py.Path_parts. destruct Hz as [->|Hz].
  - exists []. simpl. rewrite split_sep_no_sep
      by (apply valid_name_no_sep; assumption).
    simpl. rewrite Hkeep. reflexivity.
  - destruct (endswith_sep_inv _ Hz) as [z0 ->].
    rewrite str_app_assoc. simpl.
    rewrite split_sep_app_sep, filter_app.
    rewrite (split_sep_no_sep f) by (apply valid_name_no_sep; assumption).
    simpl. rewrite Hkeep. eexists. reflexivity.
Qed.

Lemma Path_root_before_name (s : string) : before_name (Py.Path_root s).
Proof.
  unfold Py.Path_root.
  destruct (Py.startswith "//" s && negb (Py.startswith "///" s));
    [right; reflexivity|].
  destruct (Py.startswith "/" s); [right; reflexivity|left; reflexivity].
Qed.

Lemma before_name_append (a b : string) :
  before_name a -> before_name b -> before_name (a ++ b).
Proof.
  intros Ha [->|Hb].
  - rewrite str_app_nil_r. assumption.
  - right. apply endswith_sep_app. assumption.
Qed.

(** [Path] keeps a final name final. *)
Lemma Path_str_name (z f : string) :
  before_name z -> path_part f = true ->
  exists z', before_name z' /\ Py.Path_str (z ++ f) = (z' ++ f)%string.
Proof.
  intros Hz Hf. destruct (Path_parts_name z f Hz Hf) as [ps Hps].
  unfold Py.Path_str. rewrite Hps.
  destruct (concat_sep_snoc ps f) as (z1 & Hz1 & Hcat).
  pose proof (Path_root_before_name (z ++ f)) as Hroot.
  exists (Py.Path_root (z ++ f) ++ z1)%string. split.
  - apply before_name_append; assumption.
  - destruct (Py.Path_root (z ++ f)) eqn:Hr;
      destruct (ps ++ [f]) eqn:E;
      try (destruct ps; discriminate);
      rewrite Hcat, ?str_app_assoc; reflexivity.
Qed.

Lemma Path_absolute_name (cwd z f : string) :
  before_name z -> path_part f = true ->
  exists z', before_name z'
             /\ Py.Path_absolute cwd (z ++ f) = (z' ++ f)%string.
Proof.
  intros Hz Hf. unfold Py.Path_absolute.
  destruct (Path_str_name z f Hz Hf) as (z1 & Hz1 & ->).
  destruct (Py.is_absolute (z1 ++ f)) eqn:Habs.
  - exists z1. split; [assumption|reflexivity].
  - unfold Py.join. unfold Py.is_absolute in Habs. rewrite Habs.
    destruct (String.length cwd =? 0)%nat eqn:Hlen.
    + cbn [orb]. rewrite <- str_app_assoc.
      apply Path_str_name; [|assumption].
      apply before_name_append; [|assumption].
      left. destruct cwd; [reflexivity|discriminate].
    + cbn [orb]. destruct (Py.endswith_sep cwd) eqn:Hend.
      * rewrite <- str_app_assoc.
        apply Path_str_name; [|assumption].
        apply before_name_append; [|assumption]. right. assumption.
      * replace (cwd ++ "/" ++ z1 ++ f)%string
          with ((cwd ++ String Py.sep z1) ++ f)%string
          by (rewrite str_app_assoc; reflexivity).
        apply Path_str_name; [|assumption].
        apply before_name_app_sep. assumption.
Qed.

(** ** The entries of a well-formed tree *)

Lemma walk_children_flat_map (topdown : bool) (path : string)
      (ds : list (string * dir)) :
  (fix walk_children (l : list (string * dir)) : list walk_entry :=
     match l with
     | [] => []
     | (n, c) :: l' =>
         walk_dir topdown (Py.join path n) c ++ walk_children l'
     end) ds
  = flat_map (fun nd => walk_dir topdown (Py.join path (fst nd)) (snd nd)) ds.
Proof.
  induction ds as [|[n c] ds IH]; simpl; [reflexivity|].
  rewrite IH. reflexivity.
Qed.

Lemma walk_dir_unfold (topdown : bool) (path : string)
      (ds : list (string * dir)) (fs : list string) :
  walk_dir topdown path (Dir ds fs)
  = let here := WalkEntry path (map fst ds) fs in
    let below :=
      flat_map (fun nd => walk_dir topdown (Py.join path (fst nd)) (snd nd))
               ds in
    if topdown then here :: below else below ++ [here].
Proof.
  cbn [walk_dir]. rewrite walk_children_flat_map. reflexivity.
Qed.

Lemma wf_children_forall (ds : list (string * dir)) :
  (fix wf_children (l : list (string * dir)) : bool :=
     match l with
     | [] => true
     | (_, c) :: l' => wf_dir c && wf_children l'
     end) ds = true
  <-> Forall (fun nd => wf_dir (snd nd) = true) ds.
Proof.
  induction ds as [|[n c] ds IH]; simpl.
  - split; [constructor|reflexivity].
  - rewrite andb_true_iff, IH. split.
    + intros [Hc Hds]. constructor; assumption.
    + intros H. inversion H; subst. split; assumption.
Qed.

Lemma wf_dir_unfold (ds : list (string * dir)) (fs : list string) :
  wf_dir (Dir ds fs) = true
  <-> forallb valid_name fs = true
      /\ forallb valid_name (map fst ds) = true
      /\ distinct (fs ++ map fst ds) = true
      /\ Forall (fun nd => wf_dir (snd nd) = true) ds.
Proof.
  cbn [wf_dir]. rewrite !andb_true_iff, wf_children_forall. tauto.
Qed.

(** The two shapes an entry of a walk can have: the directory itself, or an
    entry of the walk of one of its sub-directories. *)
Lemma in_walk_dir (topdown : bool) (path : string)
      (ds : list (string * dir)) (fs : list string) (e : walk_entry) :
  In e (walk_dir topdown path (Dir ds fs))
  <-> e = WalkEntry path (map fst ds) fs
      \/ exists nd, In nd ds
                    /\ In e (walk_dir topdown (Py.join path (fst nd))
                                      (snd nd)).
Proof.
  rewrite walk_dir_unfold. cbv zeta.
  assert (Hflat :
            In e (flat_map
                    (fun nd => walk_dir topdown (Py.join path (fst nd))
                                        (snd nd)) ds)
            <-> exists nd, In nd ds
                           /\ In e (walk_dir topdown (Py.join path (fst nd))
                                             (snd nd)))
    by apply in_flat_map.
  destruct topdown.
  - simpl. rewrite Hflat. intuition congruence.
  - rewrite in_app_iff, Hflat. simpl. intuition congruence.
Qed.

(** Every directory entry that [os.walk] yields in a well-formed tree lists
    valid file names. *)
Lemma walk_dir_valid_filenames (topdown : bool) (d : dir) :
  forall (path : string) (e : walk_entry),
    wf_dir d = true ->
    In e (walk_dir topdown path d) ->
    forallb valid_name (filenames e) = true.
Proof.
  induction d as [ds fs IH] using dir_induction.
  intros path e Hwf Hin. apply in_walk_dir in Hin.
  apply wf_dir_unfold in Hwf. destruct Hwf as (Hfs & _ & _ & Hsub).
  destruct Hin as [->|(nd & Hnd & He)]; [exact Hfs|].
  rewrite Forall_forall in IH, Hsub.
  eapply IH; [exact Hnd|apply Hsub; exact Hnd|exact He].
Qed.

(** ** Hidden files *)

Lemma in_walk_entry_files (e : walk_entry) :
  forall (filepaths : list Walk.item) (y : Walk.item),
    In y (Walk.walk_entry_files filepaths e)
    <-> In y filepaths
        \/ exists f, In f (filenames e)
                     /\ Py.startswith "." f = false
                     /\ y = Walk.Str (Py.join (dirpath e) f).
Proof.
  unfold Walk.walk_entry_files.
  induction (filenames e) as [|f fs IH]; intros filepaths y; simpl.
  - split; [auto|]. intros [H|(f & [] & _)]. assumption.
  - rewrite IH. destruct (Py.startswith "." f) eqn:Hdot; simpl.
    + split.
      * intros [H|(g & Hg & Hrest)]; [auto|]. right. exists g. tauto.
      * intros [H|(g & [<-|Hg] & Hh & Hy)]; [auto| |].
        -- congruence.
        -- right. exists g. tauto.
    + rewrite in_app_iff. simpl. split.
      * intros [[H|[<-|[]]]|(g & Hg & Hrest)]; [auto| |].
        -- right. exists f. tauto.
        -- right. exists g. tauto.
      * intros [H|(g & [<-|Hg] & Hh & Hy)]; [auto| |].
        -- left. right. left. congruence.
        -- right. exists g. tauto.
Qed.

Lemma in_walked_files (entries : list walk_entry) :
  forall (filepaths : list Walk.item) (y : Walk.item),
    In y (fold_left Walk.walk_entry_files entries filepaths)
    <-> In y filepaths
        \/ exists e f, In e entries
                       /\ In f (filenames e)
                       /\ Py.startswith "." f = false
                       /\ y = Walk.Str (Py.join (dirpath e) f).
Proof.
  induction entries as [|e es IH]; intros filepaths y; simpl.
  - split; [auto|]. intros [H|(e & f & [] & _)]. assumption.
  - rewrite IH, in_walk_entry_files. split.
    + intros [[H|(f & Hf)]|(e' & f & He' & Hf)]; [auto| |].
      * right. exists e, f. tauto.
      * right. exists e', f. tauto.
    + intros [H|(e' & f & [<-|He'] & Hf)]; [auto| |].
      * left. right. exists f. tauto.
      * right. exists e', f. tauto.
Qed.

Lemma not_hidden_path_part (f : string) :
  valid_name f = true -> Py.startswith "." f = false -> path_part f = true.
Proof.
  intros Hv Hdot. unfold path_part. rewrite Hv. simpl.
  apply negb_true_iff. apply String.eqb_neq. intros ->.
  discriminate Hdot.
Qed.

(** ** What [Crawler] appends *)

Lemma add_path_emitted (c : Crawler.t) (acc : list string) (dir p : string) :
  Crawler.add_path c acc dir p = acc ++ [emitted_path c dir p].
Proof.
  unfold Crawler.add_path, emitted_path.
  destruct (Crawler.full_paths c); reflexivity.
Qed.

Lemma add_valid_files_output (c : Crawler.t) (pf : PathFilters)
      (dir root : string) (names : list string) :
  forall acc,
    Crawler.add_valid_files c pf dir root names acc
    = acc ++ map (emitted_path c dir)
                 (List.filter (validate pf) (map (Py.join root) names)).
Proof.
  unfold Crawler.add_valid_files.
  induction names as [|f names IH]; intros acc; simpl.
  - rewrite app_nil_r. reflexivity.
  - rewrite IH. destruct (validate pf (Py.join root f)); simpl.
    + rewrite add_path_emitted, <- app_assoc. reflexivity.
    + reflexivity.
Qed.

Lemma filter_entry_output (c : Crawler.t) (pf : PathFilters) (dir : string)
      (acc : list string) (e : walk_entry) :
  Crawler.filter_entry c pf dir acc e = acc ++ entry_output c pf dir e.
Proof.
  unfold Crawler.filter_entry, entry_output, root_output. cbv zeta.
  destruct (validate pf (Crawler.relative dir (dirpath e)));
    [|rewrite app_nil_r; reflexivity].
  destruct (non_empty_folders pf
            && level_is (get_level pf (Crawler.relative dir (dirpath e)))
                        (max_level pf)).
  - apply add_path_emitted.
  - apply add_valid_files_output.
Qed.

Lemma fold_filter_entry (c : Crawler.t) (pf : PathFilters) (dir : string)
      (es : list walk_entry) :
  forall acc,
    fold_left (Crawler.filter_entry c pf dir) es acc
    = acc ++ flat_map (entry_output c pf dir) es.
Proof.
  induction es as [|e es IH]; intros acc; simpl.
  - rewrite app_nil_r. reflexivity.
  - rewrite IH, filter_entry_output, <- app_assoc. reflexivity.
Qed.

(** [Crawler.filter] appends, root after root and entry after entry, what
    each entry puts out. *)
Lemma filter_is_output (fs : filesystem) (c : Crawler.t) (pf : PathFilters)
      (acc : list string) :
  Crawler.filter fs c pf acc = acc ++ filter_output fs c pf.
Proof.
  unfold Crawler.filter, filter_output. revert acc.
  induction (Crawler.directory c) as [|dir dirs IH]; intros acc; simpl.
  - rewrite app_nil_r. reflexivity.
  - rewrite IH, fold_filter_entry, <- app_assoc. reflexivity.
Qed.

Lemma encompass_entries_unfiltered (c : Crawler.t) (dir : string)
      (es : list walk_entry) (acc : list string) :
  Crawler.filters c = None ->
  for_each (Crawler.encompass_entry c dir) es acc
  = match es with
    | [] => Ok acc
    | _ :: _ => Raise AttributeError
    end.
Proof.
  intros Hf. destruct es as [|e es]; simpl; [reflexivity|].
  unfold Crawler.encompass_entry. rewrite Hf. reflexivity.
Qed.

(** Without a [PathFilters] object [Crawler] either raises or has found
    nothing to visit. *)
Lemma Crawler_init_unfiltered_ok (fs : filesystem) (c : Crawler.t)
      (l : list string) :
  Crawler.filters c = None ->
  Crawler.init fs c = Ok l ->
  l = [].
Proof.
  intros Hf. unfold Crawler.init, Crawler.encompass. rewrite Hf.
  assert (Hacc : forall dirs acc,
             for_each
               (fun acc dir =>
                  for_each (Crawler.encompass_entry c dir)
                           (os_walk fs dir (Crawler.topdown c)) acc)
               dirs acc = Ok l -> l = acc).
  { induction dirs as [|dir dirs IH]; intros acc; simpl.
    - congruence.
    - rewrite encompass_entries_unfiltered by assumption.
      destruct (os_walk fs dir (Crawler.topdown c)); simpl.
      + apply IH.
      + discriminate. }
  apply Hacc.
Qed.

Lemma in_entry_output (c : Crawler.t) (pf : PathFilters) (dir : string)
      (e : walk_entry) (x : string) :
  In x (entry_output c pf dir e) ->
  exists p, validate pf p = true /\ x = emitted_path c dir p.
Proof.
  unfold entry_output, root_output. cbv zeta.
  destruct (validate pf (Crawler.relative dir (dirpath e))) eqn:Hroot;
    [|intros []].
  destruct (non_empty_folders pf
            && level_is (get_level pf (Crawler.relative dir (dirpath e)))
                        (max_level pf)).
  - intros [<-|[]]. eexists. split; [exact Hroot|reflexivity].
  - rewrite in_map_iff. intros (p & <- & Hp).
    apply filter_In in Hp. exists p. tauto.
Qed.

Lemma Walk_walk_final_component (fs : filesystem) (cwd : string)
      (self : Walk.DirPaths) (y : Walk.item) :
  (forall d, fs (Walk.directory self) = Some d -> wf_dir d = true) ->
  In y (Walk.walk fs cwd self) ->
  exists f, Py.startswith "." f = false /\ Walk.basename_Path y = f.
Proof.
  intros Hwf Hy. unfold Walk.walk, Walk.walk_from in Hy.
  apply in_get_filepaths in Hy. destruct Hy as (x & Hx & _ & ->).
  apply in_walked_files in Hx.
  destruct Hx as [[]|(e & f & He & Hf & Hdot & ->)].
  assert (Hvalid : valid_name f = true).
  { unfold os_walk in He.
    destruct (fs (Walk.directory self)) as [d|] eqn:Hfs; [|destruct He].
    pose proof (walk_dir_valid_filenames _ _ _ _ (Hwf d eq_refl) He) as Hall.
    rewrite forallb_forall in Hall. apply Hall. assumption. }
  pose proof (not_hidden_path_part f Hvalid Hdot) as Hpart.
  destruct (join_name (dirpath e) f Hvalid) as (z & Hz & Hjoin).
  exists f. split; [assumption|].
  destruct (Path_str_name z f Hz Hpart) as (z1 & Hz1 & Hstr).
  destruct (Walk.full_paths self); unfold Walk.basename_Path, Walk.Path_of.
  - rewrite Hjoin, Hstr.
    destruct (Path_absolute_name cwd z1 f Hz1 Hpart) as (z2 & Hz2 & ->).
    apply basename_app_name; [assumption|].
    apply valid_name_no_sep. assumption.
  - rewrite Hjoin, Hstr.
    apply basename_app_name; [assumption|].
    apply valid_name_no_sep. assumption.
Qed.

(** ** Non-empty-folders mode *)

Lemma in_entry_output_iff (c : Crawler.t) (pf : PathFilters) (dir : string)
      (e : walk_entry) (x : string) :
  In x (entry_output c pf dir e)
  <-> let root := Crawler.relative dir (dirpath e) in
      validate pf root = true
      /\ ((non_empty_folders pf
           && level_is (get_level pf root) (max_level pf) = true
           /\ x = emitted_path c dir root)
          \/ (non_empty_folders pf
              && level_is (get_level pf root) (max_level pf) = false
              /\ exists f, In f (filenames e)
                           /\ validate pf (Py.join root f) = true
                           /\ x = emitted_path c dir (Py.join root f))).
Proof.
  unfold entry_output, root_output. cbv zeta.
  destruct (validate pf (Crawler.relative dir (dirpath e))) eqn:Hroot.
  - destruct (non_empty_folders pf
              && level_is (get_level pf (Crawler.relative dir (dirpath e)))
                          (max_level pf)).
    + simpl. split.
      * intros [<-|[]]. auto.
      * intros [_ [[_ ->]|[H _]]]; [auto|discriminate].
    + rewrite in_map_iff. split.
      * intros (p & <- & Hp). apply filter_In in Hp.
        destruct Hp as [Hp Hvalid]. apply in_map_iff in Hp.
        destruct Hp as (f & <- & Hf). split; [reflexivity|].
        right. split; [reflexivity|]. exists f. auto.
      * intros [_ [[H _]|[_ (f & Hf & Hvalid & ->)]]]; [discriminate|].
        exists (Py.join (Crawler.relative dir (dirpath e)) f).
        split; [reflexivity|]. apply filter_In. split; [|assumption].
        apply in_map. assumption.
  - simpl. split; [intros []|intros [H _]; discriminate].
Qed.

(** C5 (as amended).  In non-empty-folders mode a visited directory is
    emitted exactly when [validate] accepts it and its level equals the
    maximum level, whether it holds files or not; an accepted directory at
    another level contributes its validated files instead.  With a maximum
    level of 2 on a tree holding [a/b/file.txt] and an empty [a/c] the
    output is [a/b] and [a/c]; [a] is not emitted. *)
Theorem folders_at_max_level_are_emitted :
  forall (fs : filesystem) (c : Crawler.t) (pf : PathFilters) (x : string),
    non_empty_folders pf = true ->
    (In x (Crawler.filter fs c pf [])
     <-> exists dir e,
        In dir (Crawler.directory c)
        /\ In e (os_walk fs dir (Crawler.topdown c))
        /\ validate pf (Crawler.relative dir (dirpath e)) = true
        /\ ((level_is (get_level pf (Crawler.relative dir (dirpath e)))
                      (max_level pf) = true
             /\ x = emitted_path c dir (Crawler.relative dir (dirpath e)))
            \/ (level_is (get_level pf (Crawler.relative dir (dirpath e)))
                         (max_level pf) = false
                /\ exists f,
                   In f (filenames e)
                   /\ validate pf
                        (Py.join (Crawler.relative dir (dirpath e)) f) = true
                   /\ x = emitted_path c dir
                            (Py.join (Crawler.relative dir (dirpath e)) f))))
    /\ Crawler.init Sample.fs_nested Sample.folders_request
       = Ok ["a/b"; "a/c"].
Proof.
  intros fs c pf x Hmode. split; [|reflexivity].
  rewrite filter_is_output. simpl. unfold filter_output.
  rewrite in_flat_map. split.
  - intros (dir & Hdir & Hx). apply in_flat_map in Hx.
    destruct Hx as (e & He & Hx). apply in_entry_output_iff in Hx.
    cbv zeta in Hx. rewrite Hmode in Hx. simpl in Hx.
    exists dir, e. tauto.
  - intros (dir & e & Hdir & He & Hx). exists dir. split; [assumption|].
    apply in_flat_map. exists e. split; [assumption|].
    apply in_entry_output_iff. cbv zeta. rewrite Hmode. simpl. tauto.
Qed.

Lemma folders_at_max_level_are_emitted_witness :
  (In "a/c" (Crawler.filter Sample.fs_nested Sample.folders_request
               (FilterSet.as_PathFilters Sample.level_two_folders) [])
   <-> exists dir e,
      In dir (Crawler.directory Sample.folders_request)
      /\ In e (os_walk Sample.fs_nested dir
                       (Crawler.topdown Sample.folders_request))
      /\ validate (FilterSet.as_PathFilters Sample.level_two_folders)
                  (Crawler.relative dir (dirpath e)) = true
      /\ ((level_is
             (get_level (FilterSet.as_PathFilters Sample.level_two_folders)
                        (Crawler.relative dir (dirpath e)))
             (max_level (FilterSet.as_PathFilters Sample.level_two_folders))
           = true
           /\ "a/c" = emitted_path Sample.folders_request dir
                        (Crawler.relative dir (dirpath e)))
          \/ (level_is
                (get_level
                   (FilterSet.as_PathFilters Sample.level_two_folders)
                   (Crawler.relative dir (dirpath e)))
                (max_level
                   (FilterSet.as_PathFilters Sample.level_two_folders))
              = false
              /\ exists f,
                 In f (filenames e)
                 /\ validate
                      (FilterSet.as_PathFilters Sample.level_two_folders)
                      (Py.join (Crawler.relative dir (dirpath e)) f) = true
                 /\ "a/c" = emitted_path Sample.folders_request dir
                              (Py.join (Crawler.relative dir (dirpath e))
                                       f))))
  /\ Crawler.init Sample.fs_nested Sample.folders_request
     = Ok ["a/b"; "a/c"].
Proof.
  apply (folders_at_max_level_are_emitted Sample.fs_nested
           Sample.folders_request
           (FilterSet.as_PathFilters Sample.level_two_folders) "a/c").
  reflexivity.
Defined.

(** C5 as stated fails: the empty directory [a/c] is emitted next to
    [a/b]. *)
Lemma empty_folder_is_emitted :
  exists l,
    Crawler.init Sample.fs_nested Sample.folders_request = Ok l
    /\ In "a/c" l
    /\ l <> ["a/b"].
Proof.
  exists ["a/b"; "a/c"]. split; [reflexivity|]. split.
  - right. left. reflexivity.
  - discriminate.
Qed.

(** ** Dicts and the heap *)

Lemma store_fresh (k : string) (v : pyval) (d : pydict) :
  ~ In k (map fst d) -> Dict.store k v d = d ++ [(k, v)].
Proof.
  induction d as [|[k' v'] d IH]; simpl; intros Hk; [reflexivity|].
  destruct (String.eqb_spec k k') as [->|Hne].
  - exfalso. apply Hk. left. reflexivity.
  - rewrite IH; [reflexivity|]. intros Hin. apply Hk. right. assumption.
Qed.

Lemma distinct_cons (x : string) (l : list string) :
  distinct (x :: l) = true <-> ~ In x l /\ distinct l = true.
Proof.
  simpl. rewrite andb_true_iff, negb_true_iff. split.
  - intros [Hx Hl]. split; [|assumption]. intros Hin.
    assert (Hex : existsb (String.eqb x) l = true).
    { apply existsb_exists. exists x. split; [assumption|].
      apply String.eqb_refl. }
    congruence.
  - intros [Hx Hl]. split; [|assumption].
    destruct (existsb (String.eqb x) l) eqn:Hex; [|reflexivity].
    apply existsb_exists in Hex. destruct Hex as (y & Hy & Heq).
    apply String.eqb_eq in Heq. subst y. contradiction.
Qed.

Lemma distinct_app (l1 l2 : list string) :
  distinct (l1 ++ l2) = true
  <-> distinct l1 = true /\ distinct l2 = true
      /\ (forall x, In x l1 -> ~ In x l2).
Proof.
  induction l1 as [|x l1 IH].
  - simpl. split; [intros H; repeat split; auto|tauto].
  - rewrite <- app_comm_cons, !distinct_cons, IH, in_app_iff. split.
    + intros (Hx & H1 & H2 & Hdis). repeat split; try tauto.
      intros y [<-|Hy]; [tauto|apply Hdis; assumption].
    + intros ((Hx & H1) & H2 & Hdis). repeat split; try tauto.
      * intros [H|H]; [tauto|]. apply (Hdis x); [left; reflexivity|exact H].
      * intros y Hy. apply Hdis. right. assumption.
Qed.

Lemma fromkeys_from (keys : list string) :
  forall acc,
    distinct keys = true ->
    (forall k, In k keys -> ~ In k (map fst acc)) ->
    fold_left (fun d k => Dict.store k PNone d) keys acc
    = acc ++ map (fun k => (k, PNone)) keys.
Proof.
  induction keys as [|k keys IH]; intros acc Hd Hfresh; simpl.
  - rewrite app_nil_r. reflexivity.
  - apply distinct_cons in Hd. destruct Hd as [Hk Hd].
    rewrite store_fresh by (apply Hfresh; left; reflexivity).
    rewrite IH; [rewrite <- app_assoc; reflexivity|assumption|].
    intros k' Hk'. rewrite map_app, in_app_iff. simpl.
    intros [Hin|[<-|[]]].
    + apply (Hfresh k'); [right; assumption|assumption].
    + contradiction.
Qed.

Lemma fromkeys_distinct (keys : list string) :
  distinct keys = true ->
  Dict.fromkeys keys = map (fun k => (k, PNone)) keys.
Proof.
  intros Hd. unfold Dict.fromkeys. rewrite fromkeys_from; auto.
Qed.

Lemma lookup_app_found (k : string) (d more : pydict) :
  Dict.lookup k d <> PNone -> Dict.lookup k (d ++ more) = Dict.lookup k d.
Proof.
  induction d as [|[k' v'] d IH]; simpl; [congruence|].
  destruct (String.eqb k k'); auto.
Qed.

Lemma lookup_snoc_fresh (k : string) (v : pyval) (d : pydict) :
  ~ In k (map fst d) -> Dict.lookup k (d ++ [(k, v)]) = v.
Proof.
  induction d as [|[k' v'] d IH]; simpl; intros Hk.
  - rewrite String.eqb_refl. reflexivity.
  - destruct (String.eqb_spec k k') as [->|Hne].
    + exfalso. apply Hk. left. reflexivity.
    + apply IH. intros Hin. apply Hk. right. assumption.
Qed.

Lemma nth_error_write_same (a : nat) (o : pydict) (h : heap) :
  a < List.length h -> nth_error (Dict.write a o h) a = Some o.
Proof.
  revert a; induction h as [|x h IH]; intros a Ha; simpl in *; [lia|].
  destruct a; simpl; [reflexivity|]. apply IH. lia.
Qed.

Lemma nth_error_write_other (a b : nat) (o : pydict) (h : heap) :
  a <> b -> nth_error (Dict.write a o h) b = nth_error h b.
Proof.
  revert a b; induction h as [|x h IH]; intros a b Hab.
  - destruct a; reflexivity.
  - destruct a, b; simpl; try reflexivity; [congruence|].
    apply IH. congruence.
Qed.

Lemma length_write (a : nat) (o : pydict) (h : heap) :
  List.length (Dict.write a o h) = List.length h.
Proof.
  revert a; induction h as [|x h IH]; intros a; destruct a; simpl; auto.
Qed.

(** ** Heaps that grow *)

Lemma extends_refl (h : heap) : extends h h.
Proof. intros a items H. exists []. rewrite app_nil_r. assumption. Qed.

Lemma extends_trans (h1 h2 h3 : heap) :
  extends h1 h2 -> extends h2 h3 -> extends h1 h3.
Proof.
  intros H12 H23 a items H.
  destruct (H12 a items H) as [m1 H1].
  destruct (H23 a _ H1) as [m2 H2].
  exists (m1 ++ m2). rewrite app_assoc. assumption.
Qed.

Lemma extends_alloc (h : heap) (o : pydict) : extends h (h ++ [o]).
Proof.
  intros a items H. exists []. rewrite app_nil_r.
  rewrite nth_error_app1; [assumption|].
  apply nth_error_Some. rewrite H. discriminate.
Qed.

Lemma extends_write (h : heap) (a : nat) (items more : pydict) :
  nth_error h a = Some items ->
  extends h (Dict.write a (items ++ more) h).
Proof.
  intros Ha b items' Hb. destruct (Nat.eq_dec a b) as [<-|Hne].
  - exists more. rewrite nth_error_write_same.
    + rewrite Ha in Hb. injection Hb as ->. reflexivity.
    + apply nth_error_Some. rewrite Ha. discriminate.
  - exists []. rewrite app_nil_r, nth_error_write_other; assumption.
Qed.

(** A chain of [dict.get] that ends in a dict ends in the same dict once
    the heap has grown. *)
Lemma reduce_get_extends (h h' : heap) (keys : list string) :
  extends h h' ->
  forall (init : pyval) (x : nat),
    DirTree.reduce_get h keys init = Ok (PRef x) ->
    DirTree.reduce_get h' keys init = Ok (PRef x).
Proof.
  intros Hext. unfold DirTree.reduce_get.
  induction keys as [|k keys IH]; intros init x; simpl; [auto|].
  destruct init as [|a]; simpl; [discriminate|].
  destruct (nth_error h a) as [items|] eqn:Ha; simpl; [|discriminate].
  destruct (Hext a items Ha) as [more ->]. simpl. intros Hrest.
  assert (Hfound : Dict.lookup k items <> PNone).
  { intros Hnone. rewrite Hnone in Hrest.
    destruct keys; simpl in Hrest; discriminate. }
  rewrite lookup_app_found by assumption. apply IH. assumption.
Qed.

Lemma reduce_get_snoc (h : heap) (keys : list string) (k : string)
      (init : pyval) :
  DirTree.reduce_get h (keys ++ [k]) init
  = (v <- DirTree.reduce_get h keys init ;; Dict.get h v k).
Proof.
  unfold DirTree.reduce_get. rewrite for_each_app.
  destruct (for_each (Dict.get h) keys init) as [v|e]; simpl; [|reflexivity].
  destruct (Dict.get h v k); reflexivity.
Qed.

(** ** Trees in the heap *)

Lemma tree_induction (P : DirTree.tree -> Prop) :
  P DirTree.Leaf ->
  (forall l, Forall (fun kt => P (snd kt)) l -> P (DirTree.Node l)) ->
  forall t, P t.
Proof.
  intros HLeaf HNode. fix IH 1. intros [|l]; [exact HLeaf|].
  apply HNode. induction l as [|[k t] l IHl]; constructor;
    [apply IH|exact IHl].
Qed.

Lemma represents_node (h : heap) (lo hi : nat) (v : pyval)
      (l : list (string * DirTree.tree)) :
  represents h lo hi v (DirTree.Node l)
  <-> exists (a : nat) (items : pydict),
      v = PRef a
      /\ lo <= a < hi
      /\ nth_error h a = Some items
      /\ represents_items h lo hi items l.
Proof.
  cbn [represents].
  assert (Hitems :
            forall items,
              (fix represents_items (items : pydict)
                   (l : list (string * DirTree.tree)) {struct l} : Prop :=
                 match items, l with
                 | [], [] => True
                 | (k, v') :: items', (k', t') :: l' =>
                     k = k' /\ represents h lo hi v' t'
                     /\ represents_items items' l'
                 | _, _ => False
                 end) items l
              <-> represents_items h lo hi items l).
  { induction l as [|[k t] l IHl]; intros [|[k' v'] items]; simpl;
      try tauto.
    rewrite IHl. tauto. }
  split; intros (a & items & H1 & H2 & H3 & H4); exists a, items;
    repeat split; try tauto; apply Hitems; assumption.
Qed.

(** A tree stays represented when the heap changes outside its addresses;
    the bounds may be widened. *)
Lemma represents_transport (h h' : heap) (lo hi lo' hi' : nat) :
  lo' <= lo -> hi <= hi' ->
  (forall a, lo <= a < hi -> nth_error h' a = nth_error h a) ->
  forall (t : DirTree.tree) (v : pyval),
    represents h lo hi v t -> represents h' lo' hi' v t.
Proof.
  intros Hlo Hhi Hsame.
  induction t as [|l IH] using tree_induction; intros v; [auto|].
  rewrite !represents_node.
  intros (a & items & -> & Ha & Hitems & Hrep).
  exists a, items. split; [reflexivity|]. split; [lia|].
  split; [rewrite Hsame; assumption|].
  clear Hitems. revert items Hrep.
  induction l as [|[k t] l IHl]; intros [|[k' v'] items]; simpl; try tauto.
  inversion IH as [|? ? Ht Hl]; subst. simpl in Ht.
  intros (Hk & Hv & Hrest). repeat split; auto.
Qed.

Lemma represents_items_transport (h h' : heap) (lo hi lo' hi' : nat) :
  lo' <= lo -> hi <= hi' ->
  (forall a, lo <= a < hi -> nth_error h' a = nth_error h a) ->
  forall (l : list (string * DirTree.tree)) (items : pydict),
    represents_items h lo hi items l -> represents_items h' lo' hi' items l.
Proof.
  intros Hlo Hhi Hsame.
  induction l as [|[k t] l IHl]; intros [|[k' v'] items]; simpl; try tauto.
  intros (Hk & Hv & Hrest). repeat split; auto.
  eapply represents_transport; eassumption.
Qed.

Lemma represents_items_app (h : heap) (lo hi : nat)
      (l1 l2 : list (string * DirTree.tree)) :
  forall (i1 i2 : pydict),
    represents_items h lo hi i1 l1 ->
    represents_items h lo hi i2 l2 ->
    represents_items h lo hi (i1 ++ i2) (l1 ++ l2).
Proof.
  induction l1 as [|[k t] l1 IH]; intros [|[k' v'] i1] i2; simpl; try tauto.
  intros (Hk & Hv & Hrest) H2. repeat split; auto.
Qed.

Lemma represents_items_leaves (h : heap) (lo hi : nat) (names : list string) :
  represents_items h lo hi (map (fun k => (k, PNone)) names)
                   (map (fun f => (f, DirTree.Leaf)) names).
Proof.
  induction names as [|f names IH]; simpl; auto.
Qed.

Lemma read_node (fuel : nat) (h : heap) (a : nat) (items : pydict) :
  nth_error h a = Some items ->
  DirTree.read (S fuel) h (PRef a)
  = option_map DirTree.Node
      ((fix read_items (l : pydict) : option (list (string * DirTree.tree)) :=
          match l with
          | [] => Some []
          | (k, v') :: l' =>
              match DirTree.read fuel h v', read_items l' with
              | Some t', Some r => Some ((k, t') :: r)
              | _, _ => None
              end
          end) items).
Proof. intros Ha. cbn [DirTree.read]. rewrite Ha. reflexivity. Qed.

(** A represented tree is read back with fuel for its height. *)
Lemma represents_read (h : heap) (lo hi : nat) :
  forall (t : DirTree.tree) (v : pyval) (fuel : nat),
    represents h lo hi v t ->
    height t <= fuel ->
    DirTree.read fuel h v = Some t.
Proof.
  induction t as [|l IH] using tree_induction; intros v fuel.
  - simpl. intros -> _. destruct fuel; reflexivity.
  - rewrite represents_node.
    intros (a & items & -> & _ & Hitems & Hrep) Hfuel.
    destruct fuel as [|fuel]; [simpl in Hfuel; lia|].
    rewrite (read_node fuel h a items Hitems).
    cbn [height] in Hfuel. apply le_S_n in Hfuel.
    clear Hitems. revert items Hrep Hfuel.
    induction l as [|[k t] l IHl]; intros [|[k' v'] items]; simpl;
      try tauto.
    inversion IH as [|? ? Ht Hl]; subst. simpl in Ht.
    intros (<- & Hv & Hrest) Hfuel.
    rewrite (Ht v' fuel Hv) by lia.
    specialize (IHl Hl items Hrest).
    assert (Hle : (fix heights (l0 : list (string * DirTree.tree)) : nat :=
                     match l0 with
                     | [] => 0
                     | (_, t') :: l' => Nat.max (height t') (heights l')
                     end) l <= fuel) by lia.
    specialize (IHl Hle).
    destruct ((fix read_items (l0 : pydict)
                 : option (list (string * DirTree.tree)) :=
                 match l0 with
                 | [] => Some []
                 | (k0, v'0) :: l' =>
                     match DirTree.read fuel h v'0, read_items l' with
                     | Some t', Some r => Some ((k0, t') :: r)
                     | _, _ => None
                     end
                 end) items) as [r|]; simpl in IHl; [|discriminate].
    injection IHl as ->. reflexivity.
Qed.

(** ** The folders of a walked path *)

Lemma endswith_sep_name (n : string) :
  valid_name n = true -> forall z, Py.endswith_sep (z ++ n) = false.
Proof.
  intros Hn. assert (Hne : n <> ""%string).
  { intros ->. discriminate Hn. }
  apply valid_name_no_sep in Hn.
  assert (Hbase : Py.endswith_sep n = false).
  { clear Hne. induction n as [|c n IH]; [reflexivity|].
    change (Py.no_sep (String c n))
      with (negb (Py.is_sep c) && Py.no_sep n) in Hn.
    apply andb_prop in Hn. destruct Hn as [Hc Hn].
    apply negb_true_iff in Hc.
    destruct n as [|c' n']; [exact Hc|].
    change (Py.endswith_sep (String c (String c' n')))
      with (Py.endswith_sep (String c' n')).
    apply IH. assumption. }
  induction z as [|c z IH]; [exact Hbase|].
  simpl. destruct (z ++ n)%string eqn:E; [|exact IH].
  destruct z; simpl in E; [congruence|discriminate].
Qed.

Lemma slice_from_app_le (start : nat) (a b : string) :
  start <= String.length a ->
  Py.slice_from start (a ++ b) = (Py.slice_from start a ++ b)%string.
Proof.
  revert a; induction start as [|start IH]; intros a Hle.
  - destruct a; destruct b; reflexivity.
  - destruct a as [|c a]; simpl in *; [lia|]. apply IH. lia.
Qed.

Lemma join_onto_dir (p n : string) :
  p <> ""%string -> Py.endswith_sep p = false -> valid_name n = true ->
  Py.join p n = (p ++ String Py.sep n)%string.
Proof.
  intros Hp Hend Hn. unfold Py.join.
  rewrite (valid_name_not_absolute n Hn), Hend.
  destruct p; [congruence|reflexivity].
Qed.

(** One level down: the folders of the path of a sub-directory are those of
    the directory and the name of the sub-directory. *)
Lemma cut_into_join (start : nat) (p n : string) (folders : list string) :
  cut_into start p folders ->
  valid_name n = true ->
  cut_into start (Py.join p n) (folders ++ [n]).
Proof.
  intros (Hstart & Hp & Hend & Hsplit) Hn.
  rewrite join_onto_dir by assumption.
  repeat split.
  - rewrite str_length_app. lia.
  - destruct p; [congruence|discriminate].
  - change (String Py.sep n) with (String Py.sep "" ++ n)%string.
    rewrite <- str_app_assoc. apply endswith_sep_name. assumption.
  - rewrite slice_from_app_le by assumption.
    rewrite split_sep_app_sep, Hsplit.
    rewrite split_sep_no_sep by (apply valid_name_no_sep; assumption).
    reflexivity.
Qed.

Lemma rfind_sep_none (s : string) :
  Py.rfind_sep s = None -> Py.no_sep s = true.
Proof.
  induction s as [|c s IH]; simpl; [reflexivity|].
  destruct (Py.rfind_sep s); [discriminate|].
  destruct (Py.is_sep c); [discriminate|]. auto.
Qed.

(** A path is what stands before its last separator, then its final
    component. *)
Lemma basename_decompose (s : string) :
  exists z,
    before_name z
    /\ s = (z ++ Py.basename s)%string
    /\ Py.rfind_sep_plus1 s = String.length z
    /\ Py.no_sep (Py.basename s) = true.
Proof.
  unfold Py.basename, Py.rfind_sep_plus1.
  induction s as [|c s IH].
  - exists ""%string. repeat split. left. reflexivity.
  - cbn [Py.rfind_sep]. destruct (Py.rfind_sep s) as [i|] eqn:Hr.
    + destruct IH as (z & Hz & Hs & Hlen & Hno).
      exists (String c z).
      change (Py.slice_from (S (S i)) (String c s))
        with (Py.slice_from (S i) s).
      repeat split.
      * right. destruct Hz as [->|Hz]; [discriminate Hlen|].
        destruct z as [|c' z']; [discriminate Hz|exact Hz].
      * cbn [append]. f_equal. exact Hs.
      * cbn [String.length]. f_equal. exact Hlen.
      * exact Hno.
    + destruct (Py.is_sep c) eqn:Hc.
      * exists (String c "").
        change (Py.slice_from 1 (String c s)) with (Py.slice_from 0 s).
        replace (Py.slice_from 0 s) with s by (destruct s; reflexivity).
        repeat split; [right; exact Hc|].
        apply rfind_sep_none. assumption.
      * exists ""%string.
        change (Py.slice_from 0 (String c s)) with (String c s).
        repeat split; [left; reflexivity|]. simpl. rewrite Hc. simpl.
        apply rfind_sep_none. assumption.
Qed.

(** The path of the root is cut into the one folder of its name. *)
Lemma cut_into_root (s : string) :
  Py.basename s <> ""%string ->
  cut_into (Py.rfind_sep_plus1 s) s [Py.basename s].
Proof.
  intros Hname. destruct (basename_decompose s) as (z & _ & Hs & Hlen & Hno).
  assert (Hvalid : valid_name (Py.basename s) = true).
  { unfold valid_name. rewrite Hno, andb_true_r.
    apply negb_true_iff. apply String.eqb_neq. assumption. }
  repeat split.
  - rewrite Hlen, Hs at 1. rewrite str_length_app. lia.
  - intros ->. apply Hname. reflexivity.
  - rewrite Hs. apply endswith_sep_name. assumption.
  - fold (Py.basename s). apply split_sep_no_sep. assumption.
Qed.

(** ** [DirTree.get] without branches *)

Lemma tree_of_unfold (ds : list (string * dir)) (fs : list string) :
  DirTree.tree_of (Dir ds fs)
  = DirTree.Node (map (fun f => (f, DirTree.Leaf)) fs ++ tree_children ds).
Proof.
  reflexivity.
Qed.

Lemma grown_extends (h h' : heap) (pa : nat) (items : pydict) (n : string)
      (t : DirTree.tree) :
  nth_error h pa = Some items ->
  grown h h' pa items n t ->
  extends h h'.
Proof.
  intros Hpa (_ & Hpa' & Hsame & _) a items' Ha.
  destruct (Nat.eq_dec a pa) as [->|Hne].
  - rewrite Hpa in Ha. injection Ha as <-. eexists. exact Hpa'.
  - exists []. rewrite app_nil_r, Hsame; [assumption| |assumption].
    apply nth_error_Some. rewrite Ha. discriminate.
Qed.

Section Unfiltered.

Variable self : DirTree.t.
Hypothesis tree_dict_first : DirTree.tree_dict self = PRef 0.
Hypothesis no_branches :
  DirTree.branches_truthy (DirTree.branches self) = false.

(** The insertion finds the parent and succeeds. *)
Lemma insert_under_parent (h : heap) (fp : list string) (n : string)
      (names : list string) (pa : nat) (items : pydict) :
  DirTree.reduce_get h fp (PRef 0) = Ok (PRef pa) ->
  nth_error h pa = Some items ->
  ~ In n (map fst items) ->
  DirTree.insert self h (fp ++ [n]) names
  = Ok (Dict.write pa (items ++ [(n, PRef (List.length h))])
                   (h ++ [Dict.fromkeys names])).
Proof.
  intros Hget Hpa Hfresh. unfold DirTree.insert.
  rewrite removelast_last, last_last, tree_dict_first.
  rewrite (reduce_get_extends h (h ++ [Dict.fromkeys names]) fp
             (extends_alloc h _) (PRef 0) pa Hget).
  simpl. rewrite nth_error_app1
    by (apply nth_error_Some; rewrite Hpa; discriminate).
  rewrite Hpa, store_fresh by assumption. reflexivity.
Qed.

Lemma get_entry_under_parent (h : heap) (e : walk_entry) (fp : list string)
      (n : string) (pa : nat) (items : pydict) :
  Py.split_sep (Py.slice_from (DirTree.start self) (dirpath e)) = fp ++ [n] ->
  DirTree.reduce_get h fp (PRef 0) = Ok (PRef pa) ->
  nth_error h pa = Some items ->
  ~ In n (map fst items) ->
  DirTree.get_entry self h e
  = Ok (Dict.write pa (items ++ [(n, PRef (List.length h))])
                   (h ++ [Dict.fromkeys (filenames e)])).
Proof.
  intros Hsplit Hget Hpa Hfresh. unfold DirTree.get_entry.
  rewrite no_branches, Hsplit. apply insert_under_parent; assumption.
Qed.

Lemma puts_children (ds : list (string * dir)) :
  Forall (fun nd => puts_subtree self (snd nd)) ds ->
  forall (p : string) (fl : list string) (h : heap) (a : nat)
         (items : pydict),
    (forall n, valid_name n = true ->
               cut_into (DirTree.start self) (Py.join p n) (fl ++ [n])) ->
    DirTree.reduce_get h fl (PRef 0) = Ok (PRef a) ->
    nth_error h a = Some items ->
    forallb valid_name (map fst ds) = true ->
    distinct (map fst ds) = true ->
    (forall x, In x (map fst ds) -> ~ In x (map fst items)) ->
    Forall (fun nd => wf_dir (snd nd) = true) ds ->
    exists h' new,
      for_each (DirTree.get_entry self)
               (flat_map
                  (fun nd => walk_dir true (Py.join p (fst nd)) (snd nd)) ds)
               h = Ok h'
      /\ List.length h <= List.length h'
      /\ nth_error h' a = Some (items ++ new)
      /\ (forall x, x < List.length h -> x <> a ->
                    nth_error h' x = nth_error h x)
      /\ represents_items h' (List.length h) (List.length h') new
                          (tree_children ds).
Proof.
  induction ds as [|[n1 c1] ds IHds];
    intros Hall p fl h a items Hcut Hget Ha Hvalid Hdist Hfresh Hwf.
  - exists h, []. simpl. rewrite app_nil_r. repeat split; auto.
  - inversion Hall as [|? ? Hc1 Hrest]; subst. simpl in Hc1.
    inversion Hwf as [|? ? Hwf1 Hwfs]; subst. simpl in Hwf1.
    simpl in Hvalid. apply andb_prop in Hvalid.
    destruct Hvalid as [Hn1 Hvalid].
    change (map fst ((n1, c1) :: ds)) with (n1 :: map fst ds) in Hdist.
    apply distinct_cons in Hdist. destruct Hdist as [Hn1ds Hdist].
    assert (Ha_lt : a < List.length h)
      by (apply nth_error_Some; rewrite Ha; discriminate).
    destruct (Hc1 (Py.join p n1) fl n1 h a items Hwf1
                  (Hcut n1 Hn1) Hget Ha
                  (Hfresh n1 (or_introl eq_refl)))
      as (h1 & Hrun1 & Hgrown1).
    pose proof (grown_extends h h1 a items n1 _ Ha Hgrown1) as Hext1.
    destruct Hgrown1 as (Hlen1 & Ha1 & Hsame1 & Hrep1).
    destruct (IHds Hrest p fl h1 a (items ++ [(n1, PRef (List.length h))])
                   Hcut (reduce_get_extends h h1 fl Hext1 _ _ Hget) Ha1
                   Hvalid Hdist)
      as (h' & new & Hrun & Hlen & Ha' & Hsame & Hrep); [|assumption|].
    { intros x Hx. rewrite map_app, in_app_iff. simpl.
      intros [Hin|[<-|[]]].
      - apply (Hfresh x); [right; assumption|assumption].
      - contradiction. }
    exists h', ((n1, PRef (List.length h)) :: new).
    simpl. rewrite for_each_app, Hrun1. simpl. rewrite Hrun.
    repeat split.
    + lia.
    + rewrite Ha', <- app_assoc. reflexivity.
    + intros x Hx Hxa. rewrite Hsame by lia. apply Hsame1; assumption.
    + eapply represents_transport; [| | |exact Hrep1]; try lia.
      intros x Hx. apply Hsame; lia.
    + eapply represents_items_transport; [| | |exact Hrep]; try lia.
      reflexivity.
Qed.

(** Walking a well-formed directory top-down puts its whole mapping under
    its parent: every parent lookup finds the dict inserted earlier. *)
Lemma puts_every_subtree (d : dir) : puts_subtree self d.
Proof.
  induction d as [ds fs IH] using dir_induction.
  intros p fp n h pa items Hwf Hcut Hget Hpa Hfresh.
  apply wf_dir_unfold in Hwf.
  destruct Hwf as (Hfs & Hds & Hdist & Hsub).
  apply distinct_app in Hdist. destruct Hdist as (Hdfs & Hdds & Hdisj).
  assert (Hpa_lt : pa < List.length h)
    by (apply nth_error_Some; rewrite Hpa; discriminate).
  rewrite walk_dir_unfold. cbv zeta. cbn [for_each].
  rewrite (get_entry_under_parent h (WalkEntry p (map fst ds) fs) fp n pa
             items (proj2 (proj2 (proj2 Hcut))) Hget Hpa Hfresh).
  cbn [bind filenames].
  set (h1 := Dict.write pa (items ++ [(n, PRef (List.length h))])
                        (h ++ [Dict.fromkeys fs])).
  assert (Hlen1 : List.length h1 = S (List.length h)).
  { unfold h1. rewrite length_write, length_app. simpl. lia. }
  assert (Hpa1 : nth_error h1 pa
                 = Some (items ++ [(n, PRef (List.length h))])).
  { unfold h1. apply nth_error_write_same. rewrite length_app. lia. }
  assert (Ha1 : nth_error h1 (List.length h)
                = Some (map (fun k => (k, PNone)) fs)).
  { unfold h1. rewrite nth_error_write_other by lia.
    rewrite nth_error_app2 by lia. rewrite Nat.sub_diag. simpl.
    rewrite fromkeys_distinct by assumption. reflexivity. }
  assert (Hsame1 : forall x, x < List.length h -> x <> pa ->
                             nth_error h1 x = nth_error h x).
  { intros x Hx Hne. unfold h1. rewrite nth_error_write_other by congruence.
    apply nth_error_app1. assumption. }
  assert (Hext1 : extends h h1).
  { intros x items' Hx. destruct (Nat.eq_dec x pa) as [->|Hne].
    - rewrite Hpa in Hx. injection Hx as <-. eexists. exact Hpa1.
    - exists []. rewrite app_nil_r, Hsame1; [assumption| |assumption].
      apply nth_error_Some. rewrite Hx. discriminate. }
  assert (Hget1 : DirTree.reduce_get h1 (fp ++ [n]) (PRef 0)
                  = Ok (PRef (List.length h))).
  { rewrite reduce_get_snoc.
    rewrite (reduce_get_extends h h1 fp Hext1 _ _ Hget). simpl.
    rewrite Hpa1, lookup_snoc_fresh by assumption. reflexivity. }
  destruct (puts_children ds IH p (fp ++ [n]) h1 (List.length h)
                          (map (fun k => (k, PNone)) fs)
                          (fun n0 Hn0 => cut_into_join _ p n0 _ Hcut Hn0)
                          Hget1 Ha1 Hds Hdds)
    as (h' & new & Hrun & Hlen & Ha' & Hsame & Hrep); [|assumption|].
  { intros x Hx. rewrite map_map. simpl. rewrite map_id.
    intros Hin. apply (Hdisj x); assumption. }
  exists h'. split; [exact Hrun|]. repeat split.
  - lia.
  - rewrite Hsame by lia. exact Hpa1.
  - intros x Hx Hne. rewrite Hsame by lia. apply Hsame1; assumption.
  - rewrite tree_of_unfold. apply represents_node.
    exists (List.length h), (map (fun k => (k, PNone)) fs ++ new).
    repeat split; try lia; [assumption|].
    apply represents_items_app.
    + apply represents_items_leaves.
    + eapply represents_items_transport; [| | |exact Hrep]; try lia.
      reflexivity.
Qed.

End Unfiltered.

(** The walk of a root whose path has a final component. *)
Lemma get_named_root (self : DirTree.t) (d : dir) :
  DirTree.tree_dict self = PRef 0 ->
  DirTree.branches_truthy (DirTree.branches self) = false ->
  DirTree.start self = Py.rfind_sep_plus1 (DirTree.directory self) ->
  Py.basename (DirTree.directory self) <> ""%string ->
  wf_dir d = true ->
  exists h,
    for_each (DirTree.get_entry self)
             (walk_dir true (DirTree.directory self) d) [[]] = Ok h
    /\ represents h 0 (List.length h) (PRef 0)
         (DirTree.Node [(Py.basename (DirTree.directory self),
                         DirTree.tree_of d)]).
Proof.
  intros Htree Hbr Hstart Hname Hwf.
  destruct (puts_every_subtree self Htree Hbr d (DirTree.directory self) []
              (Py.basename (DirTree.directory self)) [[]] 0 [] Hwf)
    as (h & Hrun & Hlen & H0 & _ & Hrep).
  - rewrite Hstart. apply cut_into_root. assumption.
  - reflexivity.
  - reflexivity.
  - intros [].
  - exists h. split; [exact Hrun|]. apply represents_node.
    simpl in *. exists 0, [(Py.basename (DirTree.directory self), PRef 1)].
    repeat split; try lia; [assumption|].
    eapply represents_transport; [| | |exact Hrep]; try lia. reflexivity.
Qed.

(** The walk of a root whose path has no final component. *)
Lemma get_unnamed_root (self : DirTree.t) (ds : list (string * dir))
      (fs : list string) :
  DirTree.tree_dict self = PRef 0 ->
  DirTree.branches_truthy (DirTree.branches self) = false ->
  DirTree.start self = Py.rfind_sep_plus1 (DirTree.directory self) ->
  Py.basename (DirTree.directory self) = ""%string ->
  wf_dir (Dir ds fs) = true ->
  exists h,
    for_each (DirTree.get_entry self)
             (walk_dir true (DirTree.directory self) (Dir ds fs)) [[]] = Ok h
    /\ represents h 0 (List.length h) (PRef 0)
         (DirTree.Node
            (("", DirTree.Node (map (fun f => (f, DirTree.Leaf)) fs))
             :: tree_children ds)).
Proof.
  intros Htree Hbr Hstart Hname Hwf.
  apply wf_dir_unfold in Hwf.
  destruct Hwf as (Hfs & Hds & Hdist & Hsub).
  apply distinct_app in Hdist. destruct Hdist as (Hdfs & Hdds & _).
  destruct (basename_decompose (DirTree.directory self))
    as (z & Hz & Htop & Hlen & _).
  rewrite Hname, str_app_nil_r in Htop.
  rewrite walk_dir_unfold. cbv zeta. cbn [for_each].
  rewrite (get_entry_under_parent self Htree Hbr [[]]
             (WalkEntry (DirTree.directory self) (map fst ds) fs)
             [] "" 0 []); try reflexivity.
  2:{ cbn [dirpath]. rewrite Hstart.
      fold (Py.basename (DirTree.directory self)). rewrite Hname.
      reflexivity. }
  2:{ intros []. }
  cbn [bind filenames app List.length Dict.write].
  destruct (puts_children self ds
              (proj2 (Forall_forall _ _)
                     (fun nd _ => puts_every_subtree self Htree Hbr (snd nd)))
              (DirTree.directory self) []
              [[("", PRef 1)]; Dict.fromkeys fs] 0 [("", PRef 1)])
    as (h & new & Hrun & Hlen' & H0 & Hsame & Hrep);
    try assumption; try reflexivity.
  - intros n Hn.
    assert (Hjoin : Py.join (DirTree.directory self) n
                    = (DirTree.directory self ++ n)%string).
    { unfold Py.join. rewrite (valid_name_not_absolute n Hn).
      rewrite <- Htop in Hz. destruct Hz as [-> | ->]; [reflexivity|].
      rewrite orb_true_r. reflexivity. }
    rewrite Hjoin, Hstart, Hlen, <- Htop. repeat split.
    + rewrite str_length_app. lia.
    + intros Hnil. destruct (DirTree.directory self); [|discriminate].
      simpl in Hnil. subst n. discriminate Hn.
    + apply endswith_sep_name. assumption.
    + rewrite slice_from_app. apply split_sep_no_sep.
      apply valid_name_no_sep. assumption.
  - intros x Hx [Heq|[]]. simpl in Heq. subst x.
    rewrite forallb_forall in Hds. specialize (Hds _ Hx). discriminate Hds.
  - exists h. split; [exact Hrun|]. simpl in Hlen', Hsame.
    apply represents_node. exists 0, ([("", PRef 1)] ++ new).
    split; [reflexivity|]. split; [lia|]. split; [exact H0|].
    cbn [app represents_items]. split; [reflexivity|]. split.
    + apply represents_node. exists 1, (map (fun k => (k, PNone)) fs).
      split; [reflexivity|]. split; [lia|]. split.
      * rewrite Hsame by lia. simpl.
        rewrite fromkeys_distinct by assumption. reflexivity.
      * apply represents_items_leaves.
    + eapply represents_items_transport; [| | |exact Hrep]; simpl; try lia.
      reflexivity.
Qed.

(** C10 (the code departs from the claim at the root of the file system).
    Walked top-down without branches, a well-formed directory is put into
    the tree without a failing parent lookup: the constructor returns, and
    [tree_dict] maps the final component of the root path to the mapping of
    the directory, in which each file name has a null and each sub-directory
    name the mapping of its own contents.  When the root path has no final
    component (the path [/]), the sub-directories are keyed beside the empty
    key of the root instead of inside its mapping. *)
Theorem tree_of_unfiltered_walk :
  forall (fs : filesystem) (root : string) (b : option (list DirTree.branch))
         (d : dir),
    DirTree.branches_truthy b = false ->
    fs (Py.Path_str root) = Some d ->
    wf_dir d = true ->
    exists (self : DirTree.t) (h : heap),
      DirTree.init fs root b = Ok (self, h)
      /\ forall fuel,
          height (expected_tree (Py.Path_str root) d) <= fuel ->
          DirTree.read fuel h (DirTree.tree_dict self)
          = Some (expected_tree (Py.Path_str root) d).
Proof.
  intros fs root b d Hb Hfs Hwf.
  set (self := {| DirTree.tree_dict := PRef 0;
                  DirTree.directory := Py.Path_str root;
                  DirTree.start := Py.rfind_sep_plus1 (Py.Path_str root);
                  DirTree.branches := b |}).
  assert (Hrun : exists h,
             for_each (DirTree.get_entry self)
                      (walk_dir true (Py.Path_str root) d) [[]] = Ok h
             /\ represents h 0 (List.length h) (PRef 0)
                           (expected_tree (Py.Path_str root) d)).
  { unfold expected_tree.
    destruct (String.eqb_spec (Py.basename (Py.Path_str root)) "")
      as [Hname|Hname].
    - destruct d as [ds names].
      apply (get_unnamed_root self ds names); auto.
    - apply (get_named_root self d); auto. }
  destruct Hrun as (h & Hrun & Hrep).
  exists self, h. split.
  - unfold DirTree.init, DirTree.get, os_walk. fold self.
    cbn [DirTree.directory self]. rewrite Hfs, Hrun. reflexivity.
  - intros fuel Hfuel. eapply represents_read; eassumption.
Qed.

Lemma tree_of_unfiltered_walk_witness :
  exists (self : DirTree.t) (h : heap),
    DirTree.init Sample.fs_x "/home/u/x" None = Ok (self, h)
    /\ forall fuel,
        3 <= fuel ->
        DirTree.read fuel h (DirTree.tree_dict self)
        = Some (DirTree.Node
                  [("x", DirTree.Node
                           [("y.txt", DirTree.Leaf);
                            ("z", DirTree.Node [("w.txt", DirTree.Leaf)])])]).
Proof.
  apply (tree_of_unfiltered_walk Sample.fs_x "/home/u/x" None Sample.x_tree);
    reflexivity.
Defined.

(** At the root of the file system the directory [a] is keyed beside the
    root, not inside the mapping of the root. *)
Lemma unnamed_root_is_flattened :
  exists (self : DirTree.t) (h : heap),
    DirTree.init Sample.fs_slash "/" None = Ok (self, h)
    /\ DirTree.read 3 h (DirTree.tree_dict self)
       = Some (DirTree.Node
                 [("", DirTree.Node [("g.txt", DirTree.Leaf)]);
                  ("a", DirTree.Node [("f.txt", DirTree.Leaf)])])
    /\ DirTree.read 3 h (DirTree.tree_dict self)
       <> Some (DirTree.Node [("", DirTree.tree_of Sample.slash_tree)]).
Proof.
  eexists. eexists. split; [reflexivity|]. split; [reflexivity|].
  vm_compute. discriminate.
Qed.

(** ** Lists with items left out *)

Lemma subseq_refl {A : Type} (l : list A) : subseq l l.
Proof. induction l; [apply subseq_nil|apply subseq_take; assumption]. Qed.

Lemma subseq_nil_l {A : Type} (l : list A) : subseq [] l.
Proof. induction l; [apply subseq_nil|apply subseq_skip; assumption]. Qed.

Lemma subseq_app {A : Type} (l1 l2 m1 m2 : list A) :
  subseq l1 l2 -> subseq m1 m2 -> subseq (l1 ++ m1) (l2 ++ m2).
Proof.
  induction 1 as [|x l1 l2 Hs IH|x l1 l2 Hs IH]; intros Hm; simpl.
  - assumption.
  - apply subseq_skip. auto.
  - apply subseq_take. auto.
Qed.

Lemma subseq_In {A : Type} (l1 l2 : list A) (x : A) :
  subseq l1 l2 -> In x l1 -> In x l2.
Proof.
  induction 1; simpl; auto.
  intros [->|Hin]; auto.
Qed.

Lemma subseq_NoDup {A : Type} (l1 l2 : list A) :
  subseq l1 l2 -> NoDup l2 -> NoDup l1.
Proof.
  induction 1 as [|x l1 l2 Hs IH|x l1 l2 Hs IH]; intros Hnd.
  - constructor.
  - inversion Hnd; subst. auto.
  - inversion Hnd as [|? ? Hx Hl2]; subst. constructor; [|auto].
    intros Hin. apply Hx. eapply subseq_In; eassumption.
Qed.

Lemma subseq_filter {A : Type} (f : A -> bool) (l : list A) :
  subseq (List.filter f l) l.
Proof.
  induction l as [|x l IH]; simpl; [apply subseq_nil|].
  destruct (f x); [apply subseq_take|apply subseq_skip]; assumption.
Qed.

Lemma subseq_map {A B : Type} (g : A -> B) (l1 l2 : list A) :
  subseq l1 l2 -> subseq (map g l1) (map g l2).
Proof.
  induction 1; simpl;
    [apply subseq_nil|apply subseq_skip|apply subseq_take]; assumption.
Qed.

Lemma subseq_flat_map {A B : Type} (f g : A -> list B) (l : list A) :
  (forall x, In x l -> subseq (f x) (g x)) ->
  subseq (flat_map f l) (flat_map g l).
Proof.
  induction l as [|x l IH]; intros H; simpl; [apply subseq_nil|].
  apply subseq_app; [apply H; left; reflexivity|].
  apply IH. intros y Hy. apply H. right. assumption.
Qed.

Lemma map_flat_map {A B C : Type} (g : B -> C) (f : A -> list B)
      (l : list A) :
  map g (flat_map f l) = flat_map (fun x => map g (f x)) l.
Proof.
  induction l as [|x l IH]; simpl; [reflexivity|].
  rewrite map_app, IH. reflexivity.
Qed.

Lemma flat_map_map {A B C : Type} (g : A -> B) (f : B -> list C)
      (l : list A) :
  flat_map f (map g l) = flat_map (fun x => f (g x)) l.
Proof.
  induction l as [|x l IH]; simpl; [reflexivity|].
  rewrite IH. reflexivity.
Qed.

Lemma flat_map_pointwise_perm {A B : Type} (f g : A -> list B)
      (l : list A) :
  (forall x, In x l -> Permutation (f x) (g x)) ->
  Permutation (flat_map f l) (flat_map g l).
Proof.
  induction l as [|x l IH]; intros H; simpl; [constructor|].
  apply Permutation_app; [apply H; left; reflexivity|].
  apply IH. intros y Hy. apply H. right. assumption.
Qed.

(** ** Bottom-up and top-down *)

(** A bottom-up walk yields the entries of the top-down walk, in another
    order. *)
Lemma walk_dir_bottom_up (d : dir) :
  forall path, Permutation (walk_dir false path d) (walk_dir true path d).
Proof.
  induction d as [ds fs IH] using dir_induction. intros path.
  rewrite !walk_dir_unfold. cbv zeta.
  apply Permutation_sym. apply Permutation_cons_app.
  rewrite app_nil_r. apply Permutation_sym.
  apply flat_map_pointwise_perm. intros nd Hnd.
  rewrite Forall_forall in IH. apply IH. assumption.
Qed.

Lemma os_walk_bottom_up (fs : filesystem) (top : string) (topdown : bool) :
  Permutation (os_walk fs top topdown) (os_walk fs top true).
Proof.
  unfold os_walk. destruct (fs top) as [d|]; [|constructor].
  destruct topdown; [reflexivity|apply walk_dir_bottom_up].
Qed.

(** ** Walked paths and names *)

Lemma seg_walk_unfold (segs : list string) (ds : list (string * dir))
      (fs : list string) :
  seg_walk segs (Dir ds fs)
  = (segs, fs)
    :: flat_map (fun nd => seg_walk (segs ++ [fst nd]) (snd nd)) ds.
Proof.
  cbn [seg_walk]. f_equal.
  induction ds as [|[n c] ds IH]; simpl; [reflexivity|].
  rewrite IH. reflexivity.
Qed.

Lemma slice_from_beyond (n : nat) (s : string) :
  String.length s <= n -> Py.slice_from n s = ""%string.
Proof.
  revert s; induction n as [|n IH]; intros s Hle.
  - destruct s; simpl in *; [reflexivity|lia].
  - destruct s as [|c s]; simpl in *; [reflexivity|]. apply IH. lia.
Qed.

Lemma concat_snoc_eq (segs : list string) (n : string) :
  segs <> [] ->
  String.concat "/" (segs ++ [n])
  = (String.concat "/" segs ++ String Py.sep n)%string.
Proof.
  induction segs as [|x segs IH]; intros Hne; [congruence|].
  destruct segs as [|y segs].
  - reflexivity.
  - change (String.concat "/" ((x :: y :: segs) ++ [n]))
      with (x ++ "/" ++ String.concat "/" ((y :: segs) ++ [n]))%string.
    rewrite IH by discriminate.
    change (String.concat "/" (x :: y :: segs))
      with (x ++ "/" ++ String.concat "/" (y :: segs))%string.
    rewrite !str_app_assoc. reflexivity.
Qed.

Section OneRoot.

Variable r : string.
Hypothesis r_not_empty : r <> ""%string.
Hypothesis r_no_trailing_sep : Py.endswith_sep r = false.

Lemma path_at_snoc (segs : list string) (n : string) :
  path_at r (segs ++ [n]) = (path_at r segs ++ String Py.sep n)%string.
Proof.
  destruct segs as [|x segs].
  - reflexivity.
  - unfold path_at.
    change ((x :: segs) ++ [n]) with (x :: (segs ++ [n])).
    destruct (segs ++ [n]) as [|y l] eqn:E.
    + destruct segs; discriminate.
    + rewrite <- E. change (x :: (segs ++ [n])) with ((x :: segs) ++ [n]).
      rewrite concat_snoc_eq by discriminate.
      rewrite !str_app_assoc. reflexivity.
Qed.

Lemma path_at_is_dir (segs : list string) :
  Forall (fun n => valid_name n = true) segs ->
  path_at r segs <> ""%string /\ Py.endswith_sep (path_at r segs) = false.
Proof.
  intros Hvalid. destruct segs as [|x segs'].
  - simpl. split; assumption.
  - destruct (@exists_last _ (x :: segs') ltac:(discriminate))
      as (segs0 & n & Heq).
    rewrite Heq in *. rewrite path_at_snoc.
    apply Forall_app in Hvalid. destruct Hvalid as [_ Hn].
    inversion Hn; subst. split.
    + destruct (path_at r segs0); discriminate.
    + change (String Py.sep n) with (String Py.sep "" ++ n)%string.
      rewrite <- str_app_assoc. apply endswith_sep_name. assumption.
Qed.

Lemma path_at_join (segs : list string) (n : string) :
  Forall (fun n => valid_name n = true) segs ->
  valid_name n = true ->
  Py.join (path_at r segs) n = path_at r (segs ++ [n]).
Proof.
  intros Hsegs Hn. destruct (path_at_is_dir segs Hsegs) as [Hne Hend].
  rewrite join_onto_dir by assumption.
  rewrite path_at_snoc. reflexivity.
Qed.

Lemma relative_path_at (segs : list string) :
  Crawler.relative r (path_at r segs) = String.concat "/" segs.
Proof.
  unfold Crawler.relative. destruct segs as [|x segs].
  - simpl. apply slice_from_beyond. lia.
  - unfold path_at.
    replace (r ++ "/" ++ String.concat "/" (x :: segs))%string
      with ((r ++ "/") ++ String.concat "/" (x :: segs))%string
      by (rewrite str_app_assoc; reflexivity).
    replace (String.length r + 1) with (String.length (r ++ "/")%string)
      by (rewrite str_length_app; reflexivity).
    apply slice_from_app.
Qed.

(** The entries of the walk of a directory below [r], by relative path and
    file names, are those of the walk by names. *)
Lemma walk_dir_segs (d : dir) :
  forall segs,
    wf_dir d = true ->
    Forall (fun n => valid_name n = true) segs ->
    map (fun e => (Crawler.relative r (dirpath e), filenames e))
        (walk_dir true (path_at r segs) d)
    = map (fun sf => (String.concat "/" (fst sf), snd sf))
          (seg_walk segs d).
Proof.
  induction d as [ds fs IH] using dir_induction. intros segs Hwf Hsegs.
  apply wf_dir_unfold in Hwf. destruct Hwf as (_ & Hds & _ & Hsub).
  rewrite walk_dir_unfold, seg_walk_unfold. cbv zeta. cbn [map].
  cbn [dirpath filenames fst snd].
  rewrite (relative_path_at segs). f_equal.
  rewrite !map_flat_map. rewrite forallb_forall in Hds.
  rewrite Forall_forall in IH, Hsub.
  induction ds as [|[n child] ds IHds]; [reflexivity|].
  cbn [flat_map fst snd]. f_equal.
  - assert (Hn : valid_name n = true)
      by (apply Hds; left; reflexivity).
    rewrite path_at_join by assumption.
    apply (IH (n, child)); [left; reflexivity| |].
    + apply (Hsub (n, child)). left. reflexivity.
    + apply Forall_app. split; [assumption|]. constructor; [assumption|].
      constructor.
  - apply IHds.
    + intros x Hx. apply IH. right. assumption.
    + intros x Hx. apply Hds. right. assumption.
    + intros x Hx. apply Hsub. right. assumption.
Qed.

End OneRoot.

(** ** Every entry of a well-formed tree has names of its own *)

Lemma distinct_NoDup (l : list string) : distinct l = true -> NoDup l.
Proof.
  induction l as [|x l IH]; intros Hd; [constructor|].
  apply distinct_cons in Hd. destruct Hd as [Hx Hl].
  constructor; auto.
Qed.

Lemma flat_map_flat_map {A B C : Type} (f : B -> list C) (g : A -> list B)
      (l : list A) :
  flat_map f (flat_map g l) = flat_map (fun x => flat_map f (g x)) l.
Proof.
  induction l as [|x l IH]; simpl; [reflexivity|].
  rewrite flat_map_app, IH. reflexivity.
Qed.

Lemma all_paths_unfold (segs : list string) (ds : list (string * dir))
      (fs : list string) :
  all_paths segs (Dir ds fs)
  = entry_paths (segs, fs)
    ++ flat_map (fun nd => all_paths (segs ++ [fst nd]) (snd nd)) ds.
Proof.
  unfold all_paths. rewrite seg_walk_unfold. cbn [flat_map].
  rewrite flat_map_flat_map. reflexivity.
Qed.

(** The names of an entry begin with the names of the directory walked. *)
Lemma all_paths_prefix (d : dir) :
  forall segs x, In x (all_paths segs d) -> exists rest, x = segs ++ rest.
Proof.
  induction d as [ds fs IH] using dir_induction. intros segs x.
  rewrite all_paths_unfold, in_app_iff. intros [Hown|Hbelow].
  - destruct Hown as [<-|Hfile].
    + exists []. rewrite app_nil_r. reflexivity.
    + apply in_map_iff in Hfile. destruct Hfile as (f & <- & _).
      exists [f]. reflexivity.
  - apply in_flat_map in Hbelow. destruct Hbelow as (nd & Hnd & Hx).
    rewrite Forall_forall in IH.
    destruct (IH nd Hnd _ _ Hx) as [rest ->].
    exists (fst nd :: rest). rewrite <- app_assoc. reflexivity.
Qed.

Lemma app_cons_not_self {A : Type} (l : list A) (x : A) (rest : list A) :
  l <> l ++ x :: rest.
Proof.
  intros H. apply (f_equal (@List.length A)) in H.
  rewrite length_app in H. simpl in H. lia.
Qed.

Lemma below_NoDup (segs : list string) (ds : list (string * dir)) :
  Forall (fun nd => forall segs', NoDup (all_paths segs' (snd nd))) ds ->
  distinct (map fst ds) = true ->
  NoDup (flat_map (fun nd => all_paths (segs ++ [fst nd]) (snd nd)) ds).
Proof.
  induction ds as [|[n c] ds IHds]; intros Hall Hdist; [constructor|].
  inversion Hall as [|? ? Hc Hrest]; subst. simpl in Hc.
  change (map fst ((n, c) :: ds)) with (n :: map fst ds) in Hdist.
  apply distinct_cons in Hdist. destruct Hdist as [Hn Hdist].
  cbn [flat_map fst snd]. apply NoDup_app; auto.
  intros x Hx Hx'. apply in_flat_map in Hx'.
  destruct Hx' as (nd & Hnd & Hx').
  destruct (all_paths_prefix _ _ _ Hx) as [rest Heq].
  destruct (all_paths_prefix _ _ _ Hx') as [rest' Heq'].
  rewrite Heq, <- !app_assoc in Heq'. apply app_inv_head in Heq'.
  injection Heq' as Hname _. apply Hn. rewrite Hname.
  apply in_map. assumption.
Qed.

(** In a well-formed tree no two entries, directories or files, have the
    same names from the root. *)
Lemma all_paths_NoDup (d : dir) :
  wf_dir d = true -> forall segs, NoDup (all_paths segs d).
Proof.
  induction d as [ds fs IH] using dir_induction. intros Hwf segs.
  apply wf_dir_unfold in Hwf. destruct Hwf as (_ & _ & Hdist & Hsub).
  apply distinct_app in Hdist. destruct Hdist as (Hdfs & Hdds & Hdisj).
  rewrite all_paths_unfold. apply NoDup_app.
  - unfold entry_paths. cbn [fst snd]. constructor.
    + rewrite in_map_iff. intros (f & Heq & _).
      symmetry in Heq. revert Heq. apply app_cons_not_self.
    + apply NoDup_map_NoDup_ForallPairs; [|apply distinct_NoDup; assumption].
      intros f g _ _ Heq. apply app_inv_head in Heq. congruence.
  - apply below_NoDup; [|assumption].
    rewrite Forall_forall in *. intros nd Hnd segs'.
    apply IH; [assumption|]. apply Hsub. assumption.
  - intros x Hown Hbelow. apply in_flat_map in Hbelow.
    destruct Hbelow as (nd & Hnd & Hx).
    destruct (all_paths_prefix _ _ _ Hx) as [rest ->].
    rewrite <- app_assoc in Hown. destruct Hown as [Heq|Hfile].
    + revert Heq. apply app_cons_not_self.
    + apply in_map_iff in Hfile. cbn [fst snd] in Hfile.
      destruct Hfile as (f & Heq & Hf). apply app_inv_head in Heq.
      injection Heq as Heq _. subst f. apply (Hdisj (fst nd) Hf).
      apply in_map. assumption.
Qed.

(** The names met in the walk of a well-formed tree are valid. *)
Lemma seg_walk_valid (d : dir) :
  forall segs sf,
    wf_dir d = true ->
    Forall (fun n => valid_name n = true) segs ->
    In sf (seg_walk segs d) ->
    Forall (fun n => valid_name n = true) (fst sf)
    /\ Forall (fun n => valid_name n = true) (snd sf).
Proof.
  induction d as [ds fs IH] using dir_induction. intros segs sf Hwf Hsegs.
  apply wf_dir_unfold in Hwf. destruct Hwf as (Hfs & Hds & _ & Hsub).
  rewrite seg_walk_unfold. intros [<-|Hbelow].
  - split; [assumption|]. apply Forall_forall.
    rewrite forallb_forall in Hfs. assumption.
  - apply in_flat_map in Hbelow. destruct Hbelow as (nd & Hnd & Hsf).
    rewrite Forall_forall in IH, Hsub. rewrite forallb_forall in Hds.
    apply (IH nd Hnd (segs ++ [fst nd])); [apply Hsub; assumption| |exact Hsf].
    apply Forall_app. split; [assumption|]. constructor; [|constructor].
    apply Hds. apply in_map. assumption.
Qed.

(** ** Names and the paths made of them *)

Lemma concat_valid_is_dir (s : list string) :
  s <> [] ->
  Forall (fun n => valid_name n = true) s ->
  String.concat "/" s <> ""%string
  /\ Py.endswith_sep (String.concat "/" s) = false.
Proof.
  intros Hne Hs.
  destruct (@exists_last _ s Hne) as (s0 & n & ->).
  apply Forall_app in Hs. destruct Hs as [_ Hn]. inversion Hn; subst.
  destruct (concat_sep_snoc s0 n) as (z & _ & ->). split.
  - destruct z; [|discriminate]. simpl. intros ->. discriminate.
  - apply endswith_sep_name. assumption.
Qed.

Lemma join_concat (s : list string) (f : string) :
  Forall (fun n => valid_name n = true) s ->
  valid_name f = true ->
  Py.join (String.concat "/" s) f = String.concat "/" (s ++ [f]).
Proof.
  intros Hs Hf. destruct s as [|x s].
  - simpl. unfold Py.join. rewrite (valid_name_not_absolute f Hf).
    reflexivity.
  - destruct (concat_valid_is_dir (x :: s)) as [Hne Hend];
      [discriminate|assumption|].
    rewrite join_onto_dir by assumption.
    rewrite concat_snoc_eq by discriminate. reflexivity.
Qed.

Lemma split_concat (s : list string) :
  s <> [] ->
  Forall (fun n => valid_name n = true) s ->
  Py.split_sep (String.concat "/" s) = s.
Proof.
  induction s as [|x s IH]; intros Hne Hs; [congruence|].
  inversion Hs as [|? ? Hx Hrest]; subst.
  destruct s as [|y s].
  - simpl. apply split_sep_no_sep. apply valid_name_no_sep. assumption.
  - change (String.concat "/" (x :: y :: s))
      with (x ++ String Py.sep (String.concat "/" (y :: s)))%string.
    rewrite split_sep_app_sep, IH by (discriminate || assumption).
    rewrite split_sep_no_sep by (apply valid_name_no_sep; assumption).
    reflexivity.
Qed.

(** Two lists of valid names that make the same path are the same. *)
Lemma concat_injective (s1 s2 : list string) :
  Forall (fun n => valid_name n = true) s1 ->
  Forall (fun n => valid_name n = true) s2 ->
  String.concat "/" s1 = String.concat "/" s2 ->
  s1 = s2.
Proof.
  intros H1 H2 Heq.
  destruct s1 as [|x1 s1], s2 as [|x2 s2]; [reflexivity| | |].
  - exfalso.
    destruct (concat_valid_is_dir (x2 :: s2)) as [Hne _];
      [discriminate|assumption|].
    apply Hne. symmetry. exact Heq.
  - exfalso.
    destruct (concat_valid_is_dir (x1 :: s1)) as [Hne _];
      [discriminate|assumption|].
    apply Hne. exact Heq.
  - rewrite <- (split_concat (x1 :: s1)), <- (split_concat (x2 :: s2))
      by (discriminate || assumption).
    rewrite Heq. reflexivity.
Qed.

Lemma str_app_inv_head (a b c : string) :
  (a ++ b)%string = (a ++ c)%string -> b = c.
Proof. induction a as [|x a IH]; simpl; intros H; [assumption|]. injection H. auto. Qed.

Lemma startswith_sep_cons (c : ascii) (y : string) :
  Py.startswith "/" (String c y)
  = if ascii_dec "/" c then true else false.
Proof.
  unfold Py.startswith.
  change (String.prefix "/" (String c y))
    with (if ascii_dec "/" c then String.prefix "" y else false).
  destruct (ascii_dec "/" c); [destruct y|]; reflexivity.
Qed.

Lemma concat_valid_not_absolute (s : list string) :
  Forall (fun n => valid_name n = true) s ->
  Py.startswith "/" (String.concat "/" s) = false.
Proof.
  intros Hs. destruct s as [|x s]; [reflexivity|].
  inversion Hs as [|? ? Hx _]; subst.
  pose proof (valid_name_not_absolute x Hx) as Habs.
  destruct x as [|c x]; [discriminate Hx|].
  rewrite startswith_sep_cons in Habs.
  destruct s as [|y s]; cbn [String.concat append];
    rewrite startswith_sep_cons; exact Habs.
Qed.

(** The emitted path tells the names it was made of. *)
Lemma emitted_path_injective (c : Crawler.t) (r : string)
      (s1 s2 : list string) :
  r <> ""%string -> Py.endswith_sep r = false ->
  Forall (fun n => valid_name n = true) s1 ->
  Forall (fun n => valid_name n = true) s2 ->
  emitted_path c r (String.concat "/" s1)
  = emitted_path c r (String.concat "/" s2) ->
  s1 = s2.
Proof.
  intros Hr Hend H1 H2. unfold emitted_path.
  destruct (Crawler.full_paths c).
  - unfold Py.join.
    rewrite !concat_valid_not_absolute by assumption. rewrite Hend.
    destruct r as [|x r]; [congruence|]. cbn [String.length Nat.eqb orb].
    intros Heq. apply str_app_inv_head in Heq.
    apply str_app_inv_head in Heq. apply concat_injective; assumption.
  - apply concat_injective; assumption.
Qed.

(** ** The output of one root *)

Lemma output_segs_subseq (pf : PathFilters)
      (sf : list string * list string) :
  subseq (output_segs pf sf) (entry_paths sf).
Proof.
  unfold output_segs, entry_paths. cbv zeta.
  destruct (validate pf (String.concat "/" (fst sf)));
    [|apply subseq_nil_l].
  destruct (non_empty_folders pf && _).
  - apply subseq_take. apply subseq_nil_l.
  - apply subseq_skip. apply subseq_map. apply subseq_filter.
Qed.

Lemma root_output_segs (c : Crawler.t) (pf : PathFilters) (r : string)
      (sf : list string * list string) :
  Forall (fun n => valid_name n = true) (fst sf) ->
  Forall (fun n => valid_name n = true) (snd sf) ->
  root_output c pf r (String.concat "/" (fst sf)) (snd sf)
  = map (fun s => emitted_path c r (String.concat "/" s))
        (output_segs pf sf).
Proof.
  intros Hs Hf. unfold root_output, output_segs. cbv zeta.
  destruct (validate pf (String.concat "/" (fst sf))); [|reflexivity].
  destruct (non_empty_folders pf && _); [reflexivity|].
  rewrite map_map. induction (snd sf) as [|f fs IH]; [reflexivity|].
  inversion Hf as [|? ? Hvalid Hrest]; subst. cbn [map List.filter].
  destruct (validate pf (Py.join (String.concat "/" (fst sf)) f));
    cbn [map]; rewrite IH by assumption; [|reflexivity].
  rewrite join_concat by assumption. reflexivity.
Qed.

Lemma flat_map_ext_in {A B : Type} (f g : A -> list B) (l : list A) :
  (forall x, In x l -> f x = g x) -> flat_map f l = flat_map g l.
Proof.
  induction l as [|x l IH]; intros H; simpl; [reflexivity|].
  rewrite (H x) by (left; reflexivity). rewrite IH; [reflexivity|].
  intros y Hy. apply H. right. assumption.
Qed.

Lemma entry_paths_valid (sf : list string * list string) (x : list string) :
  Forall (fun n => valid_name n = true) (fst sf) ->
  Forall (fun n => valid_name n = true) (snd sf) ->
  In x (entry_paths sf) ->
  Forall (fun n => valid_name n = true) x.
Proof.
  intros Hs Hf [<-|Hx]; [assumption|].
  apply in_map_iff in Hx. destruct Hx as (f & <- & Hin).
  apply Forall_app. split; [assumption|]. constructor; [|constructor].
  rewrite Forall_forall in Hf. apply Hf. assumption.
Qed.

(** The top-down walk of one well-formed root emits every path once. *)
Lemma one_root_output_NoDup (c : Crawler.t) (pf : PathFilters) (r : string)
      (d : dir) :
  r <> ""%string -> Py.endswith_sep r = false ->
  wf_dir d = true ->
  NoDup (flat_map (entry_output c pf r) (walk_dir true r d)).
Proof.
  intros Hr Hend Hwf.
  change (flat_map (entry_output c pf r) (walk_dir true r d))
    with (flat_map
            (fun e => (fun rf => root_output c pf r (fst rf) (snd rf))
                        (Crawler.relative r (dirpath e), filenames e))
            (walk_dir true (path_at r []) d)).
  rewrite <- (flat_map_map
                (fun e => (Crawler.relative r (dirpath e), filenames e))
                (fun rf => root_output c pf r (fst rf) (snd rf))).
  rewrite (walk_dir_segs r Hr Hend d [] Hwf (Forall_nil _)).
  rewrite flat_map_map. cbn [fst snd].
  rewrite (flat_map_ext_in
             (fun sf => root_output c pf r (String.concat "/" (fst sf))
                                    (snd sf))
             (fun sf => map (fun s => emitted_path c r (String.concat "/" s))
                            (output_segs pf sf))).
  2:{ intros sf Hsf.
      destruct (seg_walk_valid d [] sf Hwf (Forall_nil _) Hsf) as [Hs Hf].
      apply root_output_segs; assumption. }
  rewrite <- map_flat_map.
  assert (Hsub : subseq (flat_map (output_segs pf) (seg_walk [] d))
                        (all_paths [] d)).
  { apply subseq_flat_map. intros sf _. apply output_segs_subseq. }
  assert (Hvalid : forall x,
             In x (flat_map (output_segs pf) (seg_walk [] d)) ->
             Forall (fun n => valid_name n = true) x).
  { intros x Hx. apply (subseq_In _ _ x Hsub) in Hx.
    apply in_flat_map in Hx. destruct Hx as (sf & Hsf & Hx).
    destruct (seg_walk_valid d [] sf Hwf (Forall_nil _) Hsf) as [Hs Hf].
    eapply entry_paths_valid; eassumption. }
  apply NoDup_map_NoDup_ForallPairs.
  - intros x y Hx Hy Heq.
    apply (emitted_path_injective c r x y Hr Hend); auto.
  - apply (subseq_NoDup _ _ Hsub). apply all_paths_NoDup. assumption.
Qed.

(** C7 (as amended).  The sequential traverser returns a list, filled in
    walk order, root after root.  Over a single root, given by a path that
    is not empty and does not end with the separator, no path occurs twice
    in it; over several roots it is the output of each root in turn, so a
    path that several roots reach is there once for each of them. *)
Theorem single_root_output_has_no_duplicates :
  (forall (fs : filesystem) (c : Crawler.t) (r : string) (l : list string),
      Crawler.directory c = [r] ->
      r <> ""%string ->
      Py.endswith_sep r = false ->
      (forall d, fs r = Some d -> wf_dir d = true) ->
      Crawler.init fs c = Ok l ->
      NoDup l)
  /\ (forall (fs : filesystem) (c : Crawler.t) (pf : PathFilters),
         Crawler.filter fs c pf []
         = flat_map
             (fun dir =>
                flat_map (entry_output c pf dir)
                         (os_walk fs dir (Crawler.topdown c)))
             (Crawler.directory c)).
Proof.
  split.
  - intros fs c r l Hdir Hr Hend Hwf Hinit.
    destruct (Crawler.filters c) as [pf|] eqn:Hf.
    + unfold Crawler.init in Hinit. rewrite Hf in Hinit.
      injection Hinit as <-. rewrite filter_is_output. cbn [app].
      unfold filter_output. rewrite Hdir. cbn [flat_map].
      rewrite app_nil_r.
      apply (Permutation_NoDup
               (l := flat_map (entry_output c pf r) (os_walk fs r true))).
      * apply Permutation_flat_map. apply Permutation_sym.
        apply os_walk_bottom_up.
      * unfold os_walk. destruct (fs r) as [d|] eqn:Hfs; [|constructor].
        apply one_root_output_NoDup; auto.
    + rewrite (Crawler_init_unfiltered_ok fs c l Hf Hinit). constructor.
  - intros fs c pf. rewrite filter_is_output. reflexivity.
Qed.

Lemma single_root_output_has_no_duplicates_witness :
  NoDup ["a/b"; "a/c"].
Proof.
  apply (proj1 single_root_output_has_no_duplicates
               Sample.fs_nested Sample.folders_request "r").
  - reflexivity.
  - discriminate.
  - reflexivity.
  - intros d Hd. vm_compute in Hd. injection Hd as <-. reflexivity.
  - reflexivity.
Defined.

(** In [dirutility/walk.py] a path is kept once for each include term that
    occurs in its final component, unless exclude terms are given too. *)
Lemma include_terms_repeat_paths :
  Walk.walk Sample.fs_logs "/home/u" Sample.two_terms_request
  = [Walk.Str "r/app.log"; Walk.Str "r/app.log"; Walk.Str "r/tmp.log"].
Proof. reflexivity. Qed.

(** C7 as stated fails: over two overlapping roots the path of the file
    that both reach is returned twice. *)
Lemma overlapping_roots_repeat_paths :
  Crawler.init Sample.fs_overlap Sample.overlap_request
  = Ok ["r/a/f.txt"; "r/a/f.txt"]
  /\ ~ NoDup ["r/a/f.txt"; "r/a/f.txt"].
Proof.
  split; [reflexivity|].
  intros H. inversion H as [|? ? Hnotin _]; subst.
  apply Hnotin. left. reflexivity.
Qed.

(** ** A run without filters *)

Lemma for_each_guarded {A S : Type} (body : S -> A -> result S)
      (blocked : A -> bool) (e : pyerr) :
  (forall s a, body s a = if blocked a then Raise e else Ok s) ->
  forall l s,
    for_each body l s = if existsb blocked l then Raise e else Ok s.
Proof.
  intros Hbody. induction l as [|a l IH]; intros s; simpl; [reflexivity|].
  rewrite Hbody. destruct (blocked a); simpl; [reflexivity|apply IH].
Qed.

Lemma Crawler_init_unfiltered (fs : filesystem) (c : Crawler.t) :
  Crawler.filters c = None ->
  Crawler.init fs c
  = if existsb (fun dir => negb (is_empty
                                   (os_walk fs dir (Crawler.topdown c))))
               (Crawler.directory c)
    then Raise AttributeError
    else Ok [].
Proof.
  intros Hf. unfold Crawler.init, Crawler.encompass. rewrite Hf.
  apply for_each_guarded. intros acc dir.
  rewrite encompass_entries_unfiltered by assumption.
  destruct (os_walk fs dir (Crawler.topdown c)); reflexivity.
Qed.

(** * Further properties of the code *)

(** ** The sequential traverser *)

Lemma filter_output_reordered (fs : filesystem) (c c' : Crawler.t)
      (pf : PathFilters) :
  Crawler.directory c = Crawler.directory c' ->
  Crawler.full_paths c = Crawler.full_paths c' ->
  Permutation (filter_output fs c pf) (filter_output fs c' pf).
Proof.
  intros Hd Hf. unfold filter_output. rewrite <- Hd.
  apply flat_map_pointwise_perm. intros dir _.
  assert (Hsame : forall e, entry_output c pf dir e = entry_output c' pf dir e).
  { intros e. unfold entry_output, root_output, emitted_path.
    rewrite Hf. reflexivity. }
  rewrite (flat_map_ext_in (entry_output c pf dir) (entry_output c' pf dir))
    by (intros e _; apply Hsame).
  apply Permutation_flat_map.
  eapply Permutation_trans; [apply os_walk_bottom_up|].
  apply Permutation_sym. apply os_walk_bottom_up.
Qed.

Lemma os_walk_is_empty (fs : filesystem) (top : string) (topdown : bool) :
  is_empty (os_walk fs top topdown) = is_empty (os_walk fs top true).
Proof.
  unfold os_walk. destruct (fs top) as [d|]; [|reflexivity].
  pose proof (walk_dir_not_nil topdown top d) as H1.
  pose proof (walk_dir_not_nil true top d) as H2.
  destruct (walk_dir topdown top d); [congruence|].
  destruct (walk_dir true top d); [congruence|]. reflexivity.
Qed.

Lemma existsb_pointwise {A : Type} (f g : A -> bool) (l : list A) :
  (forall x, f x = g x) -> existsb f l = existsb g l.
Proof.
  intros H. induction l as [|x l IH]; simpl; [reflexivity|].
  rewrite H, IH. reflexivity.
Qed.

(** X1.  The [topdown] flag of the sequential traverser changes the order of
    its result and nothing else: bottom-up it returns the paths of the
    top-down run, each as many times, or raises the same exception. *)
Theorem topdown_only_reorders :
  forall (fs : filesystem) (directory : list string)
         (filters : option PathFilters) (full_paths topdown : bool),
    reordered
      (Crawler.init fs {| Crawler.directory := directory;
                          Crawler.filters := filters;
                          Crawler.full_paths := full_paths;
                          Crawler.topdown := topdown |})
      (Crawler.init fs {| Crawler.directory := directory;
                          Crawler.filters := filters;
                          Crawler.full_paths := full_paths;
                          Crawler.topdown := true |}).
Proof.
  intros fs directory filters full_paths topdown.
  destruct filters as [pf|].
  - unfold Crawler.init. cbn [Crawler.filters].
    rewrite !filter_is_output. cbn [app reordered].
    apply filter_output_reordered; reflexivity.
  - rewrite !Crawler_init_unfiltered by reflexivity.
    cbn [Crawler.directory Crawler.topdown].
    rewrite (existsb_pointwise
               (fun dir => negb (is_empty (os_walk fs dir topdown)))
               (fun dir => negb (is_empty (os_walk fs dir true))))
      by (intros dir; rewrite os_walk_is_empty; reflexivity).
    destruct (existsb _ directory); cbn [reordered];
      [reflexivity|apply Permutation_refl].
Qed.

Lemma os_walk_found (fs : filesystem) (top : string) (topdown : bool)
      (d : dir) :
  fs top = Some d -> os_walk fs top topdown = walk_dir topdown top d.
Proof. intros H. unfold os_walk. rewrite H. reflexivity. Qed.

Lemma output_segs_chain (pf : PathFilters) (sf : list string * list string) :
  Forall (fun n => valid_name n = true) (fst sf) ->
  Forall (fun n => valid_name n = true) (snd sf) ->
  output_segs pf sf = chain_output pf sf.
Proof.
  intros Hs Hf. unfold output_segs, chain_output. cbv zeta.
  destruct (validate pf (String.concat "/" (fst sf))); [|reflexivity].
  destruct (non_empty_folders pf && _); [reflexivity|].
  induction (snd sf) as [|f fs IH]; [reflexivity|].
  inversion Hf as [|? ? Hvalid Hrest]; subst. cbn [map List.filter].
  rewrite join_concat by assumption.
  destruct (validate pf (String.concat "/" (fst sf ++ [f])));
    cbn [map]; rewrite IH by assumption; reflexivity.
Qed.

(** The output of a top-down walk of one root, read by names. *)
Lemma one_root_output_by_names (c : Crawler.t) (pf : PathFilters)
      (r : string) (d : dir) :
  r <> ""%string -> Py.endswith_sep r = false ->
  wf_dir d = true ->
  flat_map (entry_output c pf r) (walk_dir true r d)
  = map (fun s => emitted_path c r (String.concat "/" s))
        (flat_map (chain_output pf) (seg_walk [] d)).
Proof.
  intros Hr Hend Hwf.
  change (flat_map (entry_output c pf r) (walk_dir true r d))
    with (flat_map
            (fun e => (fun rf => root_output c pf r (fst rf) (snd rf))
                        (Crawler.relative r (dirpath e), filenames e))
            (walk_dir true (path_at r []) d)).
  rewrite <- (flat_map_map
                (fun e => (Crawler.relative r (dirpath e), filenames e))
                (fun rf => root_output c pf r (fst rf) (snd rf))).
  rewrite (walk_dir_segs r Hr Hend d [] Hwf (Forall_nil _)).
  rewrite flat_map_map. cbn [fst snd].
  rewrite (flat_map_ext_in
             (fun sf => root_output c pf r (String.concat "/" (fst sf))
                                    (snd sf))
             (fun sf => map (fun s => emitted_path c r (String.concat "/" s))
                            (chain_output pf sf))).
  2:{ intros sf Hsf.
      destruct (seg_walk_valid d [] sf Hwf (Forall_nil _) Hsf) as [Hs Hf].
      rewrite <- output_segs_chain by assumption.
      apply root_output_segs; assumption. }
  rewrite <- map_flat_map. reflexivity.
Qed.

(** X2.  Over one root, given by a path that is not empty and does not end
    with the separator, and walked top-down, [Crawler] returns one path for
    each chain of names it validates, in walk order: the relative path it
    cuts out of [os.walk]'s [root] and joins with a file name is that chain
    joined by the separator.  A directory whose own relative path is not
    validated hides its files. *)
Theorem crawler_output_by_names :
  forall (fs : filesystem) (c : Crawler.t) (pf : PathFilters) (r : string)
         (d : dir),
    Crawler.directory c = [r] ->
    Crawler.filters c = Some pf ->
    Crawler.topdown c = true ->
    r <> ""%string ->
    Py.endswith_sep r = false ->
    fs r = Some d ->
    wf_dir d = true ->
    Crawler.init fs c
    = Ok (map (fun s => emitted_path c r (String.concat "/" s))
              (flat_map (chain_output pf) (seg_walk [] d))).
Proof.
  intros fs c pf r d Hdir Hpf Htd Hr Hend Hfs Hwf.
  unfold Crawler.init. rewrite Hpf. rewrite filter_is_output. cbn [app].
  unfold filter_output. rewrite Hdir, Htd. cbn [flat_map].
  rewrite app_nil_r. rewrite (os_walk_found fs r true d Hfs).
  rewrite one_root_output_by_names by assumption. reflexivity.
Qed.

Lemma crawler_output_by_names_witness :
  Crawler.init Sample.fs_nested Cases.nested_full_request
  = Ok ["r/a/b/file.txt"].
Proof.
  apply (crawler_output_by_names Sample.fs_nested Cases.nested_full_request
           Cases.lets_all_through "r" Sample.nested);
    try reflexivity; discriminate.
Defined.

Lemma entry_output_full (c : Crawler.t) (pf : PathFilters) (dir : string)
      (e : walk_entry) :
  Crawler.full_paths c = true ->
  entry_output c pf dir e
  = map (Py.join dir) (entry_output (relative_from c dir) pf dir e).
Proof.
  intros Hfull. unfold entry_output, root_output, emitted_path.
  rewrite Hfull. cbn [relative_from Crawler.full_paths].
  destruct (validate pf (Crawler.relative dir (dirpath e))); [|reflexivity].
  destruct (non_empty_folders pf && _); [reflexivity|].
  rewrite map_map. reflexivity.
Qed.

(** X3.  With [full_paths] the result is, root after root, what the same
    traverser returns for that root alone with relative paths, each path
    joined onto the root by [os.path.join]. *)
Theorem full_paths_join_the_root :
  forall (fs : filesystem) (c : Crawler.t) (pf : PathFilters),
    Crawler.full_paths c = true ->
    Crawler.filter fs c pf []
    = flat_map
        (fun dir =>
           map (Py.join dir) (Crawler.filter fs (relative_from c dir) pf []))
        (Crawler.directory c).
Proof.
  intros fs c pf Hfull. rewrite filter_is_output. cbn [app].
  unfold filter_output at 1. apply flat_map_ext_in. intros dir _.
  rewrite filter_is_output. cbn [app]. unfold filter_output.
  cbn [relative_from Crawler.directory Crawler.topdown flat_map].
  rewrite app_nil_r. rewrite map_flat_map.
  apply flat_map_ext_in. intros e _. apply entry_output_full. assumption.
Qed.

Lemma full_paths_join_the_root_witness :
  Crawler.filter Sample.fs_overlap Cases.overlap_full_request Cases.lets_all_through
                 []
  = ["r/a/f.txt"; "r/a/f.txt"].
Proof.
  apply (full_paths_join_the_root Sample.fs_overlap Cases.overlap_full_request
           Cases.lets_all_through).
  reflexivity.
Defined.

Lemma slice_from_past (a b : string) (n : nat) :
  Py.slice_from (String.length a + n) (a ++ b) = Py.slice_from n b.
Proof.
  induction a as [|ch a IH]; [reflexivity|]. simpl. assumption.
Qed.

Lemma walk_dir_head (topdown : bool) (path : string) (d : dir) :
  In (WalkEntry path (map fst (subdirs d)) (files d))
     (walk_dir topdown path d).
Proof.
  destruct d as [ds fs]. apply in_walk_dir. left. reflexivity.
Qed.

(** X4.  A root written with a trailing separator loses one character of
    every relative path: [root[len(directory) + 1:]] skips the first
    character of the name of a first-level sub-directory, so its file [f]
    is returned under [n[1:]] and not under [n]. *)
Theorem trailing_separator_cuts_relative_paths :
  forall (fs : filesystem) (c : Crawler.t) (pf : PathFilters) (r : string)
         (d child : dir) (n f : string),
    Crawler.directory c = [(r ++ "/")%string] ->
    Crawler.full_paths c = false ->
    fs (r ++ "/")%string = Some d ->
    In (n, child) (subdirs d) ->
    valid_name n = true ->
    In f (files child) ->
    non_empty_folders pf = false ->
    validate pf (Py.slice_from 1 n) = true ->
    validate pf (Py.join (Py.slice_from 1 n) f) = true ->
    In (Py.join (Py.slice_from 1 n) f) (Crawler.filter fs c pf []).
Proof.
  intros fs c pf r d child n f Hdir Hfull Hfs Hn Hvalid Hf Hnef Hv1 Hv2.
  rewrite filter_is_output. cbn [app]. unfold filter_output.
  rewrite Hdir. cbn [flat_map]. rewrite app_nil_r.
  rewrite (os_walk_found fs _ (Crawler.topdown c) d Hfs).
  apply in_flat_map.
  exists (WalkEntry (Py.join (r ++ "/") n) (map fst (subdirs child))
                    (files child)).
  split.
  - destruct d as [ds fs0]. apply in_walk_dir. right.
    exists (n, child). split; [exact Hn|]. apply walk_dir_head.
  - assert (Hrel : Crawler.relative (r ++ "/")
                     (Py.join (r ++ "/") n) = Py.slice_from 1 n).
    { unfold Py.join. rewrite (valid_name_not_absolute n Hvalid).
      rewrite endswith_sep_app_sep, orb_true_r.
      unfold Crawler.relative. apply slice_from_past. }
    apply in_entry_output_iff. cbv zeta. cbn [dirpath filenames].
    rewrite Hrel. split; [assumption|]. right. rewrite Hnef. split;
      [reflexivity|].
    exists f. split; [assumption|]. split; [assumption|].
    unfold emitted_path. rewrite Hfull. reflexivity.
Qed.

Lemma trailing_separator_cuts_relative_paths_witness :
  In "b/f.txt"
     (Crawler.filter Cases.fs_trailing Cases.trailing_request
                     Cases.lets_all_through []).
Proof.
  apply (trailing_separator_cuts_relative_paths Cases.fs_trailing
           Cases.trailing_request Cases.lets_all_through "r"
           (Dir [("ab", Dir [] ["f.txt"])] []) (Dir [] ["f.txt"])
           "ab" "f.txt");
    try reflexivity; simpl; auto.
Defined.

(** ** The walk of the single-module [DirPaths] *)

Lemma walk_entry_files_app (e : walk_entry) (filepaths : list Walk.item) :
  Walk.walk_entry_files filepaths e = filepaths ++ entry_files e.
Proof.
  unfold Walk.walk_entry_files, entry_files. revert filepaths.
  induction (filenames e) as [|f fs IH]; intros filepaths.
  - simpl. rewrite app_nil_r. reflexivity.
  - cbn [fold_left List.filter]. rewrite IH.
    destruct (negb (Py.startswith "." f)); [|reflexivity].
    cbn [map]. rewrite <- app_assoc. reflexivity.
Qed.

Lemma walked_files_app (entries : list walk_entry)
      (filepaths : list Walk.item) :
  fold_left Walk.walk_entry_files entries filepaths
  = filepaths ++ flat_map entry_files entries.
Proof.
  revert filepaths. induction entries as [|e entries IH]; intros filepaths.
  - simpl. rewrite app_nil_r. reflexivity.
  - cbn [fold_left flat_map]. rewrite IH, walk_entry_files_app.
    rewrite <- app_assoc. reflexivity.
Qed.

Lemma get_filepaths_unfiltered (cwd : string) (self : Walk.DirPaths)
      (filepaths : list Walk.item) :
  truthy (Walk.to_include self) = false ->
  truthy (Walk.to_exclude self) = false ->
  Walk.full_paths self = false ->
  Walk._get_filepaths cwd self filepaths = filepaths.
Proof.
  intros Hinc Hexc Hfull. unfold Walk._get_filepaths.
  rewrite Hinc, Hexc, Hfull. reflexivity.
Qed.

(** The final component of [os.path.join(root, filename)], as
    [_get_filepaths] reads it, is the file name. *)
Lemma basename_Path_joined (dp f : string) :
  valid_name f = true ->
  Py.startswith "." f = false ->
  Walk.basename_Path (Walk.Str (Py.join dp f)) = f.
Proof.
  intros Hvalid Hdot.
  pose proof (not_hidden_path_part f Hvalid Hdot) as Hpart.
  destruct (join_name dp f Hvalid) as (z & Hz & Hjoin).
  destruct (Path_str_name z f Hz Hpart) as (z1 & Hz1 & Hstr).
  unfold Walk.basename_Path, Walk.Path_of. rewrite Hjoin, Hstr.
  apply basename_app_name; [assumption|].
  apply valid_name_no_sep. assumption.
Qed.

(** X5.  The walk of [dirutility/walk.py] returns exactly the files of the
    tree whose own name does not begin with a dot and passes the include and
    exclude terms: the name of a directory on the way plays no part, so the
    files of a hidden directory are returned and a term never matches a
    directory name. *)
Theorem walk_keeps_files_by_their_own_name :
  forall (fs : filesystem) (cwd : string) (self : Walk.DirPaths) (d : dir)
         (y : Walk.item),
    fs (Walk.directory self) = Some d ->
    wf_dir d = true ->
    (In y (Walk.walk fs cwd self)
     <-> exists e f,
        In e (walk_dir (Walk.topdown self) (Walk.directory self) d)
        /\ In f (filenames e)
        /\ Py.startswith "." f = false
        /\ spec_accepts (terms_of (Walk.to_include self))
                        (terms_of (Walk.to_exclude self)) f = true
        /\ y = if Walk.full_paths self
               then Walk.PathObj
                      (Py.Path_absolute cwd
                         (Py.Path_str (Py.join (dirpath e) f)))
               else Walk.Str (Py.join (dirpath e) f)).
Proof.
  intros fs cwd self d y Hfs Hwf. unfold Walk.walk, Walk.walk_from.
  rewrite in_get_filepaths.
  rewrite (os_walk_found fs _ (Walk.topdown self) d Hfs).
  assert (Hname : forall e f,
             In e (walk_dir (Walk.topdown self) (Walk.directory self) d) ->
             In f (filenames e) -> valid_name f = true).
  { intros e f He Hf.
    pose proof (walk_dir_valid_filenames _ _ _ _ Hwf He) as Hall.
    rewrite forallb_forall in Hall. apply Hall. assumption. }
  split.
  - intros (x & Hx & Hacc & ->). apply in_walked_files in Hx.
    destruct Hx as [[]|(e & f & He & Hf & Hdot & ->)].
    exists e, f. repeat split; try assumption.
    rewrite basename_Path_joined in Hacc by eauto. assumption.
  - intros (e & f & He & Hf & Hdot & Hacc & ->).
    exists (Walk.Str (Py.join (dirpath e) f)). split; [|split].
    + apply in_walked_files. right. exists e, f. auto.
    + rewrite basename_Path_joined by eauto. assumption.
    + reflexivity.
Qed.

Lemma walk_keeps_files_by_their_own_name_witness :
  In (Walk.Str "r/.git/config")
     (Walk.walk Sample.fs_hidden "/home/u" Sample.plain_request)
  <-> exists e f,
     In e (walk_dir true "r" Sample.with_hidden)
     /\ In f (filenames e)
     /\ Py.startswith "." f = false
     /\ spec_accepts [] [] f = true
     /\ Walk.Str "r/.git/config" = Walk.Str (Py.join (dirpath e) f).
Proof.
  apply (walk_keeps_files_by_their_own_name Sample.fs_hidden "/home/u"
           Sample.plain_request Sample.with_hidden
           (Walk.Str "r/.git/config"));
    reflexivity.
Defined.

(** X6.  The [topdown] flag of the single-module [DirPaths] does not change
    which paths [walk] returns. *)
Theorem walk_topdown_same_paths :
  forall (fs : filesystem) (cwd directory : string)
         (full_paths topdown : bool)
         (to_include to_exclude : option (list string)) (y : Walk.item),
    In y (Walk.walk fs cwd {| Walk.directory := directory;
                              Walk.full_paths := full_paths;
                              Walk.topdown := topdown;
                              Walk.to_include := to_include;
                              Walk.to_exclude := to_exclude |})
    <-> In y (Walk.walk fs cwd {| Walk.directory := directory;
                                  Walk.full_paths := full_paths;
                                  Walk.topdown := true;
                                  Walk.to_include := to_include;
                                  Walk.to_exclude := to_exclude |}).
Proof.
  intros fs cwd directory full_paths topdown to_include to_exclude y.
  unfold Walk.walk, Walk.walk_from. rewrite !in_get_filepaths.
  cbn [Walk.directory Walk.topdown Walk.to_include Walk.to_exclude
       Walk.full_paths].
  pose proof (os_walk_bottom_up fs directory topdown) as Hperm.
  split; intros (x & Hx & Hrest); exists x; (split; [|exact Hrest]);
    apply in_walked_files; apply in_walked_files in Hx;
    destruct Hx as [[]|(e & f & He & Hf)]; right; exists e, f;
    (split; [|exact Hf]).
  - apply (Permutation_in _ Hperm). assumption.
  - apply (Permutation_in _ (Permutation_sym Hperm)). assumption.
Qed.

(** X7.  Reading the property [walk] a second time walks the tree again and
    appends to the paths already there.  With relative paths the second
    result holds the same paths as the first; without include and exclude
    terms it is the first result twice over. *)
Theorem walk_read_twice :
  forall (fs : filesystem) (cwd : string) (self : Walk.DirPaths),
    Walk.full_paths self = false ->
    (forall y,
        In y (Walk.walk_from fs cwd self (Walk.walk fs cwd self))
        <-> In y (Walk.walk fs cwd self))
    /\ (truthy (Walk.to_include self) = false ->
        truthy (Walk.to_exclude self) = false ->
        Walk.walk_from fs cwd self (Walk.walk fs cwd self)
        = Walk.walk fs cwd self ++ Walk.walk fs cwd self).
Proof.
  intros fs cwd self Hfull. split.
  - intros y. unfold Walk.walk. unfold Walk.walk_from at 1 3.
    rewrite !in_get_filepaths. rewrite Hfull. split.
    + intros (x & Hx & Hacc & ->). apply in_walked_files in Hx.
      destruct Hx as [Hx|Hx].
      * unfold Walk.walk_from in Hx. apply in_get_filepaths in Hx.
        rewrite Hfull in Hx. destruct Hx as (x' & Hx' & _ & ->).
        exists x'. auto.
      * exists x. split; [|auto]. apply in_walked_files. right. assumption.
    + intros (x & Hx & Hacc & ->). exists x. split; [|auto].
      apply in_walked_files. apply in_walked_files in Hx.
      destruct Hx as [[]|Hx]. right. assumption.
  - intros Hinc Hexc. unfold Walk.walk, Walk.walk_from.
    rewrite !get_filepaths_unfiltered by assumption.
    rewrite !walked_files_app. reflexivity.
Qed.

Lemma walk_read_twice_witness :
  (forall y,
      In y (Walk.walk_from Sample.fs_hidden "/home/u" Sample.plain_request
              [Walk.Str "r/main.py"; Walk.Str "r/.git/config"])
      <-> In y [Walk.Str "r/main.py"; Walk.Str "r/.git/config"])
  /\ (truthy (@None (list string)) = false ->
      truthy (@None (list string)) = false ->
      Walk.walk_from Sample.fs_hidden "/home/u" Sample.plain_request
        [Walk.Str "r/main.py"; Walk.Str "r/.git/config"]
      = [Walk.Str "r/main.py"; Walk.Str "r/.git/config";
         Walk.Str "r/main.py"; Walk.Str "r/.git/config"]).
Proof.
  apply (walk_read_twice Sample.fs_hidden "/home/u" Sample.plain_request).
  reflexivity.
Defined.

(** *** The paths of a walk are distinct *)

Section FilePaths.

Variable r : string.
Hypothesis r_not_empty : r <> ""%string.
Hypothesis r_no_trailing_sep : Py.endswith_sep r = false.

(** The entries of the walk of a directory below [r], by path and file
    names, are those of the walk by names. *)
Lemma walk_dir_paths (d : dir) :
  forall segs,
    wf_dir d = true ->
    Forall (fun n => valid_name n = true) segs ->
    map (fun e => (dirpath e, filenames e))
        (walk_dir true (path_at r segs) d)
    = map (fun sf => (path_at r (fst sf), snd sf)) (seg_walk segs d).
Proof.
  induction d as [ds fs IH] using dir_induction. intros segs Hwf Hsegs.
  apply wf_dir_unfold in Hwf. destruct Hwf as (_ & Hds & _ & Hsub).
  rewrite walk_dir_unfold, seg_walk_unfold. cbv zeta. cbn [map].
  cbn [dirpath filenames fst snd]. f_equal.
  rewrite !map_flat_map. rewrite forallb_forall in Hds.
  rewrite Forall_forall in IH, Hsub.
  induction ds as [|[n child] ds IHds]; [reflexivity|].
  cbn [flat_map fst snd]. f_equal.
  - assert (Hn : valid_name n = true)
      by (apply Hds; left; reflexivity).
    rewrite (path_at_join r r_not_empty r_no_trailing_sep) by assumption.
    apply (IH (n, child)); [left; reflexivity| |].
    + apply (Hsub (n, child)). left. reflexivity.
    + apply Forall_app. split; [assumption|]. constructor; [assumption|].
      constructor.
  - apply IHds.
    + intros x Hx. apply IH. right. assumption.
    + intros x Hx. apply Hds. right. assumption.
    + intros x Hx. apply Hsub. right. assumption.
Qed.

Lemma path_at_injective (s1 s2 : list string) :
  Forall (fun n => valid_name n = true) s1 ->
  Forall (fun n => valid_name n = true) s2 ->
  path_at r s1 = path_at r s2 ->
  s1 = s2.
Proof.
  intros H1 H2 Heq.
  assert (Hlonger : forall x s,
             r <> path_at r (x :: s)).
  { intros x s Habs. apply (f_equal String.length) in Habs.
    unfold path_at in Habs. rewrite str_length_app in Habs.
    simpl in Habs. lia. }
  destruct s1 as [|x1 s1], s2 as [|x2 s2].
  - reflexivity.
  - exfalso. apply (Hlonger x2 s2). exact Heq.
  - exfalso. apply (Hlonger x1 s1). symmetry. exact Heq.
  - unfold path_at in Heq. apply str_app_inv_head in Heq.
    apply str_app_inv_head in Heq. apply concat_injective; assumption.
Qed.

(** The names of the non-hidden files of one directory of the tree. *)
Lemma entry_files_by_names (sf : list string * list string) :
  Forall (fun n => valid_name n = true) (fst sf) ->
  Forall (fun n => valid_name n = true) (snd sf) ->
  map (fun f => Walk.Str (Py.join (path_at r (fst sf)) f))
      (List.filter (fun f => negb (Py.startswith "." f)) (snd sf))
  = map (fun s => Walk.Str (path_at r s))
        (map (fun f => fst sf ++ [f])
             (List.filter (fun f => negb (Py.startswith "." f)) (snd sf))).
Proof.
  intros Hs Hf. rewrite map_map. apply map_ext_in. intros f Hin.
  apply filter_In in Hin. destruct Hin as [Hin _].
  rewrite Forall_forall in Hf.
  rewrite (path_at_join r r_not_empty r_no_trailing_sep) by auto.
  reflexivity.
Qed.

Lemma walked_files_NoDup (d : dir) :
  wf_dir d = true ->
  NoDup (flat_map entry_files (walk_dir true r d)).
Proof.
  intros Hwf.
  change (flat_map entry_files (walk_dir true r d))
    with (flat_map
            (fun e =>
               (fun pf =>
                  map (fun f => Walk.Str (Py.join (fst pf) f))
                      (List.filter (fun f => negb (Py.startswith "." f))
                                   (snd pf)))
                 (dirpath e, filenames e))
            (walk_dir true (path_at r []) d)).
  rewrite <- (flat_map_map
                (fun e => (dirpath e, filenames e))
                (fun pf =>
                   map (fun f => Walk.Str (Py.join (fst pf) f))
                       (List.filter (fun f => negb (Py.startswith "." f))
                                    (snd pf)))).
  rewrite (walk_dir_paths d [] Hwf (Forall_nil _)).
  rewrite flat_map_map. cbn [fst snd].
  rewrite (flat_map_ext_in
             (fun sf =>
                map (fun f => Walk.Str (Py.join (path_at r (fst sf)) f))
                    (List.filter (fun f => negb (Py.startswith "." f))
                                 (snd sf)))
             (fun sf =>
                map (fun s => Walk.Str (path_at r s))
                    (map (fun f => fst sf ++ [f])
                         (List.filter (fun f => negb (Py.startswith "." f))
                                      (snd sf))))).
  2:{ intros sf Hsf.
      destruct (seg_walk_valid d [] sf Hwf (Forall_nil _) Hsf) as [Hs Hf].
      apply entry_files_by_names; assumption. }
  rewrite <- map_flat_map.
  assert (Hsub : subseq
                   (flat_map
                      (fun sf =>
                         map (fun f => fst sf ++ [f])
                             (List.filter
                                (fun f => negb (Py.startswith "." f))
                                (snd sf)))
                      (seg_walk [] d))
                   (all_paths [] d)).
  { apply subseq_flat_map. intros sf _. unfold entry_paths.
    apply subseq_skip. apply subseq_map. apply subseq_filter. }
  apply NoDup_map_NoDup_ForallPairs.
  - intros x y Hx Hy Heq. injection Heq as Heq.
    apply (subseq_In _ _ x Hsub) in Hx. apply (subseq_In _ _ y Hsub) in Hy.
    apply in_flat_map in Hx. destruct Hx as (sx & Hsx & Hx).
    apply in_flat_map in Hy. destruct Hy as (sy & Hsy & Hy).
    destruct (seg_walk_valid d [] sx Hwf (Forall_nil _) Hsx) as [Hx1 Hx2].
    destruct (seg_walk_valid d [] sy Hwf (Forall_nil _) Hsy) as [Hy1 Hy2].
    apply (path_at_injective x y); [| |exact Heq].
    + apply (entry_paths_valid sx x Hx1 Hx2 Hx).
    + apply (entry_paths_valid sy y Hy1 Hy2 Hy).
  - apply (subseq_NoDup _ _ Hsub). apply all_paths_NoDup. assumption.
Qed.

End FilePaths.

(** X8.  Below a root given by a path that is not empty and does not end
    with the separator, the walk of [dirutility/walk.py] with relative paths
    returns no path twice, unless include terms are given without exclude
    terms: the paths [os.path.join] forms are distinct, and the set
    difference that applies the exclude terms drops repetitions. *)
Theorem walk_returns_each_path_once :
  forall (fs : filesystem) (cwd : string) (self : Walk.DirPaths),
    Walk.full_paths self = false ->
    Walk.directory self <> ""%string ->
    Py.endswith_sep (Walk.directory self) = false ->
    (forall d, fs (Walk.directory self) = Some d -> wf_dir d = true) ->
    truthy (Walk.to_include self) = false
    \/ truthy (Walk.to_exclude self) = true ->
    NoDup (Walk.walk fs cwd self).
Proof.
  intros fs cwd self Hfull Hr Hend Hwf Hterms.
  unfold Walk.walk, Walk.walk_from, Walk._get_filepaths. rewrite Hfull.
  destruct (truthy (Walk.to_exclude self)) eqn:Hexc.
  - apply NoDup_nodup.
  - destruct Hterms as [Hinc|Habs]; [|discriminate]. rewrite Hinc.
    rewrite walked_files_app. cbn [app].
    apply (Permutation_NoDup
             (l := flat_map entry_files
                            (os_walk fs (Walk.directory self) true))).
    + apply Permutation_flat_map. apply Permutation_sym.
      apply os_walk_bottom_up.
    + unfold os_walk.
      destruct (fs (Walk.directory self)) as [d|] eqn:Hfs;
        [|apply NoDup_nil].
      apply walked_files_NoDup; auto.
Qed.

Lemma walk_returns_each_path_once_witness :
  NoDup (Walk.walk Sample.fs_logs "/home/u" Sample.log_request).
Proof.
  apply (walk_returns_each_path_once Sample.fs_logs "/home/u"
           Sample.log_request).
  - reflexivity.
  - discriminate.
  - reflexivity.
  - intros d Hd. vm_compute in Hd. injection Hd as <-. reflexivity.
  - right. reflexivity.
Defined.

(** ** [files] and [folders]: the listings of the top level *)

Lemma kept_fold {A : Type} (keep : string -> bool) (g : string -> A)
      (names : list string) :
  forall acc,
    fold_left
      (fun acc path =>
         if keep path then
           if negb (Py.startswith "." path) then acc ++ [g path] else acc
         else acc)
      names acc
    = acc ++ map g (kept_names keep names).
Proof.
  unfold kept_names.
  induction names as [|n names IH]; intros acc.
  - simpl. rewrite app_nil_r. reflexivity.
  - cbn [fold_left List.filter]. rewrite IH.
    destruct (keep n); [|reflexivity].
    destruct (negb (Py.startswith "." n)); [|reflexivity].
    cbn [andb map]. rewrite <- app_assoc. reflexivity.
Qed.

Lemma kept_names_app (keep : string -> bool) (l1 l2 : list string) :
  kept_names keep (l1 ++ l2) = kept_names keep l1 ++ kept_names keep l2.
Proof. unfold kept_names. apply filter_app. Qed.

Lemma kept_names_none (keep : string -> bool) (l : list string) :
  (forall n, In n l -> keep n = false) -> kept_names keep l = [].
Proof.
  intros H. unfold kept_names. induction l as [|n l IH]; [reflexivity|].
  cbn [List.filter]. rewrite (H n) by (left; reflexivity). cbn [andb].
  apply IH. intros m Hm. apply H. right. assumption.
Qed.

Lemma kept_names_all (keep : string -> bool) (l : list string) :
  (forall n, In n l -> keep n = true) ->
  kept_names keep l = List.filter (fun n => negb (Py.startswith "." n)) l.
Proof.
  intros H. unfold kept_names. apply filter_ext_in. intros n Hn.
  rewrite (H n Hn). reflexivity.
Qed.

Lemma existsb_eqb_In (n : string) (l : list string) :
  existsb (String.eqb n) l = true <-> In n l.
Proof.
  rewrite existsb_exists. split.
  - intros (x & Hx & Heq). apply String.eqb_eq in Heq. subst. assumption.
  - intros H. exists n. split; [assumption|apply String.eqb_refl].
Qed.

Lemma distinct_apart (l1 l2 : list string) (n : string) :
  distinct (l1 ++ l2) = true -> In n l1 -> In n l2 -> False.
Proof.
  intros Hd H1 H2. apply distinct_NoDup in Hd.
  revert Hd H1. induction l1 as [|x l1 IH]; intros Hd H1; [destruct H1|].
  inversion Hd as [|? ? Hnot Hrest]; subst. destruct H1 as [->|H1].
  - apply Hnot. apply in_or_app. right. assumption.
  - apply IH; assumption.
Qed.

Section Tops.

Variable fs : filesystem.
Variable r : string.
Variable d : dir.
Hypothesis r_is_d : fs r = Some d.
Hypothesis names_apart : distinct (files d ++ map fst (subdirs d)) = true.

Lemma kept_files :
  kept_names (isfile_in fs r) (map fst (subdirs d) ++ files d)
  = top_files fs r.
Proof.
  unfold top_files. rewrite r_is_d. rewrite kept_names_app.
  rewrite kept_names_none, kept_names_all; [reflexivity| |].
  - intros n Hn. unfold isfile_in. rewrite r_is_d.
    apply existsb_eqb_In. assumption.
  - intros n Hn. unfold isfile_in. rewrite r_is_d.
    destruct (existsb (String.eqb n) (files d)) eqn:E; [|reflexivity].
    apply existsb_eqb_In in E. exfalso.
    apply (distinct_apart _ _ n names_apart); assumption.
Qed.

Lemma kept_folders :
  kept_names (isdir_in fs r) (map fst (subdirs d) ++ files d)
  = top_folders fs r.
Proof.
  unfold top_folders. rewrite r_is_d. rewrite kept_names_app.
  rewrite kept_names_all, (kept_names_none _ (files d));
    [apply app_nil_r| |].
  - intros n Hn. unfold isdir_in. rewrite r_is_d.
    destruct (existsb (String.eqb n) (map fst (subdirs d))) eqn:E;
      [|reflexivity].
    apply existsb_eqb_In in E. exfalso.
    apply (distinct_apart _ _ n names_apart); assumption.
  - intros n Hn. unfold isdir_in. rewrite r_is_d.
    apply existsb_eqb_In. assumption.
Qed.

End Tops.

Lemma files_in_found (fs : filesystem) (r : string)
      (filepaths : list Listing.item) :
  distinct_names fs r ->
  Listing.files_in fs filepaths r
  = Returns (filepaths ++ map (Listing.Pair r) (top_files fs r)).
Proof.
  intros (d & Hfs & Hd). unfold Listing.files_in, os_listdir. rewrite Hfs.
  rewrite (kept_fold (isfile_in fs r) (Listing.Pair r)).
  rewrite (kept_files fs r d Hfs Hd). reflexivity.
Qed.

Lemma folders_in_found (fs : filesystem) (r : string)
      (filepaths : list Listing.item) :
  distinct_names fs r ->
  Listing.folders_in fs filepaths r
  = Returns (filepaths ++ map (Listing.Pair r) (top_folders fs r)).
Proof.
  intros (d & Hfs & Hd). unfold Listing.folders_in, os_listdir. rewrite Hfs.
  rewrite (kept_fold (isdir_in fs r) (Listing.Pair r)).
  rewrite (kept_folders fs r d Hfs Hd). reflexivity.
Qed.

Lemma os_for_each_found {A S : Type} (body : list S -> A -> os_result (list S))
      (out : A -> list S) (l : list A) :
  (forall a acc, In a l -> body acc a = Returns (acc ++ out a)) ->
  forall acc, os_for_each body l acc = Returns (acc ++ flat_map out l).
Proof.
  induction l as [|a l IH]; intros H acc.
  - simpl. rewrite app_nil_r. reflexivity.
  - cbn [os_for_each flat_map]. rewrite (H a acc) by (left; reflexivity).
    rewrite IH by (intros b acc' Hb; apply H; right; assumption).
    rewrite <- app_assoc. reflexivity.
Qed.

(** X9.  [DirPaths.files] and [DirPaths.folders] append, for each root in
    turn, one pair [(root, name)] for every file, respectively every
    sub-directory, right under the root whose name does not begin with a
    dot, in listing order, to whatever [self.filepaths] holds, and return
    the whole list. *)
Theorem files_and_folders_list_the_top_level :
  forall (fs : filesystem) (self : DirPaths.t)
         (filepaths : list Listing.item),
    (forall r, In r (DirPaths.self_directory self) -> distinct_names fs r) ->
    Listing.files fs self filepaths
    = Returns
        (filepaths
         ++ flat_map (fun r => map (Listing.Pair r) (top_files fs r))
                     (DirPaths.self_directory self))
    /\ Listing.folders fs self filepaths
       = Returns
           (filepaths
            ++ flat_map (fun r => map (Listing.Pair r) (top_folders fs r))
                        (DirPaths.self_directory self)).
Proof.
  intros fs self filepaths Hroots. split.
  - unfold Listing.files. apply os_for_each_found.
    intros r acc Hr. apply files_in_found. apply Hroots. assumption.
  - unfold Listing.folders. apply os_for_each_found.
    intros r acc Hr. apply folders_in_found. apply Hroots. assumption.
Qed.

Lemma files_and_folders_list_the_top_level_witness :
  Listing.files Tops.fs_top Tops.on_r [Listing.Walked "r/main.py"]
  = Returns [Listing.Walked "r/main.py"; Listing.Pair "r" "main.py"]
  /\ Listing.folders Tops.fs_top Tops.on_r [Listing.Walked "r/main.py"]
     = Returns [Listing.Walked "r/main.py"; Listing.Pair "r" "src"].
Proof.
  apply (files_and_folders_list_the_top_level Tops.fs_top Tops.on_r
           [Listing.Walked "r/main.py"]).
  intros r [<-|[]]. eexists. split; reflexivity.
Defined.

Lemma files_in_missing (fs : filesystem) (r : string)
      (filepaths : list Listing.item) :
  Listing.files_in fs filepaths r = RaiseOSError <-> fs r = None.
Proof.
  unfold Listing.files_in, os_listdir.
  destruct (fs r); split; intros H; congruence.
Qed.

Lemma folders_in_missing (fs : filesystem) (r : string)
      (filepaths : list Listing.item) :
  Listing.folders_in fs filepaths r = RaiseOSError <-> fs r = None.
Proof.
  unfold Listing.folders_in, os_listdir.
  destruct (fs r); split; intros H; congruence.
Qed.

Lemma os_for_each_raises {A S : Type} (body : S -> A -> os_result S)
      (missing : A -> Prop) (l : list A) :
  (forall a acc, body acc a = RaiseOSError <-> missing a) ->
  forall acc,
    os_for_each body l acc = RaiseOSError <-> exists a, In a l /\ missing a.
Proof.
  intros H. induction l as [|a l IH]; intros acc.
  - simpl. split; [discriminate|intros (a & [] & _)].
  - cbn [os_for_each]. destruct (body acc a) as [acc'|] eqn:E.
    + rewrite IH. split.
      * intros (b & Hb & Hm). exists b. split; [right|]; assumption.
      * intros (b & [Heq|Hb] & Hm).
        -- subst b. apply (H a acc) in Hm. congruence.
        -- exists b. split; assumption.
    + split; [|reflexivity]. intros _. exists a.
      split; [left; reflexivity|]. apply (H a acc). assumption.
Qed.

(** X10.  [DirPaths.files] and [DirPaths.folders] raise [OSError] exactly
    when one of the roots is no directory: [os.listdir] raises where
    [os.walk] yields nothing, so a missing root that [walk] answers with an
    empty list makes these two fail. *)
Theorem files_and_folders_raise_on_a_missing_root :
  forall (fs : filesystem) (self : DirPaths.t)
         (filepaths : list Listing.item),
    (Listing.files fs self filepaths = RaiseOSError
     <-> exists r, In r (DirPaths.self_directory self) /\ fs r = None)
    /\ (Listing.folders fs self filepaths = RaiseOSError
        <-> exists r, In r (DirPaths.self_directory self) /\ fs r = None).
Proof.
  intros fs self filepaths. split.
  - unfold Listing.files.
    apply (os_for_each_raises (Listing.files_in fs) (fun r => fs r = None)).
    intros r acc. apply files_in_missing.
  - unfold Listing.folders.
    apply (os_for_each_raises (Listing.folders_in fs)
                              (fun r => fs r = None)).
    intros r acc. apply folders_in_missing.
Qed.

Lemma after_after {A : Type} (l n : list A) (r : os_result (list A)) :
  after l (after n r) = after (l ++ n) r.
Proof. destruct r as [m|]; simpl; [rewrite app_assoc|]; reflexivity. Qed.

Lemma os_for_each_after {A S : Type}
      (body : list S -> A -> os_result (list S)) (l : list A) :
  (forall acc a, body acc a = after acc (body [] a)) ->
  forall acc, os_for_each body l acc = after acc (os_for_each body l []).
Proof.
  intros H. induction l as [|a l IH]; intros acc.
  - simpl. rewrite app_nil_r. reflexivity.
  - cbn [os_for_each]. rewrite (H acc a).
    destruct (body [] a) as [n|]; [|reflexivity]. cbn [after].
    rewrite (IH (acc ++ n)), (IH n). rewrite after_after. reflexivity.
Qed.

(** X11.  [files] and [folders] never reset [self.filepaths]: what they
    return is what was there, followed by what they return on a fresh
    object.  Called after [walk] they return the walked paths with the
    pairs behind them; called twice they return every pair twice. *)
Theorem files_and_folders_keep_what_is_there :
  forall (fs : filesystem) (self : DirPaths.t)
         (filepaths : list Listing.item),
    Listing.files fs self filepaths
    = after filepaths (Listing.files fs self [])
    /\ Listing.folders fs self filepaths
       = after filepaths (Listing.folders fs self []).
Proof.
  intros fs self filepaths. split.
  - unfold Listing.files. apply os_for_each_after.
    intros acc r. unfold Listing.files_in.
    destruct (os_listdir fs r) as [names|]; [|reflexivity].
    rewrite !(kept_fold (isfile_in fs r) (Listing.Pair r)). reflexivity.
  - unfold Listing.folders. apply os_for_each_after.
    intros acc r. unfold Listing.folders_in.
    destruct (os_listdir fs r) as [names|]; [|reflexivity].
    rewrite !(kept_fold (isdir_in fs r) (Listing.Pair r)). reflexivity.
Qed.

Lemma join_onto_nothing (f : string) : Py.join "" f = f.
Proof. unfold Py.join. destruct (Py.startswith "/" f); reflexivity. Qed.

Lemma basename_Path_name (f : string) :
  valid_name f = true ->
  Py.startswith "." f = false ->
  Walk.basename_Path (Walk.Str f) = f.
Proof.
  intros Hvalid Hdot. rewrite <- (join_onto_nothing f) at 1.
  apply basename_Path_joined; assumption.
Qed.

Lemma in_top_files (fs : filesystem) (r : string) (d : dir) (f : string) :
  fs r = Some d ->
  (In f (top_files fs r)
   <-> In f (files d) /\ Py.startswith "." f = false).
Proof.
  intros Hfs. unfold top_files. rewrite Hfs. rewrite filter_In.
  rewrite negb_true_iff. reflexivity.
Qed.

Lemma in_top_folders (fs : filesystem) (r : string) (d : dir) (f : string) :
  fs r = Some d ->
  (In f (top_folders fs r)
   <-> In f (map fst (subdirs d)) /\ Py.startswith "." f = false).
Proof.
  intros Hfs. unfold top_folders. rewrite Hfs. rewrite filter_In.
  rewrite negb_true_iff. reflexivity.
Qed.

(** X12.  The properties [files] and [folders] of [dirutility/walk.py]
    return the names of the files, respectively of the sub-directories,
    right under the root that do not begin with a dot and pass the include
    and exclude terms: bare names, which [full_paths] makes absolute
    against the working directory and not against the root.  When the root
    is no directory they raise [OSError]. *)
Theorem old_files_and_folders_return_bare_names :
  forall (fs : filesystem) (cwd : string) (self : Walk.DirPaths),
    (forall d,
        fs (Walk.directory self) = Some d ->
        wf_dir d = true ->
        exists files folders,
          WalkListing.files fs cwd self [] = Returns files
          /\ WalkListing.folders fs cwd self [] = Returns folders
          /\ forall y,
              (In y files
               <-> exists f,
                  In f (top_files fs (Walk.directory self))
                  /\ spec_accepts (terms_of (Walk.to_include self))
                                  (terms_of (Walk.to_exclude self)) f = true
                  /\ y = if Walk.full_paths self
                         then Walk.PathObj
                                (Py.Path_absolute cwd (Py.Path_str f))
                         else Walk.Str f)
              /\ (In y folders
                  <-> exists f,
                     In f (top_folders fs (Walk.directory self))
                     /\ spec_accepts (terms_of (Walk.to_include self))
                                     (terms_of (Walk.to_exclude self)) f
                        = true
                     /\ y = if Walk.full_paths self
                            then Walk.PathObj
                                   (Py.Path_absolute cwd (Py.Path_str f))
                            else Walk.Str f))
    /\ (fs (Walk.directory self) = None ->
        WalkListing.files fs cwd self [] = RaiseOSError
        /\ WalkListing.folders fs cwd self [] = RaiseOSError).
Proof.
  intros fs cwd self. split.
  - intros [ds names] Hfs Hwf.
    apply wf_dir_unfold in Hwf. destruct Hwf as (Hnames & Hds & Hapart & _).
    rewrite forallb_forall in Hnames, Hds.
    unfold WalkListing.files, WalkListing.folders, os_listdir. rewrite Hfs.
    rewrite (kept_fold (isfile_in fs (Walk.directory self)) Walk.Str).
    rewrite (kept_fold (isdir_in fs (Walk.directory self)) Walk.Str).
    rewrite (kept_files fs _ (Dir ds names) Hfs Hapart).
    rewrite (kept_folders fs _ (Dir ds names) Hfs Hapart).
    cbn [app]. eexists. eexists. split; [reflexivity|].
    split; [reflexivity|]. intros y. split.
    + rewrite in_get_filepaths. split.
      * intros (x & Hx & Hacc & ->). apply in_map_iff in Hx.
        destruct Hx as (f & <- & Hf). exists f. split; [assumption|].
        pose proof Hf as Hf'.
        apply (in_top_files fs _ (Dir ds names) f Hfs) in Hf'.
        destruct Hf' as [Hin Hdot].
        rewrite basename_Path_name in Hacc by auto. split; [assumption|].
        reflexivity.
      * intros (f & Hf & Hacc & ->). exists (Walk.Str f).
        split; [apply in_map; assumption|].
        pose proof Hf as Hf'.
        apply (in_top_files fs _ (Dir ds names) f Hfs) in Hf'.
        destruct Hf' as [Hin Hdot].
        rewrite basename_Path_name by auto. split; [assumption|].
        reflexivity.
    + rewrite in_get_filepaths. split.
      * intros (x & Hx & Hacc & ->). apply in_map_iff in Hx.
        destruct Hx as (f & <- & Hf). exists f. split; [assumption|].
        pose proof Hf as Hf'.
        apply (in_top_folders fs _ (Dir ds names) f Hfs) in Hf'.
        destruct Hf' as [Hin Hdot].
        rewrite basename_Path_name in Hacc by auto. split; [assumption|].
        reflexivity.
      * intros (f & Hf & Hacc & ->). exists (Walk.Str f).
        split; [apply in_map; assumption|].
        pose proof Hf as Hf'.
        apply (in_top_folders fs _ (Dir ds names) f Hfs) in Hf'.
        destruct Hf' as [Hin Hdot].
        rewrite basename_Path_name by auto. split; [assumption|].
        reflexivity.
  - intros Hfs. unfold WalkListing.files, WalkListing.folders, os_listdir.
    rewrite Hfs. split; reflexivity.
Qed.

Lemma old_files_and_folders_return_bare_names_witness :
  exists files folders,
    WalkListing.files Tops.fs_top "/home/u" Tops.no_main [] = Returns files
    /\ WalkListing.folders Tops.fs_top "/home/u" Tops.no_main []
       = Returns folders
    /\ forall y,
        (In y files
         <-> exists f,
            In f (top_files Tops.fs_top (Walk.directory Tops.no_main))
            /\ spec_accepts (terms_of (Walk.to_include Tops.no_main))
                            (terms_of (Walk.to_exclude Tops.no_main)) f
               = true
            /\ y = if Walk.full_paths Tops.no_main
                   then Walk.PathObj
                          (Py.Path_absolute "/home/u" (Py.Path_str f))
                   else Walk.Str f)
        /\ (In y folders
            <-> exists f,
               In f (top_folders Tops.fs_top (Walk.directory Tops.no_main))
               /\ spec_accepts (terms_of (Walk.to_include Tops.no_main))
                               (terms_of (Walk.to_exclude Tops.no_main)) f
                  = true
               /\ y = if Walk.full_paths Tops.no_main
                      then Walk.PathObj
                             (Py.Path_absolute "/home/u" (Py.Path_str f))
                      else Walk.Str f).
Proof.
  apply (proj1 (old_files_and_folders_return_bare_names
                  Tops.fs_top "/home/u" Tops.no_main)
               (Dir [(".git", Dir [] ["config"]); ("src", Dir [] ["a.py"])]
                    [".env"; "main.py"]));
    reflexivity.
Defined.

(** ** The single-module [DirTree] *)

Lemma rstrip_sep_no_trailing (s : string) :
  Py.endswith_sep (rstrip_sep s) = false.
Proof.
  induction s as [|c s IH]; [reflexivity|]. cbn [rstrip_sep].
  destruct (rstrip_sep s) as [|c' r] eqn:E.
  - destruct (Py.is_sep c) eqn:Ec; [reflexivity|]. simpl. assumption.
  - exact IH.
Qed.

Lemma rstrip_sep_app_sep (s : string) :
  rstrip_sep (s ++ "/") = rstrip_sep s.
Proof.
  induction s as [|c s IH]; [reflexivity|].
  change ((String c s ++ "/")%string) with (String c (s ++ "/")%string).
  cbn [rstrip_sep]. rewrite IH. reflexivity.
Qed.

Lemma rstrip_sep_fixed (s : string) :
  Py.endswith_sep s = false -> rstrip_sep s = s.
Proof.
  induction s as [|c s IH]; intros Hend; [reflexivity|].
  cbn [rstrip_sep]. destruct s as [|c' s'].
  - simpl in Hend. simpl. rewrite Hend. reflexivity.
  - rewrite IH by exact Hend. reflexivity.
Qed.

Lemma basename_not_empty (t : string) :
  t <> ""%string -> Py.endswith_sep t = false -> Py.basename t <> ""%string.
Proof.
  intros Hne Hend Hbase.
  destruct (basename_decompose t) as (z & Hz & Heq & _).
  rewrite Hbase, str_app_nil_r in Heq. subst z.
  destruct Hz as [Hz|Hz]; congruence.
Qed.

(** X13.  The [DirTree] of [dirutility/walk.py] strips the trailing
    separators of its argument, so a root written with them is the same
    object; without branches its [get] returns a mapping with one key, the
    final component of the stripped path, that holds the mapping of the
    contents of the root.  An argument made of separators only, the root of
    the file system, is stripped to the empty path, which [os.walk] does not
    walk: [get] returns the empty mapping. *)
Theorem old_tree_strips_trailing_separators :
  forall (fs : filesystem) (directory : string)
         (b : option (list DirTree.branch)),
    DirTree.branches_truthy b = false ->
    WalkDirTree.init (directory ++ "/") b = WalkDirTree.init directory b
    /\ (forall d,
           rstrip_sep directory <> ""%string ->
           fs (rstrip_sep directory) = Some d ->
           wf_dir d = true ->
           exists h,
             WalkDirTree.get fs (fst (WalkDirTree.init directory b))
                             (snd (WalkDirTree.init directory b)) = Ok h
             /\ forall fuel,
                 height (DirTree.Node
                           [(Py.basename (rstrip_sep directory),
                             DirTree.tree_of d)]) <= fuel ->
                 DirTree.read fuel h (PRef 0)
                 = Some (DirTree.Node
                           [(Py.basename (rstrip_sep directory),
                             DirTree.tree_of d)]))
    /\ (rstrip_sep directory = ""%string ->
        fs ""%string = None ->
        WalkDirTree.get fs (fst (WalkDirTree.init directory b))
                        (snd (WalkDirTree.init directory b)) = Ok [[]]).
Proof.
  intros fs directory b Hb. split; [|split].
  - unfold WalkDirTree.init. rewrite rstrip_sep_app_sep. reflexivity.
  - intros d Hne Hfs Hwf.
    set (self := fst (WalkDirTree.init directory b)).
    destruct (get_named_root self d) as (h & Hrun & Hrep); auto.
    { apply basename_not_empty; [exact Hne|].
      apply rstrip_sep_no_trailing. }
    exists h. split.
    + unfold WalkDirTree.get. fold self.
      rewrite (os_walk_found fs (DirTree.directory self) true d Hfs).
      exact Hrun.
    + intros fuel Hfuel. eapply represents_read; eassumption.
  - intros Hempty Hfs. unfold WalkDirTree.get, WalkDirTree.init.
    cbn [fst snd DirTree.directory]. rewrite Hempty.
    rewrite os_walk_missing by assumption. reflexivity.
Qed.

Lemma old_tree_strips_trailing_separators_witness :
  exists h,
    WalkDirTree.get Sample.fs_x (fst (WalkDirTree.init "/home/u/x//" None))
                    (snd (WalkDirTree.init "/home/u/x//" None)) = Ok h
    /\ forall fuel,
        3 <= fuel ->
        DirTree.read fuel h (PRef 0)
        = Some (DirTree.Node
                  [("x", DirTree.Node
                           [("y.txt", DirTree.Leaf);
                            ("z", DirTree.Node [("w.txt", DirTree.Leaf)])])]).
Proof.
  apply (proj1 (proj2 (old_tree_strips_trailing_separators
                         Sample.fs_x "/home/u/x//" None eq_refl))
               Sample.x_tree);
    [discriminate|reflexivity|reflexivity].
Defined.

(** ** [DirTree] with branches *)

Lemma _filter_at_without_rule (self : DirTree.t) (folders : list string)
      (kind : string) (levels : list DirTree.branch) (j : nat) :
  DirTree.branches self = Some levels ->
  Forall (without_rule kind) levels ->
  j < List.length levels ->
  DirTree._filter_at self folders kind j = Ok None.
Proof.
  intros Hb Hall Hj. apply _filter_at_no_rule. rewrite Hb.
  destruct (nth_error levels j) as [level|] eqn:E.
  - rewrite Forall_forall in Hall.
    destruct (Hall level (nth_error_In _ _ E)) as (r & Hr & Hfalse).
    exists level, r. split; [|split; assumption].
    unfold DirTree.branches_getitem, DirTree.list_getitem. rewrite E.
    reflexivity.
  - apply nth_error_None in E. lia.
Qed.

Lemma _filter_at_beyond (self : DirTree.t) (folders : list string)
      (kind : string) (levels : list DirTree.branch) (j : nat) :
  DirTree.branches self = Some levels ->
  List.length levels <= j ->
  DirTree._filter_at self folders kind j = Raise IndexError.
Proof.
  intros Hb Hj. unfold DirTree._filter_at. rewrite Hb.
  unfold DirTree.branches_getitem, DirTree.list_getitem.
  apply nth_error_None in Hj. rewrite Hj. reflexivity.
Qed.

Lemma _filter_loop_without_rules (self : DirTree.t) (folders : list string)
      (kind : string) (levels : list DirTree.branch) :
  DirTree.branches self = Some levels ->
  Forall (without_rule kind) levels ->
  forall k i,
    DirTree._filter_loop self folders kind (seq i k)
    = if ((k =? 0) || (i + k <=? List.length levels))%nat
      then Ok true else Raise IndexError.
Proof.
  intros Hb Hall. induction k as [|k IH]; intros i; [reflexivity|].
  cbn [seq DirTree._filter_loop].
  destruct (Nat.lt_ge_cases i (List.length levels)) as [Hlt|Hge].
  - rewrite (_filter_at_without_rule self folders kind levels i Hb Hall Hlt).
    cbn [bind]. rewrite IH. cbn [Nat.eqb orb].
    replace (i + S k) with (S i + k) by lia.
    destruct k as [|k]; [|reflexivity]. cbn [Nat.eqb orb].
    replace (S i + 0 <=? List.length levels)%nat with true; [reflexivity|].
    symmetry. apply Nat.leb_le. lia.
  - rewrite (_filter_at_beyond self folders kind levels i Hb Hge).
    cbn [bind Nat.eqb orb].
    replace (i + S k <=? List.length levels)%nat with false; [reflexivity|].
    symmetry. apply Nat.leb_gt. lia.
Qed.

Lemma _filter_without_rules (self : DirTree.t) (folders : list string)
      (kind : string) (levels : list DirTree.branch) :
  DirTree.branches self = Some levels ->
  Forall (without_rule kind) levels ->
  DirTree._filter self folders kind
  = if (List.length folders <=? List.length levels)%nat
    then Ok true else Raise IndexError.
Proof.
  intros Hb Hall. unfold DirTree._filter.
  rewrite (_filter_loop_without_rules self folders kind levels Hb Hall).
  cbn [Nat.add]. destruct (List.length folders) as [|k]; reflexivity.
Qed.

(** X14.  When no level of [branches] holds a rule under the kind asked
    for, [_filter] accepts a directory whose path has no more folders than
    [branches] has levels, and raises [IndexError] for a deeper one: it
    reads one level of [branches] for each folder of the path. *)
Theorem filter_without_rules :
  forall (self : DirTree.t) (folders : list string) (kind : string)
         (levels : list DirTree.branch),
    DirTree.branches self = Some levels ->
    Forall (without_rule kind) levels ->
    DirTree._filter self folders kind
    = if (List.length folders <=? List.length levels)%nat
      then Ok true else Raise IndexError.
Proof.
  intros self folders kind levels Hb Hall.
  apply _filter_without_rules; assumption.
Qed.

Lemma filter_without_rules_witness :
  DirTree._filter Levels.one_level ["x"; "z"] "folders" = Raise IndexError.
Proof.
  apply (filter_without_rules Levels.one_level ["x"; "z"] "folders"
           [Levels.no_rules]).
  - reflexivity.
  - constructor; [|constructor]. exists None. split; reflexivity.
Defined.

Lemma for_each_ext_in {A S : Type} (body1 body2 : S -> A -> result S)
      (l : list A) :
  (forall a s, In a l -> body1 s a = body2 s a) ->
  forall s, for_each body1 l s = for_each body2 l s.
Proof.
  induction l as [|a l IH]; intros H s; [reflexivity|].
  cbn [for_each]. rewrite (H a s) by (left; reflexivity).
  destruct (body2 s a) as [s'|e]; [|reflexivity]. cbn [bind].
  apply IH. intros b s0 Hb. apply H. right. assumption.
Qed.

(** Where the second loop completes, the first one raises at the first
    item it does not treat alike. *)
Lemma for_each_first_bad {A S : Type} (body1 body2 : S -> A -> result S)
      (bad : A -> bool) (e0 : pyerr) (l : list A) :
  (forall a s, bad a = false -> body1 s a = body2 s a) ->
  (forall a s, bad a = true -> body1 s a = Raise e0) ->
  forall s h,
    for_each body2 l s = Ok h ->
    for_each body1 l s = if existsb bad l then Raise e0 else Ok h.
Proof.
  intros Hgood Hbad. induction l as [|a l IH]; intros s h Hrun.
  - simpl in *. assumption.
  - cbn [for_each existsb] in *. destruct (bad a) eqn:Ea.
    + rewrite (Hbad a s Ea). reflexivity.
    + rewrite (Hgood a s Ea). destruct (body2 s a) as [s'|e];
        [|discriminate]. cbn [bind orb] in *. apply IH. assumption.
Qed.

Lemma insert_with_branches (self : DirTree.t)
      (b : option (list DirTree.branch)) (h : heap) (folders : list string)
      (names : list string) :
  DirTree.insert (with_branches self b) h folders names
  = DirTree.insert self h folders names.
Proof. reflexivity. Qed.

(** With branches that hold no rule for folders, [get] treats a directory
    as it does without branches, unless the directory lies too deep. *)
Lemma get_entry_without_rules (self : DirTree.t)
      (levels : list DirTree.branch) (h : heap) (e : walk_entry) :
  Forall (without_rule "folders") levels ->
  DirTree.get_entry (with_branches self (Some levels)) h e
  = if too_deep (DirTree.start self) levels e
       && negb (is_empty levels)
    then Raise IndexError
    else DirTree.get_entry (with_branches self None) h e.
Proof.
  intros Hall. unfold DirTree.get_entry, too_deep.
  cbn [with_branches DirTree.start DirTree.branches DirTree.branches_truthy
       truthy].
  destruct levels as [|level levels'].
  - cbn [is_empty negb]. rewrite andb_false_r. reflexivity.
  - cbn [is_empty negb]. rewrite andb_true_r.
    rewrite (_filter_without_rules
               (with_branches self (Some (level :: levels')))
               (Py.split_sep
                  (Py.slice_from (DirTree.start self) (dirpath e)))
               "folders" (level :: levels') eq_refl Hall).
    rewrite Nat.ltb_antisym.
    destruct (_ <=? _)%nat; reflexivity.
Qed.

Lemma length_split_sep (s : string) :
  List.length (Py.split_sep s) = S (count_sep s).
Proof.
  induction s as [|c s IH]; [reflexivity|]. cbn [Py.split_sep count_sep].
  destruct (Py.is_sep c).
  - cbn [List.length]. rewrite IH. reflexivity.
  - pose proof (split_sep_not_nil s) as Hne.
    destruct (Py.split_sep s) as [|x l]; [congruence|].
    cbn [List.length] in *. rewrite IH. reflexivity.
Qed.

Lemma count_sep_app (a b : string) :
  count_sep (a ++ b) = count_sep a + count_sep b.
Proof.
  induction a as [|c a IH]; [reflexivity|].
  change ((String c a ++ b)%string) with (String c (a ++ b)%string).
  cbn [count_sep]. rewrite IH. lia.
Qed.

Lemma count_sep_no_sep (n : string) :
  Py.no_sep n = true -> count_sep n = 0.
Proof.
  induction n as [|c n IH]; intros H; [reflexivity|].
  cbn [Py.no_sep count_sep] in *. apply andb_prop in H.
  destruct H as [Hc Hn]. destruct (Py.is_sep c); [discriminate|].
  rewrite IH by assumption. reflexivity.
Qed.

Lemma join_valid (p n : string) :
  valid_name n = true ->
  Py.join p n = (p ++ n)%string \/ Py.join p n = (p ++ String Py.sep n)%string.
Proof.
  intros Hn. unfold Py.join. rewrite (valid_name_not_absolute n Hn).
  destruct ((String.length p =? 0)%nat || Py.endswith_sep p);
    [left|right]; reflexivity.
Qed.

Lemma depth_cons (n : string) (c : dir) (ds : list (string * dir))
      (fs : list string) :
  depth (Dir ((n, c) :: ds) fs) = Nat.max (S (depth c)) (depth (Dir ds fs)).
Proof. reflexivity. Qed.

Lemma depth_child (ds : list (string * dir)) (fs : list string) (n : string)
      (c : dir) :
  In (n, c) ds -> S (depth c) <= depth (Dir ds fs).
Proof.
  induction ds as [|[m c'] ds IH]; intros Hin; [destruct Hin|].
  rewrite depth_cons. destruct Hin as [Heq|Hin].
  - injection Heq as -> ->. lia.
  - specialize (IH Hin). lia.
Qed.

Lemma depth_attained (ds : list (string * dir)) (fs : list string) :
  ds <> [] ->
  exists n c, In (n, c) ds /\ depth (Dir ds fs) = S (depth c).
Proof.
  induction ds as [|[m c'] ds IH]; intros Hne; [congruence|].
  rewrite depth_cons. destruct ds as [|nd ds'].
  - exists m, c'. split; [left; reflexivity|].
    change (depth (Dir [] fs)) with 0. lia.
  - destruct (IH ltac:(discriminate)) as (n & c & Hin & Hd).
    destruct (Nat.max_spec (S (depth c')) (depth (Dir (nd :: ds') fs)))
      as [[_ Hmax]|[_ Hmax]]; rewrite Hmax.
    + exists n, c. split; [right; assumption|assumption].
    + exists m, c'. split; [left; reflexivity|reflexivity].
Qed.

(** No walked directory has more folders in its path, past those of the
    root, than the tree is deep. *)
Lemma walk_dir_depth_bound (start : nat) (topdown : bool) (d : dir) :
  forall (p : string) (e : walk_entry),
    wf_dir d = true ->
    start <= String.length p ->
    In e (walk_dir topdown p d) ->
    count_sep (Py.slice_from start (dirpath e))
    <= count_sep (Py.slice_from start p) + depth d.
Proof.
  induction d as [ds fs IH] using dir_induction. intros p e Hwf Hstart He.
  apply wf_dir_unfold in Hwf. destruct Hwf as (_ & Hds & _ & Hsub).
  rewrite forallb_forall in Hds. rewrite Forall_forall in IH, Hsub.
  apply in_walk_dir in He. destruct He as [->|([n c] & Hin & He)].
  - cbn [dirpath]. lia.
  - cbn [fst snd] in He.
    assert (Hn : valid_name n = true).
    { apply Hds. apply in_map_iff. exists (n, c). auto. }
    pose proof (depth_child ds fs n c Hin) as Hdepth.
    assert (Hjoin : start <= String.length (Py.join p n)
                    /\ count_sep (Py.slice_from start (Py.join p n))
                       <= S (count_sep (Py.slice_from start p))).
    { pose proof (count_sep_no_sep n (valid_name_no_sep n Hn)) as Hzero.
      destruct (join_valid p n Hn) as [-> | ->].
      - rewrite str_length_app. split; [lia|].
        rewrite slice_from_app_le by assumption.
        rewrite count_sep_app. lia.
      - rewrite str_length_app. split; [lia|].
        rewrite slice_from_app_le by assumption.
        rewrite count_sep_app. cbn [count_sep].
        change (Py.is_sep Py.sep) with true. cbv iota. lia. }
    destruct Hjoin as [Hlen Hcount].
    specialize (IH (n, c) Hin (Py.join p n) e (Hsub (n, c) Hin) Hlen He).
    cbn [snd] in IH. lia.
Qed.

Lemma basename_is_slice (top : string) :
  Py.rfind_sep_plus1 top <= String.length top
  /\ count_sep (Py.slice_from (Py.rfind_sep_plus1 top) top) = 0.
Proof.
  destruct (basename_decompose top) as (z & _ & Heq & Hlen & Hno).
  split.
  - rewrite Hlen. apply (f_equal String.length) in Heq.
    rewrite str_length_app in Heq. lia.
  - apply count_sep_no_sep. exact Hno.
Qed.

Lemma no_entry_too_deep (top : string) (d : dir)
      (levels : list DirTree.branch) (e : walk_entry) :
  wf_dir d = true ->
  depth d < List.length levels ->
  In e (walk_dir true top d) ->
  too_deep (Py.rfind_sep_plus1 top) levels e = false.
Proof.
  intros Hwf Hdepth He. unfold too_deep. apply Nat.ltb_ge.
  rewrite length_split_sep.
  destruct (basename_is_slice top) as [Hstart Hzero].
  pose proof (walk_dir_depth_bound (Py.rfind_sep_plus1 top) true d top e
                Hwf Hstart He) as Hbound.
  lia.
Qed.

Lemma heap_of_init (fs : filesystem) (root : string)
      (b : option (list DirTree.branch)) :
  heap_of (DirTree.init fs root b)
  = DirTree.get fs
      {| DirTree.tree_dict := PRef 0;
         DirTree.directory := Py.Path_str root;
         DirTree.start := Py.rfind_sep_plus1 (Py.Path_str root);
         DirTree.branches := b |} [[]].
Proof.
  unfold DirTree.init. cbv zeta.
  destruct (DirTree.get fs _ [[]]) as [h|e]; reflexivity.
Qed.

(** X15.  Branches that hold no rule for folders, and have more levels
    than the tree is deep, change nothing: [DirTree] builds what it builds
    without branches. *)
Theorem branches_without_rules_change_nothing :
  forall (fs : filesystem) (root : string) (levels : list DirTree.branch)
         (d : dir),
    fs (Py.Path_str root) = Some d ->
    wf_dir d = true ->
    Forall (without_rule "folders") levels ->
    depth d < List.length levels ->
    heap_of (DirTree.init fs root (Some levels))
    = heap_of (DirTree.init fs root None).
Proof.
  intros fs root levels d Hfs Hwf Hall Hdepth. rewrite !heap_of_init.
  unfold DirTree.get. cbn [DirTree.directory].
  rewrite (os_walk_found fs _ true d Hfs).
  apply for_each_ext_in. intros e h He.
  set (self := {| DirTree.tree_dict := PRef 0;
                  DirTree.directory := Py.Path_str root;
                  DirTree.start := Py.rfind_sep_plus1 (Py.Path_str root);
                  DirTree.branches := None |}).
  change (DirTree.get_entry (with_branches self (Some levels)) h e
          = DirTree.get_entry (with_branches self None) h e).
  rewrite (get_entry_without_rules self levels h e Hall).
  cbn [self DirTree.start].
  rewrite (no_entry_too_deep (Py.Path_str root) d levels e Hwf Hdepth He).
  reflexivity.
Qed.

Lemma branches_without_rules_change_nothing_witness :
  heap_of (DirTree.init Sample.fs_x "/home/u/x"
             (Some [Levels.no_rules; Levels.no_rules]))
  = heap_of (DirTree.init Sample.fs_x "/home/u/x" None).
Proof.
  apply (branches_without_rules_change_nothing Sample.fs_x "/home/u/x"
           [Levels.no_rules; Levels.no_rules] Sample.x_tree).
  - reflexivity.
  - reflexivity.
  - repeat constructor; exists None; split; reflexivity.
  - simpl. lia.
Defined.

(** Some walked directory lies as deep as the tree is. *)
Lemma deepest_entry (start : nat) (d : dir) :
  forall (p : string) (folders : list string),
    wf_dir d = true ->
    cut_into start p folders ->
    exists e folders',
      In e (walk_dir true p d)
      /\ cut_into start (dirpath e) folders'
      /\ List.length folders' = List.length folders + depth d.
Proof.
  induction d as [ds fs IH] using dir_induction. intros p folders Hwf Hcut.
  destruct ds as [|nd ds'].
  - exists (WalkEntry p [] fs), folders. split; [left; reflexivity|].
    split; [exact Hcut|]. change (depth (Dir [] fs)) with 0. lia.
  - destruct (depth_attained (nd :: ds') fs ltac:(discriminate))
      as (n & c & Hin & Hdepth).
    pose proof Hwf as Hwf'.
    apply wf_dir_unfold in Hwf'. destruct Hwf' as (_ & Hds & _ & Hsub).
    rewrite forallb_forall in Hds. rewrite Forall_forall in IH, Hsub.
    assert (Hn : valid_name n = true).
    { apply Hds. apply in_map_iff. exists (n, c). auto. }
    destruct (IH (n, c) Hin (Py.join p n) (folders ++ [n])
                 (Hsub (n, c) Hin)
                 (cut_into_join start p n folders Hcut Hn))
      as (e & folders' & He & Hcut' & Hlen).
    exists e, folders'. split; [|split].
    + apply in_walk_dir. right. exists (n, c). split; assumption.
    + exact Hcut'.
    + rewrite Hlen, Hdepth. rewrite length_app. cbn [List.length snd]. lia.
Qed.

(** X16.  Branches that hold no rule for folders, and have no more levels
    than the tree below a named root is deep, make the constructor of
    [DirTree] raise [IndexError]: [_filter] reads a level of [branches]
    for each folder of the path of a directory, the root included. *)
Theorem shallow_branches_raise :
  forall (fs : filesystem) (root : string) (levels : list DirTree.branch)
         (d : dir),
    fs (Py.Path_str root) = Some d ->
    wf_dir d = true ->
    Py.basename (Py.Path_str root) <> ""%string ->
    levels <> [] ->
    Forall (without_rule "folders") levels ->
    List.length levels <= depth d ->
    DirTree.init fs root (Some levels) = Raise IndexError.
Proof.
  intros fs root levels d Hfs Hwf Hname Hlevels Hall Hdepth.
  set (self := {| DirTree.tree_dict := PRef 0;
                  DirTree.directory := Py.Path_str root;
                  DirTree.start := Py.rfind_sep_plus1 (Py.Path_str root);
                  DirTree.branches := None |}).
  destruct (get_named_root self d) as (h & Hrun & _); auto.
  assert (Hget : DirTree.get fs (with_branches self (Some levels)) [[]]
                 = Raise IndexError).
  { unfold DirTree.get.
    cbn [with_branches self DirTree.directory].
    rewrite (os_walk_found fs _ true d Hfs).
    rewrite (for_each_first_bad
               (DirTree.get_entry (with_branches self (Some levels)))
               (DirTree.get_entry self)
               (too_deep (DirTree.start self) levels) IndexError
               (walk_dir true (Py.Path_str root) d)) with (h := h).
    - destruct (deepest_entry (DirTree.start self) d (Py.Path_str root)
                  [Py.basename (Py.Path_str root)] Hwf
                  (cut_into_root (Py.Path_str root) Hname))
        as (e & folders' & He & Hcut & Hlen).
      replace (existsb (too_deep (DirTree.start self) levels)
                       (walk_dir true (Py.Path_str root) d)) with true;
        [reflexivity|].
      symmetry. apply existsb_exists. exists e. split; [assumption|].
      unfold too_deep. apply Nat.ltb_lt.
      destruct Hcut as (_ & _ & _ & ->). rewrite Hlen.
      cbn [List.length]. lia.
    - intros e s Hgood.
      rewrite (get_entry_without_rules self levels s e Hall).
      rewrite Hgood. reflexivity.
    - intros e s Hbad.
      rewrite (get_entry_without_rules self levels s e Hall).
      rewrite Hbad. destruct levels; [congruence|reflexivity].
    - exact Hrun. }
  unfold DirTree.init. cbv zeta.
  change ({| DirTree.tree_dict := PRef 0;
             DirTree.directory := Py.Path_str root;
             DirTree.start := Py.rfind_sep_plus1 (Py.Path_str root);
             DirTree.branches := Some levels |})
    with (with_branches self (Some levels)).
  rewrite Hget. reflexivity.
Qed.

Lemma shallow_branches_raise_witness :
  DirTree.init Sample.fs_x "/home/u/x" (Some [Levels.no_rules])
  = Raise IndexError.
Proof.
  apply (shallow_branches_raise Sample.fs_x "/home/u/x" [Levels.no_rules]
           Sample.x_tree).
  - reflexivity.
  - reflexivity.
  - discriminate.
  - discriminate.
  - repeat constructor; exists None; split; reflexivity.
  - simpl. lia.
Defined.

Lemma nth_error_same_folders (b1 b2 : list DirTree.branch) :
  Forall2 same_folders_rule b1 b2 ->
  forall j,
    match nth_error b1 j, nth_error b2 j with
    | Some x, Some y => same_folders_rule x y
    | None, None => True
    | _, _ => False
    end.
Proof.
  induction 1 as [|x y l1 l2 Hxy Hrest IH]; intros j.
  - destruct j; exact I.
  - destruct j as [|j]; [exact Hxy|apply IH].
Qed.

Lemma _filter_at_same_folders (self : DirTree.t)
      (b1 b2 : list DirTree.branch) (folders : list string) :
  Forall2 same_folders_rule b1 b2 ->
  forall j,
    DirTree._filter_at (with_branches self (Some b1)) folders "folders" j
    = DirTree._filter_at (with_branches self (Some b2)) folders "folders" j.
Proof.
  intros Hsame j. unfold DirTree._filter_at.
  cbn [with_branches DirTree.branches DirTree.branches_getitem].
  unfold DirTree.list_getitem at 1 3.
  pose proof (nth_error_same_folders b1 b2 Hsame j) as Hj.
  destruct (nth_error b1 j) as [x|], (nth_error b2 j) as [y|];
    try contradiction; [|reflexivity].
  cbn [bind]. unfold same_folders_rule in Hj. rewrite Hj. reflexivity.
Qed.

Lemma _filter_same_folders (self : DirTree.t) (b1 b2 : list DirTree.branch)
      (folders : list string) :
  Forall2 same_folders_rule b1 b2 ->
  DirTree._filter (with_branches self (Some b1)) folders "folders"
  = DirTree._filter (with_branches self (Some b2)) folders "folders".
Proof.
  intros Hsame. unfold DirTree._filter.
  induction (seq 0 (List.length folders)) as [|i indices IH];
    [reflexivity|].
  cbn [DirTree._filter_loop].
  rewrite (_filter_at_same_folders self b1 b2 folders Hsame i).
  rewrite IH. reflexivity.
Qed.

(** X17.  Of [branches] the constructor of [DirTree] reads the entries
    under ['folders'] and nothing else: two lists of levels with the same
    rules for folders give the same outcome, so a rule under ['files'] is
    never applied. *)
Theorem only_folders_rules_are_read :
  forall (fs : filesystem) (root : string) (b1 b2 : list DirTree.branch),
    Forall2 same_folders_rule b1 b2 ->
    heap_of (DirTree.init fs root (Some b1))
    = heap_of (DirTree.init fs root (Some b2)).
Proof.
  intros fs root b1 b2 Hsame. rewrite !heap_of_init.
  unfold DirTree.get. cbn [DirTree.directory].
  apply for_each_ext_in. intros e h _.
  set (self := {| DirTree.tree_dict := PRef 0;
                  DirTree.directory := Py.Path_str root;
                  DirTree.start := Py.rfind_sep_plus1 (Py.Path_str root);
                  DirTree.branches := None |}).
  change (DirTree.get_entry (with_branches self (Some b1)) h e
          = DirTree.get_entry (with_branches self (Some b2)) h e).
  unfold DirTree.get_entry.
  cbn [with_branches DirTree.branches DirTree.start].
  rewrite (_filter_same_folders self b1 b2 _ Hsame).
  rewrite !insert_with_branches.
  destruct Hsame; reflexivity.
Qed.

Lemma only_folders_rules_are_read_witness :
  heap_of (DirTree.init Sample.fs_x "/home/u/x"
             (Some [Levels.files_rule; Levels.files_rule]))
  = heap_of (DirTree.init Sample.fs_x "/home/u/x"
               (Some [Levels.no_rules; Levels.no_rules])).
Proof.
  apply (only_folders_rules_are_read Sample.fs_x "/home/u/x"
           [Levels.files_rule; Levels.files_rule]
           [Levels.no_rules; Levels.no_rules]).
  repeat constructor.
Defined.

Lemma dict_getitem_missing {A : Type} (d : list (string * A)) (k : string) :
  ~ In k (map fst d) -> DirTree.dict_getitem d k = Raise KeyError.
Proof.
  induction d as [|[k' v] d IH]; intros Hnot; [reflexivity|].
  cbn [DirTree.dict_getitem]. destruct (String.eqb_spec k k') as [->|Hne].
  - exfalso. apply Hnot. left. reflexivity.
  - apply IH. intros Hin. apply Hnot. right. assumption.
Qed.

(** X18.  A first level of [branches] without the key ['folders'] makes
    the constructor of [DirTree] raise [KeyError] at the root, whenever the
    root is a directory: [_filter] subscripts the level before it looks at
    any rule. *)
Theorem level_without_folders_key_raises :
  forall (fs : filesystem) (root : string) (d : dir) (level : DirTree.branch)
         (levels : list DirTree.branch),
    fs (Py.Path_str root) = Some d ->
    ~ In "folders" (map fst level) ->
    DirTree.init fs root (Some (level :: levels)) = Raise KeyError.
Proof.
  intros fs root d level levels Hfs Hkey. unfold DirTree.init.
  match goal with
  | |- context [DirTree.get fs ?s ?h] =>
      destruct (DirTree_get_first_entry fs s d h Hfs) as [rest ->]
  end.
  unfold DirTree.get_entry at 1.
  cbn [DirTree.branches DirTree.start DirTree.directory dirpath
       DirTree.branches_truthy truthy].
  unfold DirTree._filter.
  pose proof (split_sep_not_nil
                (Py.slice_from (Py.rfind_sep_plus1 (Py.Path_str root))
                               (Py.Path_str root))) as Hne.
  destruct (Py.split_sep _) as [|x l]; [congruence|].
  cbn [List.length seq DirTree._filter_loop]. unfold DirTree._filter_at.
  cbn [DirTree.branches DirTree.branches_getitem DirTree.list_getitem
       nth_error bind].
  rewrite (dict_getitem_missing level "folders" Hkey). reflexivity.
Qed.

Lemma level_without_folders_key_raises_witness :
  DirTree.init Sample.fs_x "/home/u/x" (Some [[("files", None)]])
  = Raise KeyError.
Proof.
  apply (level_without_folders_key_raises Sample.fs_x "/home/u/x"
           Sample.x_tree [("files", None)] []).
  - reflexivity.
  - intros [H|[]]. discriminate.
Defined.

(** ** Include terms *)

Lemma matching_occurrences (terms : list string)
      (filepaths : list Walk.item) :
  Walk.matching terms filepaths
  = flat_map
      (fun path => repeat path (occurrences terms (Walk.basename_Path path)))
      filepaths.
Proof.
  unfold Walk.matching. apply flat_map_ext_in. intros path _.
  unfold occurrences. induction terms as [|term terms IH]; [reflexivity|].
  cbn [flat_map List.filter].
  destruct (Py.contains term (Walk.basename_Path path));
    cbn [List.length repeat app]; rewrite IH; reflexivity.
Qed.

(** X19.  With include terms and no exclude terms [_get_filepaths] keeps a
    path once for each include term that occurs in its final component: a
    path that matches two terms is returned twice, one that matches none is
    dropped. *)
Theorem include_terms_keep_a_path_once_each :
  forall (cwd : string) (self : Walk.DirPaths) (filepaths : list Walk.item),
    truthy (Walk.to_include self) = true ->
    truthy (Walk.to_exclude self) = false ->
    Walk.full_paths self = false ->
    Walk._get_filepaths cwd self filepaths
    = flat_map
        (fun path =>
           repeat path
                  (occurrences (terms_of (Walk.to_include self))
                               (Walk.basename_Path path)))
        filepaths.
Proof.
  intros cwd self filepaths Hinc Hexc Hfull. unfold Walk._get_filepaths.
  rewrite Hinc, Hexc, Hfull. apply matching_occurrences.
Qed.

Lemma include_terms_keep_a_path_once_each_witness :
  Walk._get_filepaths "/home/u" Sample.two_terms_request
    [Walk.Str "r/app.log"; Walk.Str "r/tmp.log"; Walk.Str "r/notes.txt"]
  = [Walk.Str "r/app.log"; Walk.Str "r/app.log"; Walk.Str "r/tmp.log"].
Proof.
  apply (include_terms_keep_a_path_once_each "/home/u"
           Sample.two_terms_request
           [Walk.Str "r/app.log"; Walk.Str "r/tmp.log";
            Walk.Str "r/notes.txt"]);
    reflexivity.
Defined.

(** ** Absolute paths *)

Lemma startswith_sep_inv (s : string) :
  Py.startswith "/" s = true -> exists s', s = String Py.sep s'.
Proof.
  destruct s as [|c s']; [discriminate|]. rewrite startswith_sep_cons.
  destruct (ascii_dec "/" c) as [Heq|]; [|discriminate].
  intros _. exists s'. rewrite <- Heq. reflexivity.
Qed.

Lemma Path_str_absolute (s : string) :
  Py.startswith "/" s = true -> Py.startswith "/" (Py.Path_str s) = true.
Proof.
  intros Habs. unfold Py.Path_str, Py.Path_root. rewrite Habs.
  destruct (Py.startswith "//" s && negb (Py.startswith "///" s)).
  - change ("//" ++ String.concat "/" (Py.Path_parts s))%string
      with (String Py.sep ("/" ++ String.concat "/" (Py.Path_parts s))).
    rewrite startswith_sep_cons. reflexivity.
  - change ("/" ++ String.concat "/" (Py.Path_parts s))%string
      with (String Py.sep (String.concat "/" (Py.Path_parts s))).
    rewrite startswith_sep_cons. reflexivity.
Qed.

Lemma Path_absolute_is_absolute (cwd s : string) :
  Py.startswith "/" cwd = true ->
  Py.is_absolute (Py.Path_absolute cwd s) = true.
Proof.
  intros Hcwd. unfold Py.Path_absolute. cbv zeta.
  destruct (Py.is_absolute (Py.Path_str s)) eqn:E; [exact E|].
  unfold Py.is_absolute. apply Path_str_absolute.
  unfold Py.join. unfold Py.is_absolute in E. rewrite E.
  destruct (startswith_sep_inv cwd Hcwd) as (rest & ->).
  destruct ((String.length (String Py.sep rest) =? 0)%nat
            || Py.endswith_sep (String Py.sep rest)).
  - change (String Py.sep rest ++ Py.Path_str s)%string
      with (String Py.sep (rest ++ Py.Path_str s)).
    rewrite startswith_sep_cons. reflexivity.
  - change (String Py.sep rest ++ "/" ++ Py.Path_str s)%string
      with (String Py.sep (rest ++ "/" ++ Py.Path_str s)).
    rewrite startswith_sep_cons. reflexivity.
Qed.

(** X20.  With [full_paths] every path that [_get_filepaths] of
    [dirutility/walk.py] returns, and so every path of [walk], [files] and
    [folders], is a [Path] object that is absolute, the working directory
    being given by an absolute path. *)
Theorem full_paths_are_absolute :
  forall (cwd : string) (self : Walk.DirPaths) (filepaths : list Walk.item)
         (y : Walk.item),
    Walk.full_paths self = true ->
    Py.startswith "/" cwd = true ->
    In y (Walk._get_filepaths cwd self filepaths) ->
    exists s, y = Walk.PathObj s /\ Py.is_absolute s = true.
Proof.
  intros cwd self filepaths y Hfull Hcwd Hy.
  apply in_get_filepaths in Hy. destruct Hy as (x & _ & _ & ->).
  rewrite Hfull. eexists. split; [reflexivity|].
  apply Path_absolute_is_absolute. assumption.
Qed.

Lemma full_paths_are_absolute_witness :
  exists s,
    Walk.PathObj "/home/u/r/app.log" = Walk.PathObj s
    /\ Py.is_absolute s = true.
Proof.
  apply (full_paths_are_absolute "/home/u"
           {| Walk.directory := "r";
              Walk.full_paths := true;
              Walk.topdown := true;
              Walk.to_include := None;
              Walk.to_exclude := None |}
           [Walk.Str "r/app.log"] (Walk.PathObj "/home/u/r/app.log")).
  - reflexivity.
  - reflexivity.
  - left. reflexivity.
Defined.

(** ** A list of roots *)

(** X21.  [DirPaths.files] and [DirPaths.folders] do not list the roots of
    a list passed as [directory]: the constructor keeps the [str] of the
    list as the one root, and [os.listdir] raises [OSError] on it, no
    directory bearing that name. *)
Theorem files_of_a_root_list_raise :
  forall (F : Type)
         (new_PathFilters :
            option (list string) -> option (list string) -> level -> level ->
            option (list F) -> bool -> PathFilters)
         (fs : filesystem) (a : DirPaths.args F) (roots : list string)
         (filepaths : list Listing.item),
    DirPaths.directory a = DirPaths.PathList roots ->
    fs (DirPaths.str_list roots) = None ->
    Listing.files fs (DirPaths.init new_PathFilters a) filepaths
    = RaiseOSError
    /\ Listing.folders fs (DirPaths.init new_PathFilters a) filepaths
       = RaiseOSError.
Proof.
  intros F npf fs a roots filepaths Hdir Hfs.
  unfold Listing.files, Listing.folders. rewrite init_directory.
  rewrite Hdir. cbn [DirPaths.py_str os_for_each].
  unfold Listing.files_in, Listing.folders_in, os_listdir.
  rewrite Hfs. split; reflexivity.
Qed.

Lemma files_of_a_root_list_raise_witness :
  Listing.files Sample.fs_two_roots
    (DirPaths.init Sample.new_PathFilters
       (Sample.defaults (DirPaths.PathList ["a"; "b"]))) []
  = RaiseOSError
  /\ Listing.folders Sample.fs_two_roots
       (DirPaths.init Sample.new_PathFilters
          (Sample.defaults (DirPaths.PathList ["a"; "b"]))) []
     = RaiseOSError.
Proof.
  apply (files_of_a_root_list_raise Sample.no_filters_arg
           Sample.new_PathFilters Sample.fs_two_roots
           (Sample.defaults (DirPaths.PathList ["a"; "b"])) ["a"; "b"] []);
    reflexivity.
Defined.

(** * The filter decision, hidden entries and the parallel traverser *)

Example Path_absolute_at_the_root :
  Py.Path_absolute "/" "r/app.log" = "/r/app.log"
  /\ Py.Path_absolute "/home/u/" "r" = "/home/u/r".
Proof. split; reflexivity. Qed.

(** ** The example of the filter decision *)



(** ** Hidden entries *)

Lemma relative_of_root (r : string) : Crawler.relative r r = ""%string.
Proof. unfold Crawler.relative. apply slice_from_beyond. lia. Qed.



(** ** The parallel traverser *)

Lemma scan_unfold (segs : list string) (ds : list (string * dir))
      (names : list string) :
  Sprinter.scan segs (Dir ds names)
  = (segs, Dir ds names)
    :: flat_map (fun nd => Sprinter.scan (segs ++ [fst nd]) (snd nd)) ds.
Proof.
  cbn [Sprinter.scan]. f_equal.
  induction ds as [|[n c] ds IH]; simpl; [reflexivity|].
  rewrite IH. reflexivity.
Qed.

(** The full walk of the specification visits the directories of
    [seg_walk]. *)
Lemma scan_seg_walk (d : dir) :
  forall segs,
    map (fun sd => (fst sd, files (snd sd))) (Sprinter.scan segs d)
    = seg_walk segs d.
Proof.
  induction d as [ds names IH] using dir_induction. intros segs.
  rewrite scan_unfold, seg_walk_unfold. cbn [map fst snd files]. f_equal.
  rewrite map_flat_map. apply flat_map_ext_in. intros nd Hnd.
  rewrite Forall_forall in IH. apply IH. assumption.
Qed.

Lemma no_hidden_unfold (ds : list (string * dir)) (names : list string) :
  no_hidden (Dir ds names) = true
  <-> forallb (fun n => negb (Sprinter.hidden n)) names = true
      /\ forallb (fun n => negb (Sprinter.hidden n)) (map fst ds) = true
      /\ Forall (fun nd => no_hidden (snd nd) = true) ds.
Proof.
  cbn [no_hidden]. rewrite !andb_true_iff.
  assert (Hchildren :
            (fix all_children (l : list (string * dir)) : bool :=
               match l with
               | [] => true
               | (_, c) :: l' => no_hidden c && all_children l'
               end) ds = true
            <-> Forall (fun nd => no_hidden (snd nd) = true) ds).
  { induction ds as [|[n c] ds IH].
    - split; [constructor|reflexivity].
    - rewrite andb_true_iff, IH. split.
      + intros [Hc Hrest]. constructor; assumption.
      + intros H. inversion H; subst. split; assumption. }
  rewrite Hchildren. tauto.
Qed.

Lemma seg_walk_visible (d : dir) :
  forall segs sf,
    no_hidden d = true ->
    Forall (fun n => Sprinter.hidden n = false) segs ->
    In sf (seg_walk segs d) ->
    Forall (fun n => Sprinter.hidden n = false) (fst sf)
    /\ Forall (fun n => Sprinter.hidden n = false) (snd sf).
Proof.
  induction d as [ds names IH] using dir_induction.
  intros segs sf Hvis Hsegs.
  apply no_hidden_unfold in Hvis. destruct Hvis as (Hnames & Hds & Hsub).
  rewrite forallb_forall in Hnames, Hds.
  rewrite seg_walk_unfold. intros [<-|Hbelow].
  - split; [assumption|]. apply Forall_forall. intros n Hn.
    apply negb_true_iff. apply Hnames. assumption.
  - apply in_flat_map in Hbelow. destruct Hbelow as (nd & Hnd & Hsf).
    rewrite Forall_forall in IH, Hsub.
    apply (IH nd Hnd (segs ++ [fst nd])); [apply Hsub; assumption| |exact Hsf].
    apply Forall_app. split; [assumption|]. constructor; [|constructor].
    apply negb_true_iff. apply Hds. apply in_map. assumption.
Qed.

Lemma existsb_none {A : Type} (f : A -> bool) (l : list A) :
  Forall (fun x => f x = false) l -> existsb f l = false.
Proof.
  induction 1 as [|x l Hx _ IH]; [reflexivity|].
  cbn [existsb]. rewrite Hx, IH. reflexivity.
Qed.

Lemma filter_all {A : Type} (f : A -> bool) (l : list A) :
  Forall (fun x => f x = false) l ->
  List.filter (fun x => negb (f x)) l = l.
Proof.
  induction 1 as [|x l Hx _ IH]; [reflexivity|].
  cbn [List.filter]. rewrite Hx, IH. reflexivity.
Qed.

(** In flat mode, on a directory without hidden names, the per-entry
    algorithm of the specification emits what [Crawler.filter] emits. *)
Lemma per_entry_is_root_output (c : Crawler.t) (pf : PathFilters)
      (r : string) (sd : list string * dir) :
  non_empty_folders pf = false ->
  Forall (fun n => Sprinter.hidden n = false) (fst sd) ->
  Forall (fun n => Sprinter.hidden n = false) (files (snd sd)) ->
  Sprinter.per_entry (Some pf) (Crawler.full_paths c) r sd
  = root_output c pf r (String.concat "/" (fst sd)) (files (snd sd)).
Proof.
  intros Hflat Hsegs Hnames. unfold Sprinter.per_entry, root_output.
  cbv zeta. rewrite (existsb_none _ _ Hsegs), (filter_all _ _ Hnames).
  rewrite Hflat. cbn [andb].
  destruct (validate pf (String.concat "/" (fst sd))); reflexivity.
Qed.

Section OneRootScan.

Variable c : Crawler.t.
Variable pf : PathFilters.
Variable r : string.
Hypothesis flat_mode : non_empty_folders pf = false.
Hypothesis r_not_empty : r <> ""%string.
Hypothesis r_no_trailing_sep : Py.endswith_sep r = false.

(** The scan of a sub-tree by the specification and the walk of it by
    [Crawler.filter] emit the same paths, in the same order. *)
Lemma scan_is_filter_output (d : dir) (segs : list string) :
  wf_dir d = true ->
  no_hidden d = true ->
  Forall (fun n => valid_name n = true) segs ->
  Forall (fun n => Sprinter.hidden n = false) segs ->
  flat_map (Sprinter.per_entry (Some pf) (Crawler.full_paths c) r)
           (Sprinter.scan segs d)
  = flat_map (entry_output c pf r) (walk_dir true (path_at r segs) d).
Proof.
  intros Hwf Hvis Hsegs Hshown.
  change (flat_map (entry_output c pf r) (walk_dir true (path_at r segs) d))
    with (flat_map
            (fun e => (fun rf => root_output c pf r (fst rf) (snd rf))
                        (Crawler.relative r (dirpath e), filenames e))
            (walk_dir true (path_at r segs) d)).
  rewrite <- (flat_map_map
                (fun e => (Crawler.relative r (dirpath e), filenames e))
                (fun rf => root_output c pf r (fst rf) (snd rf))).
  rewrite (walk_dir_segs r r_not_empty r_no_trailing_sep d segs Hwf Hsegs).
  rewrite <- (scan_seg_walk d segs). rewrite !flat_map_map.
  cbn [fst snd]. apply flat_map_ext_in. intros sd Hsd.
  assert (Hsf : In (fst sd, files (snd sd)) (seg_walk segs d)).
  { rewrite <- (scan_seg_walk d segs).
    apply (in_map (fun sd => (fst sd, files (snd sd)))). assumption. }
  destruct (seg_walk_visible d segs _ Hvis Hshown Hsf) as [H1 H2].
  apply per_entry_is_root_output; assumption.
Qed.

End OneRootScan.

(** *** The partition of the units *)

Section Partition.

Variable fs : filesystem.
Variable directory : list string.
Variable pool_size : nat.

#[local] Abbreviation units := (Sprinter.units fs directory).
#[local] Abbreviation workers := (Sprinter.workers fs directory pool_size).
#[local] Abbreviation assigned := (Sprinter.assigned fs directory pool_size).

Lemma in_assigned_from (l : list Sprinter.work) :
  forall (i k : nat) (w : Sprinter.work),
    In w (Sprinter.assigned_from fs directory pool_size i k l)
    <-> exists j, nth_error l j = Some w /\ (i + j) mod workers = k.
Proof.
  induction l as [|w0 l IH]; intros i k w; simpl.
  - split; [intros []|]. intros (j & Hj & _). destruct j; discriminate.
  - assert (Hrest :
              In w (Sprinter.assigned_from fs directory pool_size (S i) k l)
              <-> exists j, nth_error l j = Some w
                            /\ (i + S j) mod workers = k).
    { rewrite IH. split; intros (j & Hj & Hmod); exists j;
        (split; [assumption|]);
        replace (i + S j) with (S i + j) in * by lia; assumption. }
    destruct (Nat.eqb_spec (i mod workers) k) as [Hk|Hk].
    + simpl. rewrite Hrest. split.
      * intros [<-|(j & Hj & Hmod)].
        -- exists 0. rewrite Nat.add_0_r. auto.
        -- exists (S j). auto.
      * intros ([|j] & Hj & Hmod).
        -- left. simpl in Hj. congruence.
        -- right. exists j. auto.
    + rewrite Hrest. split.
      * intros (j & Hj & Hmod). exists (S j). auto.
      * intros ([|j] & Hj & Hmod).
        -- rewrite Nat.add_0_r in Hmod. contradiction.
        -- exists j. auto.
Qed.

Lemma assigned_is_unit (k : nat) (w : Sprinter.work) :
  In w (assigned k) -> In w units.
Proof.
  unfold Sprinter.assigned. rewrite in_assigned_from.
  intros (j & Hj & _). eapply nth_error_In. exact Hj.
Qed.

(** Every unit goes to one of the workers. *)
Lemma unit_is_assigned (w : Sprinter.work) :
  1 <= pool_size ->
  In w units ->
  exists k, k < workers /\ In w (assigned k).
Proof.
  intros Hpool Hw.
  assert (Hpos : 1 <= workers).
  { unfold Sprinter.workers. revert Hw.
    destruct (Sprinter.units fs directory); intros Hw; [destruct Hw|].
    simpl. lia. }
  apply In_nth_error in Hw. destruct Hw as [j Hj].
  exists (j mod workers). split.
  - apply Nat.mod_upper_bound. lia.
  - unfold Sprinter.assigned. apply in_assigned_from.
    exists j. auto.
Qed.

End Partition.

(** *** A run in which every unit is scanned *)

Section Merge.

Variable fs : filesystem.
Variable directory : list string.
Variable filters : option PathFilters.
Variable full_paths : bool.
Variable pool_size : nat.

(** What each unit emits. *)
Variable out : Sprinter.work -> list string.
Hypothesis every_unit_is_scanned :
  forall w,
    In w (Sprinter.units fs directory) ->
    Sprinter.unit_paths fs filters full_paths w = Ok (out w).

Lemma scan_units_found (l : list Sprinter.work) :
  (forall w, In w l -> In w (Sprinter.units fs directory)) ->
  Sprinter.scan_units fs filters full_paths l = (flat_map out l, []).
Proof.
  induction l as [|w l IH]; intros Hl; [reflexivity|].
  cbn [Sprinter.scan_units flat_map].
  rewrite IH by (intros w' Hw'; apply Hl; right; assumption).
  rewrite every_unit_is_scanned by (apply Hl; left; reflexivity).
  reflexivity.
Qed.

Lemma worker_found (k : nat) :
  Sprinter.worker fs directory filters full_paths pool_size k
  = (flat_map out (Sprinter.assigned fs directory pool_size k), []).
Proof.
  unfold Sprinter.worker. apply scan_units_found.
  intros w. apply assigned_is_unit.
Qed.

Lemma collect_found (finished : list nat) :
  Sprinter.collect fs directory filters full_paths pool_size finished
  = (flat_map
       (fun k => flat_map out (Sprinter.assigned fs directory pool_size k))
       finished,
     []).
Proof.
  induction finished as [|k rest IH]; [reflexivity|].
  cbn [Sprinter.collect flat_map]. rewrite IH, worker_found. reflexivity.
Qed.

(** When no root is missing the merged result holds the output of every
    unit, once. *)
Lemma sprinter_found (finished : list nat) :
  1 <= pool_size ->
  Permutation finished (seq 0 (Sprinter.workers fs directory pool_size)) ->
  Sprinter.missing_root fs directory = [] ->
  exists p,
    Sprinter_sprinter finished fs directory filters full_paths pool_size
    = Ok p
    /\ NoDup p
    /\ forall x,
        In x p
        <-> exists w, In w (Sprinter.units fs directory) /\ In x (out w).
Proof.
  intros Hpool Hperm Hroot.
  unfold Sprinter_sprinter, Sprinter.sprinter.
  rewrite collect_found, Hroot. cbn [app].
  unfold Sprinter.as_result.
  cbn [Sprinter.request_failed Sprinter.paths].
  eexists. split; [reflexivity|]. split; [apply NoDup_nodup|].
  intros x. rewrite nodup_In, in_flat_map. split.
  - intros (k & _ & Hx). apply in_flat_map in Hx.
    destruct Hx as (w & Hw & Hx). exists w. split; [|assumption].
    apply (assigned_is_unit fs directory pool_size k). assumption.
  - intros (w & Hw & Hx).
    destruct (unit_is_assigned fs directory pool_size w Hpool Hw)
      as (k & Hk & Hassigned).
    exists k. split.
    + apply (Permutation_in k (Permutation_sym Hperm)).
      apply in_seq. lia.
    + apply in_flat_map. exists w. auto.
Qed.

End Merge.

(** *** The units against the walk of [Crawler] *)

Lemma plain_children (ds : list (string * dir)) (names : list string)
      (n : string) (child : dir) :
  wf_dir (Dir ds names) = true ->
  no_hidden (Dir ds names) = true ->
  In (n, child) ds ->
  valid_name n = true
  /\ Sprinter.hidden n = false
  /\ wf_dir child = true
  /\ no_hidden child = true.
Proof.
  intros Hwf Hvis Hin.
  apply wf_dir_unfold in Hwf. destruct Hwf as (_ & Hds & _ & Hsub).
  apply no_hidden_unfold in Hvis. destruct Hvis as (_ & Hshown & Hkids).
  rewrite forallb_forall in Hds, Hshown.
  rewrite Forall_forall in Hsub, Hkids.
  assert (Hn : In n (map fst ds)) by (apply (in_map fst _ _ Hin)).
  repeat split.
  - apply Hds. assumption.
  - apply negb_true_iff. apply Hshown. assumption.
  - apply (Hsub (n, child)). assumption.
  - apply (Hkids (n, child)). assumption.
Qed.

Lemma NoDup_apart {A : Type} (l1 l2 : list A) (x : A) :
  NoDup (l1 ++ l2) -> In x l1 -> In x l2 -> False.
Proof.
  induction l1 as [|a l1 IH]; intros Hnodup H1 H2; [destruct H1|].
  inversion Hnodup as [|? ? Hnot Hrest]; subst. destruct H1 as [->|H1].
  - apply Hnot. apply in_or_app. right. assumption.
  - apply IH; assumption.
Qed.

Lemma in_filter_topdown (fs : filesystem) (c : Crawler.t) (pf : PathFilters)
      (x : string) :
  In x (Crawler.filter fs c pf [])
  <-> exists r,
      In r (Crawler.directory c)
      /\ In x (flat_map (entry_output c pf r) (os_walk fs r true)).
Proof.
  rewrite filter_is_output. cbn [app]. unfold filter_output.
  rewrite in_flat_map.
  assert (Hsame : forall r,
             In x (flat_map (entry_output c pf r)
                            (os_walk fs r (Crawler.topdown c)))
             <-> In x (flat_map (entry_output c pf r) (os_walk fs r true))).
  { intros r.
    pose proof (Permutation_flat_map (entry_output c pf r)
                  (os_walk_bottom_up fs r (Crawler.topdown c))) as Hperm.
    split; intros Hx.
    - apply (Permutation_in x Hperm). assumption.
    - apply (Permutation_in x (Permutation_sym Hperm)). assumption. }
  split; intros (r & Hr & Hx); exists r; (split; [assumption|]);
    apply Hsame; assumption.
Qed.

Section AgainstCrawler.

Variable fs : filesystem.
Variable c : Crawler.t.
Variable pf : PathFilters.
Hypothesis flat_mode : non_empty_folders pf = false.
Hypothesis plain_roots :
  forall r, In r (Crawler.directory c) -> plain_root fs r.

(** Every unit is scanned, and emits what [Crawler.filter] emits for the
    entries the unit stands for. *)
Lemma unit_is_scanned (w : Sprinter.work) :
  In w (Sprinter.units fs (Crawler.directory c)) ->
  Sprinter.unit_paths fs (Some pf) (Crawler.full_paths c) w
  = Ok (unit_output fs c pf w).
Proof.
  unfold Sprinter.units. destruct (Crawler.directory c) as [|r [|r' rest]].
  - intros [].
  - destruct (plain_roots r (or_introl eq_refl))
      as (Hr & Hend & d & Hfs & Hwf & Hvis).
    rewrite Hfs. intros Hw. apply in_map_iff in Hw.
    destruct Hw as ([n child] & <- & Hin). cbn [fst snd].
    destruct d as [ds names].
    destruct (plain_children ds names n child Hwf Hvis Hin)
      as (Hn & Hshown & Hwfc & Hvisc).
    unfold Sprinter.unit_paths, unit_output.
    cbn [Sprinter.entries bind Sprinter.root_of unit_entries].
    rewrite (scan_is_filter_output c pf r flat_mode Hr Hend child [n])
      by (assumption || (constructor; [assumption|constructor])).
    rewrite (join_onto_dir r n Hr Hend Hn). reflexivity.
  - set (roots := r :: r' :: rest) in *. intros Hw.
    apply in_map_iff in Hw. destruct Hw as (r0 & <- & Hr0).
    destruct (plain_roots r0 Hr0) as (Hr & Hend & d & Hfs & Hwf & Hvis).
    unfold Sprinter.unit_paths, unit_output.
    cbn [Sprinter.entries Sprinter.root_of unit_entries].
    rewrite Hfs. cbn [bind]. rewrite (os_walk_found fs r0 true d Hfs).
    rewrite (scan_is_filter_output c pf r0 flat_mode Hr Hend d [])
      by (assumption || constructor).
    reflexivity.
Qed.

(** The units emit the paths of the sequential traverser, less those of
    the directory entry of a single root. *)
Lemma units_cover (x : string) :
  (exists w,
      In w (Sprinter.units fs (Crawler.directory c))
      /\ In x (unit_output fs c pf w))
  <-> left_to_workers fs c pf x.
Proof.
  unfold left_to_workers. rewrite in_filter_topdown.
  unfold Sprinter.units.
  destruct (Crawler.directory c) as [|r [|r' rest]] eqn:Hdir.
  - split; [intros (w & [] & _)|intros [(r & [] & _) _]].
  - destruct (plain_roots r (or_introl eq_refl))
      as (Hr & Hend & d & Hfs & Hwf & Hvis).
    rewrite Hfs. unfold own_entry_output. rewrite Hfs.
    destruct d as [ds names].
    pose proof (one_root_output_NoDup c pf r (Dir ds names) Hr Hend Hwf)
      as Hnodup.
    rewrite walk_dir_unfold in Hnodup. cbv zeta in Hnodup.
    cbn [flat_map subdirs files] in Hnodup |- *.
    assert (Hbelow : forall y,
               (exists w,
                   In w (map (fun nd => Sprinter.ChildTree r (fst nd)
                                                           (snd nd)) ds)
                   /\ In y (unit_output fs c pf w))
               <-> In y (flat_map
                           (entry_output c pf r)
                           (flat_map
                              (fun nd => walk_dir true (Py.join r (fst nd))
                                                  (snd nd)) ds))).
    { intros y. rewrite in_flat_map. split.
      - intros (w & Hw & Hy). apply in_map_iff in Hw.
        destruct Hw as (nd & <- & Hnd). unfold unit_output in Hy.
        cbn [Sprinter.root_of unit_entries] in Hy.
        apply in_flat_map in Hy. destruct Hy as (e & He & Hy).
        exists e. split; [|assumption].
        apply in_flat_map. exists nd. auto.
      - intros (e & He & Hy). apply in_flat_map in He.
        destruct He as (nd & Hnd & He).
        exists (Sprinter.ChildTree r (fst nd) (snd nd)).
        split;
          [exact (in_map (fun nd => Sprinter.ChildTree r (fst nd) (snd nd))
                         _ _ Hnd)|].
        unfold unit_output. cbn [Sprinter.root_of unit_entries].
        apply in_flat_map. exists e. auto. }
    rewrite Hbelow. split.
    + intros Hx. split.
      * exists r. split; [left; reflexivity|].
        rewrite (os_walk_found fs r true _ Hfs), walk_dir_unfold.
        cbv zeta. cbn [flat_map]. apply in_or_app. right. assumption.
      * intros Hown. exact (NoDup_apart _ _ x Hnodup Hown Hx).
    + intros [(r0 & [<-|[]] & Hx) Hown].
      rewrite (os_walk_found fs r true _ Hfs), walk_dir_unfold in Hx.
      cbv zeta in Hx. cbn [flat_map] in Hx.
      apply in_app_or in Hx. destruct Hx as [Hx|Hx]; [contradiction|].
      assumption.
  - set (roots := r :: r' :: rest) in *. split.
    + intros (w & Hw & Hx). apply in_map_iff in Hw.
      destruct Hw as (r0 & <- & Hr0). split; [|exact I].
      exists r0. split; assumption.
    + intros [(r0 & Hr0 & Hx) _]. exists (Sprinter.WholeRoot r0).
      split; [apply in_map; assumption|assumption].
Qed.

End AgainstCrawler.

(** *** The two traversers *)

(** The parallel traverser of the specification returns, whatever the
    number of workers and the order in which they complete, the paths of
    [Crawler.filter] that its partition leaves to the workers. *)
Lemma Sprinter_against_Crawler (fs : filesystem) (directory : list string)
      (pf : PathFilters) (full_paths topdown : bool) (pool_size : nat)
      (finished : list nat) :
  1 <= pool_size ->
  Permutation finished (seq 0 (Sprinter.workers fs directory pool_size)) ->
  non_empty_folders pf = false ->
  (forall r, In r directory -> plain_root fs r) ->
  exists p,
    Sprinter_sprinter finished fs directory (Some pf) full_paths pool_size
    = Ok p
    /\ NoDup p
    /\ forall x,
        In x p
        <-> left_to_workers fs {| Crawler.directory := directory;
                                  Crawler.filters := Some pf;
                                  Crawler.full_paths := full_paths;
                                  Crawler.topdown := topdown |} pf x.
Proof.
  intros Hpool Hperm Hflat Hplain.
  set (c := {| Crawler.directory := directory;
               Crawler.filters := Some pf;
               Crawler.full_paths := full_paths;
               Crawler.topdown := topdown |}).
  assert (Hmissing : Sprinter.missing_root fs directory = []).
  { unfold Sprinter.missing_root. destruct directory as [|r [|r' rest]];
      try reflexivity.
    destruct (Hplain r (or_introl eq_refl)) as (_ & _ & d & -> & _).
    reflexivity. }
  destruct (sprinter_found fs directory (Some pf) full_paths pool_size
              (unit_output fs c pf)
              (unit_is_scanned fs c pf Hflat Hplain)
              finished Hpool Hperm Hmissing)
    as (p & Hrun & Hnodup & Hin).
  exists p. split; [exact Hrun|]. split; [exact Hnodup|].
  intros x. rewrite Hin. apply (units_cover fs c pf Hplain).
Qed.

Lemma init_with_filters (F : Type)
      (new_PathFilters :
         option (list string) -> option (list string) -> level -> level ->
         option (list F) -> bool -> PathFilters)
      (a : DirPaths.args F) :
  DirPaths.no_filter_options a = false ->
  DirPaths.self_filters (DirPaths.init new_PathFilters a)
  = Some (new_PathFilters (DirPaths.to_include a) (DirPaths.to_exclude a)
            (DirPaths.min_level a) (DirPaths.max_level a)
            (DirPaths.filters a) (DirPaths.non_empty_folders a)).
Proof.
  unfold DirPaths.no_filter_options. cbn [DirPaths.init DirPaths.self_filters].
  destruct (truthy (DirPaths.to_include a)),
           (truthy (DirPaths.to_exclude a)),
           (truthy (DirPaths.filters a)),
           (level_eqb (DirPaths.min_level a) (Fin 0)),
           (level_eqb (DirPaths.max_level a) Inf);
    cbn [negb andb orb]; intros H; try reflexivity; discriminate H.
Qed.



(** The two runs over the two roots, and over the single root [a], side by
    side. *)
Example parallel_walk_samples :
  Sprinter_sprinter [1; 0] Filtered.fs_pair ["a"; "b"]
                    (Some Filtered.up_to_three) false 2
  = Ok ["h.txt"; "f.txt"; "s/g.txt"]
  /\ Crawler.filter Filtered.fs_pair
       {| Crawler.directory := ["a"; "b"];
          Crawler.filters := Some Filtered.up_to_three;
          Crawler.full_paths := false;
          Crawler.topdown := true |} Filtered.up_to_three []
     = ["f.txt"; "s/g.txt"; "h.txt"]
  /\ Sprinter_sprinter [0] Filtered.fs_pair ["a"]
                       (Some Filtered.up_to_three) false 2
     = Ok ["s/g.txt"]
  /\ Sprinter_sprinter [0; 1] Filtered.fs_pair ["a"; "gone"]
                       (Some Filtered.up_to_three) false 2
     = Ok ["f.txt"; "s/g.txt"]
  /\ Sprinter_sprinter [] Filtered.fs_pair ["gone"]
                       (Some Filtered.up_to_three) false 2
     = Raise RootNotFound.
Proof. repeat split. Qed.


(** Where the hypotheses of C1 (as amended) fail, the two traversers part
    on more than the directory entry of the root: on hidden names, on an
    empty directory at the maximum level in non-empty-folders mode, and on
    a request without a filter set. *)
Example parallel_walk_elsewhere :
  Sprinter_sprinter [1; 0] Sample.fs_hidden ["r"; "r"]
                    (Some Filtered.up_to_three) false 2
  = Ok ["main.py"]
  /\ Crawler.filter Sample.fs_hidden
       {| Crawler.directory := ["r"; "r"];
          Crawler.filters := Some Filtered.up_to_three;
          Crawler.full_paths := false;
          Crawler.topdown := true |} Filtered.up_to_three []
     = [".env"; "main.py"; ".git/config"; ".env"; "main.py"; ".git/config"]
  /\ Sprinter_sprinter [1; 0] Sample.fs_nested ["r"; "r"]
       (Some (FilterSet.as_PathFilters Sample.level_two_folders)) false 2
     = Ok ["a/b"]
  /\ Crawler.filter Sample.fs_nested
       {| Crawler.directory := ["r"; "r"];
          Crawler.filters :=
            Some (FilterSet.as_PathFilters Sample.level_two_folders);
          Crawler.full_paths := false;
          Crawler.topdown := true |}
       (FilterSet.as_PathFilters Sample.level_two_folders) []
     = ["a/b"; "a/c"; "a/b"; "a/c"]
  /\ Sprinter_sprinter [1; 0] Filtered.fs_pair ["a"; "b"] None false 2
     = Ok ["h.txt"; "f.txt"; "s/g.txt"]
  /\ Crawler.init Filtered.fs_pair
       {| Crawler.directory := ["a"; "b"];
          Crawler.filters := None;
          Crawler.full_paths := false;
          Crawler.topdown := true |}
     = Raise AttributeError.
Proof. repeat split. Qed.
